(** * CDataFile: a shallow embedding of src/src/CDataFile.cpp

    The class stores key/value pairs, grouped in sections, in a text file.
    This development embeds the text utilities ([Trim], [GetNextWord],
    [CompareNoCase], [CommentStr]), the document model, the accessor API,
    the parser ([Load]) and the writer ([Save]), settles the claims made
    about them and proves further properties of the code.

    Conventions of the embedding:
    - [t_Str] (std::string) is a list of bytes; a [const char*] obtained
      with [c_str()] and read by a C function stops at the first NUL;
    - [size_t] has 64 bits and [int] 32: [size_t] values are kept in [Z]
      with [npos = 2^64 - 1], and a conversion to [int] wraps ([to_int]);
    - a pointer into [m_Sections] or into the [Keys] of a section is the
      index of the element, the null pointer is [None];
    - an operation that can leave by an exception or run into undefined
      behaviour returns an [outcome];
    - [Report] prints a diagnostic: the operations do not thread what it
      prints. Two calls format data of the document and are undefined for
      some names: the one in [CreateSection], with which
      [CreateSection_call] and [Load] return only when it does, and the
      one in [SetFileName] ([SetFileName_Report]);
    - [GetFloat] and [SetFloat] convert floating-point numbers and are not
      embedded. *)

From Stdlib Require Import ZArith Ascii String Lia.
From stdpp Require Import base decidable option list numbers strings.

Local Open Scope Z_scope.

(** ** Outcomes of a call *)

Inductive exception : Type :=
| out_of_range.   (* std::out_of_range, thrown by basic_string::erase / substr *)

Inductive outcome (A : Type) : Type :=
| Returned (a : A)          (* the call returned normally *)
| Thrown (e : exception)    (* an exception left the call *)
| Undefined.                (* undefined behaviour: null dereference, overrun, signed overflow *)

Arguments Returned {A} a.
Arguments Thrown {A} e.
Arguments Undefined {A}.

#[global] Instance outcome_ret : MRet outcome := fun A a => Returned a.

#[global] Instance outcome_bind : MBind outcome := fun A B f m =>
  match m with
  | Returned a => f a
  | Thrown e => Thrown e
  | Undefined => Undefined
  end.

#[global] Instance outcome_fmap : FMap outcome := fun A B f m =>
  match m with
  | Returned a => Returned (f a)
  | Thrown e => Thrown e
  | Undefined => Undefined
  end.

(** ** Bytes, strings and integer conversions *)

(** [typedef std::string t_Str]. *)
Abbreviation t_Str := (list ascii) (only parsing).

Definition str (s : string) : t_Str := list_ascii_of_string s.

Arguments str : simpl never.

Definition NUL : ascii := "000"%char.
Definition LF : ascii := "010"%char.

(** The bytes a C function sees behind [s.c_str()]. *)
Fixpoint c_str (s : t_Str) : t_Str :=
  match s with
  | [] => []
  | c :: s' => if decide (c = NUL) then [] else c :: c_str s'
  end.

Definition size (s : t_Str) : Z := Z.of_nat (length s).

Definition npos : Z := 2 ^ 64 - 1.

Definition to_size_t (z : Z) : Z := z mod 2 ^ 64.

Definition to_int (z : Z) : Z := (z + 2 ^ 31) mod 2 ^ 32 - 2 ^ 31.

Definition INT_MAX : Z := 2 ^ 31 - 1.

(** [int] addition; signed overflow is undefined. *)
Definition int_add (a b : Z) : outcome Z :=
  if (a + b <? - 2 ^ 31) || (INT_MAX <? a + b) then Undefined else Returned (a + b).

Definition is_one_of (chars : t_Str) (c : ascii) : bool := bool_decide (c ∈ chars).

(** Index of the first / last element satisfying [P]. *)
Fixpoint first_index (P : ascii -> bool) (s : t_Str) : option nat :=
  match s with
  | [] => None
  | c :: s' => if P c then Some 0%nat else S <$> first_index P s'
  end.

Fixpoint last_index (P : ascii -> bool) (s : t_Str) : option nat :=
  match s with
  | [] => None
  | c :: s' =>
      match last_index P s' with
      | Some i => Some (S i)
      | None => if P c then Some 0%nat else None
      end
  end.

Definition pos_or_npos (o : option nat) : Z :=
  match o with
  | Some i => Z.of_nat i
  | None => npos
  end.

Definition find_first_of (s chars : t_Str) : Z :=
  pos_or_npos (first_index (is_one_of chars) s).

Definition find_first_not_of (s chars : t_Str) : Z :=
  pos_or_npos (first_index (fun c => negb (is_one_of chars c)) s).

Definition find_last_of (s chars : t_Str) : Z :=
  pos_or_npos (last_index (is_one_of chars) s).

Definition find_last_not_of (s chars : t_Str) : Z :=
  pos_or_npos (last_index (fun c => negb (is_one_of chars c)) s).

Fixpoint starts_with (pat s : t_Str) : bool :=
  match pat, s with
  | [], _ => true
  | _ :: _, [] => false
  | p :: pat', c :: s' => bool_decide (p = c) && starts_with pat' s'
  end.

(** [s.find(pat)]: position of the first occurrence of [pat] in [s]. *)
Fixpoint find_occurrence (s pat : t_Str) : option nat :=
  if starts_with pat s then Some 0%nat
  else match s with
       | [] => None
       | _ :: s' => S <$> find_occurrence s' pat
       end.

Definition find (s pat : t_Str) : Z := pos_or_npos (find_occurrence s pat).

(** [s.erase(pos, n)] and [s.substr(pos, n)], with [pos] and [n] of type
    [size_t]: both throw when [pos > s.size()]. *)
Definition erase (s : t_Str) (pos n : Z) : outcome t_Str :=
  if size s <? pos then Thrown out_of_range
  else
    let n' := Z.min n (size s - pos) in
    Returned (take (Z.to_nat pos) s ++ drop (Z.to_nat (pos + n')) s).

Definition substr (s : t_Str) (pos n : Z) : outcome t_Str :=
  if size s <? pos then Thrown out_of_range
  else
    let n' := Z.min n (size s - pos) in
    Returned (take (Z.to_nat n') (drop (Z.to_nat pos) s)).

(** ** Case-insensitive comparison *)

Definition byte (c : ascii) : Z := Z.of_N (N_of_ascii c).

(** [tolower] of the C locale. *)
Definition tolower (c : ascii) : ascii :=
  if (65 <=? byte c) && (byte c <=? 90) then ascii_of_N (N_of_ascii c + 32) else c.

(** [strcasecmp] on two C strings (the end of the list is the terminator). *)
Fixpoint strcasecmp (s1 s2 : t_Str) : Z :=
  match s1, s2 with
  | [], [] => 0
  | [], c2 :: _ => 0 - byte (tolower c2)
  | c1 :: _, [] => byte (tolower c1) - 0
  | c1 :: s1', c2 :: s2' =>
      let d := byte (tolower c1) - byte (tolower c2) in
      if d =? 0 then strcasecmp s1' s2' else d
  end.

Definition CompareNoCase (str1 str2 : t_Str) : Z :=
  strcasecmp (c_str str1) (c_str str2).

(** ** The constants of CDataFile.h

    The header is not part of src/: its constants are parameters of the
    development. *)

Class Header : Type := {
  WhiteSpace : t_Str;
  EqualIndicators : t_Str;
  CommentIndicators : t_Str;
  MAX_BUFFER_LEN : nat;
  AUTOCREATE_SECTIONS : Z;
  AUTOCREATE_KEYS : Z
}.

(** ** The document model

    [t_Key] and [t_Section] both have a member [szComment], and the methods
    have parameters named [szKey] and [szComment]: the members carry the
    prefix [k_] (of a key) or [s_] (of a section) here. *)

Record t_Key : Type := mk_Key {
  k_szKey : t_Str;
  k_szValue : t_Str;
  k_szComment : t_Str
}.

(** [typedef std::vector<t_Key> KeyList]. *)
Abbreviation KeyList := (list t_Key) (only parsing).

Record t_Section : Type := mk_Section {
  s_szName : t_Str;
  s_szComment : t_Str;
  s_Keys : KeyList
}.

(** [typedef std::vector<t_Section> SectionList]. *)
Abbreviation SectionList := (list t_Section) (only parsing).

Record CDataFile : Type := mk_CDataFile {
  m_Sections : SectionList;
  m_szFileName : t_Str;
  m_bDirty : bool;
  m_Flags : Z
}.

(** [new t_Section]: all members empty. *)
Definition new_Section : t_Section := mk_Section [] [] [].

Definition set_Sections (l : SectionList) (d : CDataFile) : CDataFile :=
  mk_CDataFile l (m_szFileName d) (m_bDirty d) (m_Flags d).
Definition set_FileName (n : t_Str) (d : CDataFile) : CDataFile :=
  mk_CDataFile (m_Sections d) n (m_bDirty d) (m_Flags d).
Definition set_Dirty (b : bool) (d : CDataFile) : CDataFile :=
  mk_CDataFile (m_Sections d) (m_szFileName d) b (m_Flags d).
Definition set_Flags (f : Z) (d : CDataFile) : CDataFile :=
  mk_CDataFile (m_Sections d) (m_szFileName d) (m_bDirty d) f.

Definition set_Keys (l : KeyList) (s : t_Section) : t_Section :=
  mk_Section (s_szName s) (s_szComment s) l.

(** Writes through a [t_Section*] and through a [t_Key*]. *)
Definition alter_section (f : t_Section -> t_Section) (pSection : nat)
    (d : CDataFile) : CDataFile :=
  set_Sections (alter f pSection (m_Sections d)) d.

Definition alter_key (f : t_Key -> t_Key) (pKey : nat * nat)
    (d : CDataFile) : CDataFile :=
  alter_section (fun s => set_Keys (alter f (snd pKey) (s_Keys s)) s) (fst pKey) d.

(** The file system as [Load] and [Save] see it: the content of the files
    that can be opened for reading, and whether a path can be opened for
    writing. A path reaches the stream constructors through [c_str()]. *)
Record FileSystem : Type := mk_FileSystem {
  fs_content : t_Str -> option t_Str;
  fs_writable : t_Str -> bool
}.

Definition fs_write (path text : t_Str) (fs : FileSystem) : FileSystem :=
  mk_FileSystem
    (fun p => if decide (p = path) then Some text else fs_content fs p)
    (fs_writable fs).

(** [std::istream::getline(buffer, n)] with [room = n - 1]: the characters
    stored, the rest of the stream, and whether [eof() || fail()] holds
    afterwards. The end of the stream sets eofbit (and failbit when nothing
    was extracted); a line feed is extracted and dropped; [n - 1] stored
    characters followed by another character set failbit. *)
Fixpoint getline (File : t_Str) (room : nat) : t_Str * t_Str * bool :=
  match File with
  | [] => ([], [], true)
  | c :: File' =>
      if decide (c = LF) then ([], File', false)
      else match room with
           | O => ([], File, true)
           | S room' =>
               let '(buffer, rest, bDone) := getline File' room' in
               (c :: buffer, rest, bDone)
           end
  end.

(** ** [Report]

    [Report] formats its message like [WriteLn], into a buffer that was
    filled with zeros, appends a line feed over the terminator, copies the
    buffer as a C string after the name of the level, and hands the result
    to [printf] as its format. It returns what is printed. *)

Inductive e_DebugLevel : Type :=
| E_DEBUG | E_INFO | E_WARN | E_ERROR | E_FATAL | E_CRITICAL.

Definition level_name (DebugLevel : e_DebugLevel) : t_Str :=
  match DebugLevel with
  | E_DEBUG => str "<debug> "
  | E_INFO => str "<info> "
  | E_WARN => str "<warn> "
  | E_ERROR => str "<error> "
  | E_FATAL => str "<fatal> "
  | E_CRITICAL => str "<critical> "
  end.

(** [printf(fmt)] without further arguments: a percent sign must be
    followed by another one; any other conversion has no argument to
    read. *)
Fixpoint printf_no_args (fmt : t_Str) : outcome t_Str :=
  match fmt with
  | [] => mret []
  | c :: fmt' =>
      if decide (c = "%"%char) then
        match fmt' with
        | c' :: fmt'' =>
            if decide (c' = "%"%char)
            then out ← printf_no_args fmt''; mret ("%"%char :: out)
            else Undefined
        | [] => Undefined
        end
      else out ← printf_no_args fmt'; mret (c :: out)
  end.

Section CDataFile.

Context {hdr : Header}.

(** *** Utility functions *)

Definition Trim (szStr : t_Str) : outcome t_Str :=
  let szTrimChars := WhiteSpace ++ EqualIndicators in
  (* trim left *)
  let nPos := to_int (find_first_not_of szStr szTrimChars) in
  szStr ← (if 0 <? nPos then erase szStr 0 (to_size_t nPos) else mret szStr);
  (* trim right and return *)
  let nPos := to_int (find_last_not_of szStr szTrimChars) in
  let rPos := to_int (find_last_of szStr szTrimChars) in
  if (nPos <? rPos) && (-1 <? rPos)
  then erase szStr (to_size_t rPos) (to_size_t (size szStr - to_size_t rPos))
  else mret szStr.

(** Returns the word and the new content of [CommandLine]. *)
Definition GetNextWord (CommandLine : t_Str) : outcome (t_Str * t_Str) :=
  let nPos := to_int (find_first_of CommandLine EqualIndicators) in
  '(sWord, CommandLine) ←
    (if -1 <? nPos then
       sWord ← substr CommandLine 0 (to_size_t nPos);
       n ← int_add nPos 1;
       CommandLine ← erase CommandLine 0 (to_size_t n);
       mret (sWord, CommandLine)
     else mret (CommandLine, []));
  sWord ← Trim sWord;
  mret (sWord, CommandLine).

(** [s[0]] of a constant string: the terminator when [s] is empty. *)
Definition char0 (s : t_Str) : ascii := hd NUL s.

Definition CommentStr (szComment : t_Str) : outcome t_Str :=
  szComment ← Trim szComment;
  if size szComment =? 0 then mret szComment
  else
    let szNewStr :=
      if negb (find_first_of szComment CommentIndicators =? 0)
      then [char0 CommentIndicators] ++ str " "
      else [] in
    mret (szNewStr ++ szComment).

(** *** Protected member functions *)

Definition GetSection (d : CDataFile) (szSection : t_Str) : option nat :=
  fst <$> list_find (fun s => CompareNoCase (s_szName s) szSection = 0) (m_Sections d).

Definition GetKey (d : CDataFile) (szKey szSection : t_Str) : option (nat * nat) :=
  pSection ← GetSection d szSection;
  Section ← m_Sections d !! pSection;
  k_pos ← fst <$> list_find (fun k => CompareNoCase (k_szKey k) szKey = 0) (s_Keys Section);
  Some (pSection, k_pos).

(** *** Diagnostics *)

Definition Report (DebugLevel : e_DebugLevel) (formatted : t_Str) : outcome t_Str :=
  let nLength := length formatted in
  if (MAX_BUFFER_LEN <=? nLength)%nat then Undefined      (* buf[nLength] *)
  else if (MAX_BUFFER_LEN <=? nLength + 1)%nat then Undefined   (* szMsg += buf *)
  else
    let buf := c_str (formatted ++ [LF]) in
    let szMsg := level_name DebugLevel ++ buf in
    printf_no_args (c_str szMsg).

(** The message of [CreateSection] for a name that is taken. *)
Definition CreateSection_message (szSection : t_Str) : t_Str :=
  str "[CDataFile::CreateSection] Section <" ++ c_str szSection
  ++ str "> allready exists. Aborting.".

(** *** Sections *)

(** The result of [CreateSection] and the document it leaves. On a name
    that is taken the source reports it before it returns false: the call
    with that report is [CreateSection_call]. *)
Definition CreateSection (d : CDataFile) (szSection szComment : t_Str)
    : bool * CDataFile :=
  match GetSection d szSection with
  | Some _ => (false, d)
  | None =>
      let pSection := mk_Section szSection szComment (s_Keys new_Section) in
      let d := set_Sections (m_Sections d ++ [pSection]) d in
      (true, set_Dirty true d)
  end.

(** The call of [CreateSection]: on a name that is taken it returns when
    [Report] does, which is undefined for a name with a conversion in it or
    too long for the buffer. What is printed is not kept. *)
Definition CreateSection_call (d : CDataFile) (szSection szComment : t_Str)
    : outcome (bool * CDataFile) :=
  match GetSection d szSection with
  | Some _ =>
      _ ← Report E_INFO (CreateSection_message szSection);
      mret (false, d)
  | None =>
      let pSection := mk_Section szSection szComment (s_Keys new_Section) in
      let d := set_Sections (m_Sections d ++ [pSection]) d in
      mret (true, set_Dirty true d)
  end.

(** The overload with a key list: its result and the document it leaves.
    It reports a taken name through the call above. *)
Definition CreateSection_KeyList (d : CDataFile) (szSection szComment : t_Str)
    (Keys : KeyList) : bool * CDataFile :=
  let '(created, d) := CreateSection d szSection szComment in
  if negb created then (false, d)
  else
    match GetSection d szSection with
    | None => (false, d)
    | Some pSection =>
        let d := alter_section
                   (fun s => mk_Section szSection (s_szComment s) (s_Keys s)) pSection d in
        let copies :=
          (fun k_pos => mk_Key (k_szKey k_pos) (k_szValue k_pos) (k_szComment k_pos)) <$> Keys in
        let d := alter_section (fun s => set_Keys (s_Keys s ++ copies) s) pSection d in
        (* m_Sections.push_back( *pSection ) *)
        let d := match m_Sections d !! pSection with
                 | Some s => set_Sections (m_Sections d ++ [s]) d
                 | None => d
                 end in
        (true, set_Dirty true d)
    end.

Definition DeleteSection (d : CDataFile) (szSection : t_Str) : bool * CDataFile :=
  match list_find (fun s => CompareNoCase (s_szName s) szSection = 0) (m_Sections d) with
  | Some (s_pos, _) => (true, set_Sections (delete s_pos (m_Sections d)) d)
  | None => (false, d)
  end.

Definition HasSection (d : CDataFile) (szSection : t_Str) : bool :=
  bool_decide (GetSection d szSection ≠ None).

Definition SectionCount (d : CDataFile) : Z :=
  to_int (Z.of_nat (length (m_Sections d))).

Definition KeyCount (d : CDataFile) : Z :=
  foldl (fun nCounter s => to_int (to_size_t nCounter + Z.of_nat (length (s_Keys s))))
        0 (m_Sections d).

Definition SetSectionComment (d : CDataFile) (szSection szComment : t_Str)
    : bool * CDataFile :=
  match list_find (fun s => CompareNoCase (s_szName s) szSection = 0) (m_Sections d) with
  | Some (s_pos, _) =>
      let d := alter_section (fun s => mk_Section (s_szName s) szComment (s_Keys s)) s_pos d in
      (true, set_Dirty true d)
  | None => (false, d)
  end.

(** *** Keys *)

Definition SetValue (d : CDataFile) (szKey szValue szComment szSection : t_Str)
    : bool * CDataFile :=
  let pKey := GetKey d szKey szSection in
  let pSection := GetSection d szSection in
  let '(proceed, d, pSection) :=
    match pSection with
    | None =>
        if bool_decide (Z.land (m_Flags d) AUTOCREATE_SECTIONS = 0) then (false, d, None)
        else
          let '(created, d) := CreateSection d szSection [] in
          if negb created then (false, d, None)
          else (true, d, GetSection d szSection)
    | Some _ => (true, d, pSection)
    end in
  if negb proceed then (false, d)
  else
    match pSection with
    | None => (false, d)   (* sanity check *)
    | Some pSection =>
        match pKey with
        | None =>
            if bool_decide (Z.land (m_Flags d) AUTOCREATE_KEYS ≠ 0) then
              let pKey := mk_Key szKey szValue szComment in
              let d := set_Dirty true d in
              let d := alter_section (fun s => set_Keys (s_Keys s ++ [pKey]) s) pSection d in
              (true, d)
            else (false, d)
        | Some pKey =>
            let d := alter_key (fun k => mk_Key (k_szKey k) szValue szComment) pKey d in
            (true, set_Dirty true d)
        end
    end.

Definition SetBool (d : CDataFile) (szKey : t_Str) (bValue : bool)
    (szComment szSection : t_Str) : bool * CDataFile :=
  let szValue := if bValue then str "True" else str "False" in
  SetValue d szKey szValue szComment szSection.

Definition CreateKey (d : CDataFile) (szKey szValue szComment szSection : t_Str)
    : bool * CDataFile :=
  let bAutoKey := bool_decide (Z.land (m_Flags d) AUTOCREATE_KEYS = AUTOCREATE_KEYS) in
  let d := set_Flags (Z.lor (m_Flags d) AUTOCREATE_KEYS) d in
  let '(bReturn, d) := SetValue d szKey szValue szComment szSection in
  let d := if negb bAutoKey
           then set_Flags (Z.land (m_Flags d) (Z.lnot AUTOCREATE_KEYS)) d else d in
  (bReturn, d).

Definition DeleteKey (d : CDataFile) (szKey szFromSection : t_Str) : bool * CDataFile :=
  match GetSection d szFromSection with
  | None => (false, d)
  | Some pSection =>
      match m_Sections d !! pSection with
      | None => (false, d)
      | Some Section =>
          match list_find (fun k => CompareNoCase (k_szKey k) szKey = 0) (s_Keys Section) with
          | Some (k_pos, _) =>
              (true, alter_section (fun s => set_Keys (delete k_pos (s_Keys s)) s) pSection d)
          | None => (false, d)
          end
      end
  end.

Definition SetKeyComment (d : CDataFile) (szKey szComment szSection : t_Str)
    : bool * CDataFile :=
  match GetKey d szKey szSection with
  | Some pKey =>
      let d := alter_key (fun k => mk_Key (k_szKey k) (k_szValue k) szComment) pKey d in
      (true, set_Dirty true d)
  | None => (false, d)
  end.

(** The getters write their result through the reference [ret]: they take
    its old content and return the status with the new content. *)
Definition GetValue (d : CDataFile) (szKey szSection : t_Str) (ret : t_Str)
    : bool * t_Str :=
  match GetKey d szKey szSection with
  | None => (false, ret)
  | Some pKey =>
      match m_Sections d !! fst pKey ≫= fun s => s_Keys s !! snd pKey with
      | Some k => (true, k_szValue k)
      | None => (false, ret)
      end
  end.

Definition GetString := GetValue.

Definition GetBool (d : CDataFile) (szKey szSection : t_Str) (ret : bool)
    : bool * bool :=
  let '(found, szValue) := GetValue d szKey szSection [] in
  if negb found then (false, ret)
  else
    let ret := false in
    let ret := if (find szValue (str "1") =? 0)
                  || (CompareNoCase szValue (str "true") =? 0)
                  || (CompareNoCase szValue (str "yes") =? 0)
               then true else ret in
    (true, ret).

(** *** Dirty flag and file name *)

Definition SetDirty (d : CDataFile) (dirty : bool) : CDataFile := set_Dirty dirty d.

Definition IsDirty (d : CDataFile) : bool := m_bDirty d.

(** The document [SetFileName] leaves. When it replaces a name by another
    one the source reports it: that call is [SetFileName_Report]. *)
Definition SetFileName (d : CDataFile) (szFileName : t_Str) : CDataFile :=
  let d := if negb (size (m_szFileName d) =? 0)
              && negb (CompareNoCase szFileName (m_szFileName d) =? 0)
           then set_Dirty true d else d in
  set_FileName szFileName d.

(** *** Writing

    [WriteLn] formats into [char buf[MAX_BUFFER_LEN]] with [vsnprintf],
    which returns the length [nLength] of the whole formatted text, and then
    reads [buf[nLength]]: outside the buffer when the text did not fit.
    When it fits, [buf[nLength]] is the terminator, so a line feed is always
    appended. [formatted] is the text the format and its arguments produce;
    the stream is the text written so far. *)
Definition WriteLn (stream formatted : t_Str) : outcome t_Str :=
  let nLength := length formatted in
  if (MAX_BUFFER_LEN <=? nLength)%nat then Undefined
  else mret (stream ++ formatted ++ [LF]).

(** A loop body run over every element of a vector, in order. *)
Fixpoint for_each {A S : Type} (body : S -> A -> outcome S) (l : list A) (s : S)
    : outcome S :=
  match l with
  | [] => mret s
  | x :: l' => s ← body s x; for_each body l' s
  end.

Definition Save_key (File : t_Str) (Key : t_Key) : outcome t_Str :=
  if 0 <? size (k_szKey Key) then
    comment ← CommentStr (k_szComment Key);
    WriteLn File
      ((if 0 <? size (k_szComment Key) then [LF] else [])
       ++ c_str comment
       ++ (if 0 <? size (k_szComment Key) then [LF] else [])
       ++ c_str (k_szKey Key)
       ++ [char0 EqualIndicators]
       ++ c_str (k_szValue Key))
  else mret File.

Definition Save_section (File : t_Str) (Section : t_Section) : outcome t_Str :=
  '(File, bWroteComment) ←
    (if 0 <? size (s_szComment Section) then
       comment ← CommentStr (s_szComment Section);
       File ← WriteLn File ([LF] ++ c_str comment);
       mret (File, true)
     else mret (File, false));
  File ←
    (if 0 <? size (s_szName Section) then
       WriteLn File
         ((if bWroteComment : bool then [] else [LF])
          ++ str "[" ++ c_str (s_szName Section) ++ str "]")
     else mret File);
  for_each Save_key (s_Keys Section) File.

(** The text [Save] writes once the file is open. *)
Definition Save_text (d : CDataFile) : outcome t_Str :=
  for_each Save_section (m_Sections d) [].

Definition Save (d : CDataFile) (fs : FileSystem)
    : outcome (bool * CDataFile * FileSystem) :=
  if (KeyCount d =? 0) && (SectionCount d =? 0) then mret (false, d, fs)
  else if size (m_szFileName d) =? 0 then mret (false, d, fs)
  else if negb (fs_writable fs (c_str (m_szFileName d))) then mret (false, d, fs)
  else
    File ← Save_text d;
    mret (true, set_Dirty false d, fs_write (c_str (m_szFileName d)) File fs).

(** *** Reading *)

Record load_state : Type := mk_load_state {
  ld_this : CDataFile;
  ld_pSection : option nat;
  ld_szComment : t_Str
}.

(** The body of the loop of [Load] once [szLine] is read and trimmed. *)
Definition Load_line (szLine : t_Str) (st : load_state) : outcome load_state :=
  let d := ld_this st in
  let pSection := ld_pSection st in
  let szComment := ld_szComment st in
  if find_first_of szLine CommentIndicators =? 0 then
    mret (mk_load_state d pSection (szComment ++ [LF] ++ szLine))
  else if find_first_of szLine (str "[") =? 0 then
    szLine ← erase szLine 0 1;
    szLine ← erase szLine (find_last_of szLine (str "]")) 1;
    '(_, d) ← CreateSection_call d szLine szComment;
    mret (mk_load_state d (GetSection d szLine) [])
  else if 0 <? size szLine then
    '(szKey, szLine) ← GetNextWord szLine;
    let szValue := szLine in
    if 0 <? size szKey then
      match pSection ≫= fun p => m_Sections d !! p with
      | None => Undefined     (* pSection->szName through a null pointer *)
      | Some Section =>
          let '(_, d) := SetValue d szKey szValue szComment (s_szName Section) in
          mret (mk_load_state d pSection [])
      end
    else mret st
  else mret st.

(** The loop of [Load]; [None] when [fuel] iterations did not reach the end
    of the stream. Every iteration but the last one extracts a line feed, so
    [S (length File)] iterations are enough ([Load_stream_fuel]). *)
Fixpoint Load_loop (fuel : nat) (File : t_Str) (st : load_state)
    : option (outcome load_state) :=
  match fuel with
  | O => None
  | S fuel' =>
      let '(buffer, File, bDone) := getline File (MAX_BUFFER_LEN - 1) in
      match Trim (c_str buffer) ≫= fun szLine => Load_line szLine st with
      | Returned st =>
          if bDone : bool then Some (Returned st) else Load_loop fuel' File st
      | Thrown e => Some (Thrown e)
      | Undefined => Some Undefined
      end
  end.

(** The loop run on the whole stream. *)
Definition Load_stream (File : t_Str) (st : load_state) : outcome load_state :=
  default Undefined (Load_loop (S (length File)) File st).

Definition Load (d : CDataFile) (fs : FileSystem) (szFileName : t_Str)
    : outcome (bool * CDataFile) :=
  match fs_content fs (c_str szFileName) with
  | None => mret (false, d)
  | Some File =>
      let bAutoKey := bool_decide (Z.land (m_Flags d) AUTOCREATE_KEYS = AUTOCREATE_KEYS) in
      let bAutoSec :=
        bool_decide (Z.land (m_Flags d) AUTOCREATE_SECTIONS = AUTOCREATE_SECTIONS) in
      let pSection := GetSection d [] in
      let d := set_Flags (Z.lor (m_Flags d) AUTOCREATE_KEYS) d in
      let d := set_Flags (Z.lor (m_Flags d) AUTOCREATE_SECTIONS) d in
      st ← Load_stream File (mk_load_state d pSection []);
      let d := ld_this st in
      let d := if negb bAutoKey
               then set_Flags (Z.land (m_Flags d) (Z.lnot AUTOCREATE_KEYS)) d else d in
      let d := if negb bAutoSec
               then set_Flags (Z.land (m_Flags d) (Z.lnot AUTOCREATE_SECTIONS)) d else d in
      mret (true, d)
  end.

(** *** Construction and destruction *)

Definition Clear (d : CDataFile) : CDataFile :=
  mk_CDataFile [] [] false (m_Flags d).

(** [CDataFile()]: [Clear] and the assignment of [m_Flags] overwrite
    whatever the members held. *)
Definition CDataFile_new : CDataFile :=
  let d := Clear (mk_CDataFile [] [] false 0) in
  let d := set_Flags (Z.lor AUTOCREATE_SECTIONS AUTOCREATE_KEYS) d in
  set_Sections (m_Sections d ++ [new_Section]) d.

(** [CDataFile(szFileName)]; [m_bDirty] is written before it is ever read. *)
Definition CDataFile_open (fs : FileSystem) (szFileName : t_Str) : outcome CDataFile :=
  let d := mk_CDataFile [] szFileName false 0 in
  let d := set_Flags (Z.lor AUTOCREATE_SECTIONS AUTOCREATE_KEYS) d in
  let d := set_Sections (m_Sections d ++ [new_Section]) d in
  '(_, d) ← Load d fs (m_szFileName d);
  mret (set_Dirty false d).

(** [~CDataFile()]: what is left in the file system. *)
Definition CDataFile_delete (d : CDataFile) (fs : FileSystem) : outcome FileSystem :=
  if m_bDirty d then '(_, _, fs) ← Save d fs; mret fs
  else mret fs.

End CDataFile.

(** ** A header *)

Definition TAB : ascii := "009"%char.
Definition CR : ascii := "013"%char.

(** Modelled from the spec: the constants of CDataFile.h, which is not under
    src/. The spec gives the comment indicators as [; ] and the equal
    indicators as [=]. It names neither the white space, taken here as
    blank, tab, line feed and carriage return, nor the length of the
    buffers and the bits of the two policy flags, taken as 512, 2 and 4.
    The theorems stated for every [Header] do not depend on these values. *)
Definition spec_header : Header := {|
  WhiteSpace := [" "%char; TAB; LF; CR];
  EqualIndicators := str "=";
  CommentIndicators := str "; ";
  MAX_BUFFER_LEN := 512;
  AUTOCREATE_SECTIONS := 2;
  AUTOCREATE_KEYS := 4
|}.

(** A file system with one readable and writable file. *)
Definition one_file (path text : t_Str) : FileSystem :=
  mk_FileSystem (fun p => if decide (p = path) then Some text else None)
                (fun p => bool_decide (p = path)).

(** ** What [Trim] computes

    On a string shorter than 2^31 bytes [Trim] removes every leading trim
    character when the string has another character, and then the last
    character when it is a trim character ([Trim_short]). *)

Section Trimmed.

Context {hdr : Header}.

Definition trim_chars : t_Str := WhiteSpace ++ EqualIndicators.

Definition trim_left (s : t_Str) : t_Str :=
  match first_index (fun c => negb (is_one_of trim_chars c)) s with
  | Some i => drop i s
  | None => s
  end.

Definition trim_right (s : t_Str) : t_Str :=
  match last s with
  | Some c => if is_one_of trim_chars c then take (length s - 1) s else s
  | None => s
  end.

End Trimmed.

(** ** Documents that survive a save and a load

    The file format has no escapes: a name or a value is read back as it
    was written only when it is a single line without NUL, is not changed by
    [Trim], and cannot be taken for another kind of line. A comment may
    have several lines and white space around it: it is read back as [Save]
    writes it when every line written for it is a comment line. *)

Section Plain.

Context {hdr : Header}.

Definition not_in (chars : t_Str) (c : ascii) : bool := negb (is_one_of chars c).

Definition one_line (s : t_Str) : bool := forallb (not_in [NUL; LF]) s.

Definition starts_well (s : t_Str) : bool :=
  match s with
  | [] => true
  | c :: _ => not_in trim_chars c
  end.

Definition ends_well (s : t_Str) : bool :=
  match last s with
  | Some c => not_in trim_chars c
  | None => true
  end.

(** What [CommentStr] returns once the comment is trimmed. *)
Definition written_comment (szComment : t_Str) : t_Str :=
  match szComment with
  | [] => []
  | _ =>
      (if negb (find_first_of szComment CommentIndicators =? 0)
       then [char0 CommentIndicators] ++ str " "
       else [])
      ++ szComment
  end.

(** The text [Save] writes for a comment of at most 2^31 bytes: what
    [CommentStr] returns ([Trim_short]), read as a C string. *)
Definition saved_comment (szComment : t_Str) : t_Str :=
  c_str (written_comment (trim_right (trim_left szComment))).

(** The lines of a text, split at its line feeds. *)
Fixpoint lines (s : t_Str) : list t_Str :=
  match s with
  | [] => [[]]
  | c :: s' =>
      if decide (c = LF) then [] :: lines s'
      else match lines s' with
           | l :: ls => (c :: l) :: ls
           | [] => [[c]]
           end
  end.

(** The texts [Save] hands to [WriteLn]. *)
Definition key_format (Key : t_Key) : t_Str :=
  (if 0 <? size (k_szComment Key) then [LF] else [])
  ++ saved_comment (k_szComment Key)
  ++ (if 0 <? size (k_szComment Key) then [LF] else [])
  ++ k_szKey Key
  ++ [char0 EqualIndicators]
  ++ k_szValue Key.

Definition comment_format (Section : t_Section) : t_Str :=
  [LF] ++ saved_comment (s_szComment Section).

Definition header_format (Section : t_Section) : t_Str :=
  (if 0 <? size (s_szComment Section) then [] else [LF])
  ++ str "[" ++ s_szName Section ++ str "]".

Definition fits (formatted : t_Str) : bool :=
  (length formatted <? MAX_BUFFER_LEN)%nat.

(** The text [Save] writes when every [WriteLn] fits its buffer. *)
Definition key_text (Key : t_Key) : t_Str := key_format Key ++ [LF].

Definition keys_text (Keys : KeyList) : t_Str := concat (key_text <$> Keys).

Definition section_text (Section : t_Section) : t_Str :=
  (if 0 <? size (s_szComment Section) then comment_format Section ++ [LF] else [])
  ++ (if 0 <? size (s_szName Section) then header_format Section ++ [LF] else [])
  ++ keys_text (s_Keys Section).

Definition document_text (d : CDataFile) : t_Str :=
  concat (section_text <$> m_Sections d).

(** A line [Load] reads as a comment line and keeps as it is: it starts
    with a comment indicator, and [Trim] leaves it alone. *)
Definition comment_line (line : t_Str) : bool :=
  (find_first_of line CommentIndicators =? 0) && starts_well line && ends_well line.

(** A comment [Save] writes as comment lines, or no comment at all: the
    comment may have several lines, and white space around it. *)
Definition plain_comment (szComment : t_Str) : bool :=
  (size szComment <=? 2 ^ 31)
  && match szComment with
     | [] => true
     | _ => forallb comment_line (lines (saved_comment szComment))
     end.

Definition plain_key (Key : t_Key) : bool :=
  match k_szKey Key with
  | [] => false
  | c :: _ => not_in trim_chars c && not_in CommentIndicators c && not_in (str "[") c
  end
  && ends_well (k_szKey Key)
  && one_line (k_szKey Key)
  && forallb (not_in EqualIndicators) (k_szKey Key)
  && one_line (k_szValue Key)
  && ends_well (k_szValue Key)
  && plain_comment (k_szComment Key)
  && fits (key_format Key).

(** No name compares equal, without case, to a later one. *)
Fixpoint distinct (names : list t_Str) : bool :=
  match names with
  | [] => true
  | n :: names' =>
      forallb (fun m => negb (CompareNoCase n m =? 0)) names' && distinct names'
  end.

Definition plain_section (Section : t_Section) : bool :=
  one_line (s_szName Section)
  && plain_comment (s_szComment Section)
  && ((size (s_szComment Section) =? 0) || fits (comment_format Section))
  && ((size (s_szName Section) =? 0) || fits (header_format Section))
  && forallb plain_key (s_Keys Section)
  && distinct (k_szKey <$> s_Keys Section).

(** The first section is the default section, without a comment. *)
Definition plain_document (d : CDataFile) : bool :=
  match m_Sections d with
  | [] => false
  | Section :: _ => (size (s_szName Section) =? 0) && (size (s_szComment Section) =? 0)
  end
  && forallb plain_section (m_Sections d)
  && distinct (s_szName <$> m_Sections d).

(** What the header must provide for the format to be readable at all. *)
Definition header_ok : bool :=
  match EqualIndicators with
  | [] => false
  | c :: _ => not_in [NUL; LF] c
  end
  && match CommentIndicators with
     | [] => false
     | c :: _ => not_in [NUL; LF] c && not_in trim_chars c
     end
  && is_one_of trim_chars LF
  && not_in trim_chars "["%char
  && not_in trim_chars "]"%char
  && not_in CommentIndicators "["%char
  && (Z.of_nat MAX_BUFFER_LEN <=? 2 ^ 31)
  && negb (AUTOCREATE_KEYS =? 0).

(** The comment, key and section [Load] builds from what [Save] wrote. *)
Definition loaded_comment (szComment : t_Str) : t_Str :=
  match szComment with
  | [] => []
  | _ => [LF] ++ saved_comment szComment
  end.

Definition loaded_key (Key : t_Key) : t_Key :=
  mk_Key (k_szKey Key) (k_szValue Key) (loaded_comment (k_szComment Key)).

Definition loaded_section (Section : t_Section) : t_Section :=
  mk_Section (s_szName Section) (loaded_comment (s_szComment Section))
             (loaded_key <$> s_Keys Section).

(** The state of the loop of [Load] between two entries: the current
    section is the last one and no comment is pending. *)
Definition reading (Sections : SectionList) (szFileName : t_Str) (bDirty : bool)
    (Flags : Z) : load_state :=
  mk_load_state (mk_CDataFile Sections szFileName bDirty Flags)
                (Some (length Sections - 1)%nat) [].

(** The conditions of [plain_key], [plain_section] and [plain_document],
    one by one. *)
Record plain_key_facts (k : t_Key) : Prop := {
  pk_nonempty : k_szKey k <> [];
  pk_starts : starts_well (k_szKey k) = true;
  pk_not_comment : (find_first_of (k_szKey k) CommentIndicators =? 0) = false;
  pk_not_header : (find_first_of (k_szKey k) (str "[") =? 0) = false;
  pk_ends : ends_well (k_szKey k) = true;
  pk_line : one_line (k_szKey k) = true;
  pk_no_equal : forallb (not_in EqualIndicators) (k_szKey k) = true;
  pk_value_line : one_line (k_szValue k) = true;
  pk_value_ends : ends_well (k_szValue k) = true;
  pk_comment : plain_comment (k_szComment k) = true;
  pk_fits : fits (key_format k) = true
}.

Record plain_section_facts (s : t_Section) : Prop := {
  ps_line : one_line (s_szName s) = true;
  ps_comment : plain_comment (s_szComment s) = true;
  ps_comment_fits : s_szComment s <> [] -> fits (comment_format s) = true;
  ps_header_fits : s_szName s <> [] -> fits (header_format s) = true;
  ps_keys : forall k, In k (s_Keys s) -> plain_key k = true;
  ps_distinct : distinct (k_szKey <$> s_Keys s) = true
}.

Record plain_document_facts (d : CDataFile) : Prop := {
  pd_sections : exists s0 ss, m_Sections d = s0 :: ss /\ s_szName s0 = [] /\ s_szComment s0 = [];
  pd_plain : forall s, s ∈ m_Sections d -> plain_section s = true;
  pd_distinct : distinct (s_szName <$> m_Sections d) = true
}.

(** Two documents with the same sections, keys and values, whose comments
    [Save] writes alike: [CommentStr] returns for them texts that are equal
    as C strings. *)
Definition same_key (k k' : t_Key) : Prop :=
  k_szKey k' = k_szKey k
  /\ k_szValue k' = k_szValue k
  /\ c_str <$> CommentStr (k_szComment k') = c_str <$> CommentStr (k_szComment k).

Definition same_section (s s' : t_Section) : Prop :=
  s_szName s' = s_szName s
  /\ c_str <$> CommentStr (s_szComment s') = c_str <$> CommentStr (s_szComment s)
  /\ Forall2 same_key (s_Keys s) (s_Keys s').

Definition same_document (d d' : CDataFile) : Prop :=
  Forall2 same_section (m_Sections d) (m_Sections d').

End Plain.

(** The sections named by the empty string. *)
Definition default_sections (d : CDataFile) : SectionList :=
  filter (fun s => s_szName s = []) (m_Sections d).

(** ** Documents used as examples *)

Section Examples.

#[local] Existing Instance spec_header.

Definition no_auto_keys : CDataFile :=
  set_Flags AUTOCREATE_SECTIONS (snd (CreateSection CDataFile_new (str "ExistingSection") [])).

Definition with_flag : CDataFile :=
  snd (SetValue CDataFile_new (str "Flag") (str "Yes") [] (str "Net")).

Definition dirty_doc : CDataFile :=
  SetFileName (snd (SetValue CDataFile_new (str "Port") (str "1200") [] (str "Net"))) (str "f").

(** The example of the source file, with a key in the default section. *)
Definition settings : CDataFile :=
  let d := CDataFile_new in
  let d := snd (SetValue d (str "Name") (str "Joe User") [] (str "UserSettings")) in
  let d := snd (SetValue d (str "Date of Birth") (str "12/25/01") [] (str "UserSettings")) in
  let d := snd (CreateSection d (str "ServerSettings") (str "Settings unique to this server")) in
  let d := snd (SetValue d (str "Port") (str "1200") (str "; the port") (str "ServerSettings")) in
  let d := snd (SetValue d (str "IP_Address") (str "127.0.0.1") [] (str "ServerSettings")) in
  snd (SetValue d (str "Version") (str "2") [] []).

Definition with_comment_like_key : CDataFile :=
  snd (SetValue CDataFile_new (str ";x") (str "v") [] []).

Definition with_multiline_comment : CDataFile :=
  snd (SetValue CDataFile_new (str "k") (str "v") (str "a" ++ [LF] ++ str "b") []).

Definition with_padded_comment : CDataFile :=
  snd (SetValue CDataFile_new (str "k") (str "v") (str "c  ") []).

Definition with_default_comment : CDataFile :=
  snd (SetSectionComment (snd (SetValue CDataFile_new (str "k") (str "v") [] [])) []
         (str "c")).

Definition with_key_in_comment : CDataFile :=
  snd (SetValue CDataFile_new (str "k") (str "v") (str "; a" ++ [LF] ++ str "x=1") []).

Definition without_default_section : CDataFile :=
  snd (DeleteSection (snd (CreateSection CDataFile_new (str "A") [])) []).

(** The comment block of the example at the head of the source file. *)
Definition server_comment : t_Str :=
  str ";" ++ [LF] ++ str "; Settings unique to this server" ++ [LF] ++ str ";".

(** That example, with comments of several lines, with white space around
    them and with a NUL. *)
Definition server_example : CDataFile :=
  let d := CDataFile_new in
  let d := snd (SetValue d (str "Name") (str "Joe User") (str " the user ") (str "UserSettings")) in
  let d := snd (CreateSection d (str "ServerSettings") server_comment) in
  let d := snd (SetValue d (str "Port") (str "1200") (str "port" ++ [NUL] ++ str "cut")
                         (str "ServerSettings")) in
  snd (SetValue d (str "MachineName") (str "ADMIN") ([LF] ++ str "; a" ++ [LF] ++ str "; b")
                (str "ServerSettings")).

(** A value with a NUL. *)
Definition with_NUL_value : CDataFile :=
  snd (SetValue CDataFile_new (str "k") (str "yes" ++ [NUL] ++ str "no") [] []).

End Examples.

(** ** Small documents

    The documents the accessors build from names, values and comments of a
    few characters, over an alphabet with every kind of character the
    format treats on its own; and the round trip of C1, decided. *)

Section Small.

#[local] Existing Instance spec_header.

Definition same_outcome (a b : outcome t_Str) : bool :=
  match a, b with
  | Returned x, Returned y => bool_decide (x = y)
  | _, _ => false
  end.

Fixpoint forallb2 {A : Type} (f : A -> A -> bool) (l l' : list A) : bool :=
  match l, l' with
  | [], [] => true
  | a :: l, b :: l' => f a b && forallb2 f l l'
  | _, _ => false
  end.

Definition same_key_b (k k' : t_Key) : bool :=
  bool_decide (k_szKey k' = k_szKey k)
  && bool_decide (k_szValue k' = k_szValue k)
  && same_outcome (c_str <$> CommentStr (k_szComment k'))
                  (c_str <$> CommentStr (k_szComment k)).

Definition same_section_b (s s' : t_Section) : bool :=
  bool_decide (s_szName s' = s_szName s)
  && same_outcome (c_str <$> CommentStr (s_szComment s'))
                  (c_str <$> CommentStr (s_szComment s))
  && forallb2 same_key_b (s_Keys s) (s_Keys s').

(** [Save] writes a text, [Load] of that text into a fresh document returns
    true with a document that has the same sections, keys and values, with
    comments written alike, and that [Save] writes as the same text. *)
Definition restored (d : CDataFile) : bool :=
  match Save_text d with
  | Returned File =>
      match Load CDataFile_new (one_file (str "f") File) (str "f") with
      | Returned (true, d') =>
          forallb2 same_section_b (m_Sections d) (m_Sections d')
          && match Save_text d' with
             | Returned File' => bool_decide (File' = File)
             | _ => false
             end
      | _ => false
      end
  | _ => false
  end.

Definition alphabet : list ascii :=
  ["a"%char; ";"%char; " "%char; "="%char; "["%char; "]"%char; LF; NUL; "%"%char].

(** The strings of at most [n] characters of the alphabet. *)
Fixpoint strings (n : nat) : list t_Str :=
  match n with
  | O => [[]]
  | S n => [] :: (s ← strings n; (fun c => c :: s) <$> alphabet)
  end.

Definition small_documents : list CDataFile :=
  (szKey ← strings 2; [snd (SetValue CDataFile_new szKey (str "v") [] [])])
  ++ (szValue ← strings 2; [snd (SetValue CDataFile_new (str "k") szValue [] [])])
  ++ (szComment ← strings 3;
      [snd (SetValue CDataFile_new (str "k") (str "v") szComment [])])
  ++ (szSection ← strings 2;
      [snd (SetValue CDataFile_new (str "k") (str "v") [] szSection)])
  ++ (szComment ← strings 2;
      [snd (SetValue (snd (CreateSection CDataFile_new (str "S") szComment))
                     (str "k") (str "v") [] (str "S"))]).

End Small.

(** ** The integer accessors

    [GetInt] reads the value with [std::istringstream(szValue) >> n] and
    [SetInt] writes it with [snprintf(szStr, 64, "%d", nValue)]. *)

(** [isspace] and [isdigit] of the C locale. *)
Definition isspace (c : ascii) : bool :=
  ((9 <=? byte c) && (byte c <=? 13)) || (byte c =? 32).

Definition isdigit (c : ascii) : bool := (48 <=? byte c) && (byte c <=? 57).

Fixpoint skip_chars (P : ascii -> bool) (s : t_Str) : t_Str :=
  match s with
  | [] => []
  | c :: s' => if P c then skip_chars P s' else s
  end.

Fixpoint leading_chars (P : ascii -> bool) (s : t_Str) : t_Str :=
  match s with
  | [] => []
  | c :: s' => if P c then c :: leading_chars P s' else []
  end.

(** The value of a sequence of decimal digits. *)
Definition decimal_value (field : t_Str) : Z :=
  fold_left (fun v c => 10 * v + (byte c - 48)) field 0.

(** [stream >> n] for an [int n] on a stream over [s], with the default
    flags ([skipws], [dec]): the white space is skipped, then an optional
    sign and the digits that follow are taken as the field. [None] when
    failbit is set: no digit was found, or the value is not an [int]. *)
Definition extract_int (s : t_Str) : option Z :=
  let s := skip_chars isspace s in
  let '(negative, s) :=
    match s with
    | c :: s' =>
        if decide (c = "-"%char) then (true, s')
        else if decide (c = "+"%char) then (false, s')
        else (false, s)
    | [] => (false, s)
    end in
  let field := leading_chars isdigit s in
  match field with
  | [] => None
  | _ =>
      let v := if negative : bool then - decimal_value field else decimal_value field in
      if (v <? - 2 ^ 31) || (INT_MAX <? v) then None else Some v
  end.

(** The decimal digits of [n >= 0], most significant first. *)
Fixpoint digits_acc (fuel : nat) (n : Z) (acc : t_Str) : t_Str :=
  match fuel with
  | O => acc
  | S fuel' =>
      let acc := ascii_of_N (Z.to_N (48 + n mod 10)) :: acc in
      if n <? 10 then acc else digits_acc fuel' (n / 10) acc
  end.

Definition digits (n : Z) : t_Str := digits_acc (S (Z.to_nat (Z.log2 n))) n [].

(** What ["%d"] formats for the [int] [n]. *)
Definition format_d (n : Z) : t_Str :=
  if n <? 0 then "-"%char :: digits (- n) else digits n.

(** [snprintf(buf, size, ...)] stores at most [size - 1] characters. *)
Definition snprintf (size : nat) (formatted : t_Str) : t_Str :=
  take (size - 1) formatted.

Section Integers.

Context {hdr : Header}.

Definition GetInt (d : CDataFile) (szKey szSection : t_Str) (ret : Z) : bool * Z :=
  let '(found, szValue) := GetValue d szKey szSection [] in
  if negb found then (false, ret)
  else
    match extract_int szValue with
    | None => (false, ret)
    | Some n => (true, n)
    end.

(** [nValue] is an [int]. *)
Definition SetInt (d : CDataFile) (szKey : t_Str) (nValue : Z)
    (szComment szSection : t_Str) : bool * CDataFile :=
  let szStr := snprintf 64 (format_d nValue) in
  SetValue d szKey szStr szComment szSection.

End Integers.

(** ** What the operations report *)

Section Reporting.

Context {hdr : Header}.

(** What [CreateSection] prints: nothing when it creates the section. *)
Definition CreateSection_Report (d : CDataFile) (szSection : t_Str)
    : option (outcome t_Str) :=
  match GetSection d szSection with
  | Some _ => Some (Report E_INFO (CreateSection_message szSection))
  | None => None
  end.

(** The message of [SetFileName] for a name that replaces another one. *)
Definition SetFileName_message (szOld szNew : t_Str) : t_Str :=
  str "[CDataFile::SetFileName] The filename has changed from <" ++ c_str szOld
  ++ str "> to <" ++ c_str szNew ++ str ">.".

(** What [SetFileName] prints: nothing when no other name was set. *)
Definition SetFileName_Report (d : CDataFile) (szFileName : t_Str)
    : option (outcome t_Str) :=
  if negb (size (m_szFileName d) =? 0)
     && negb (CompareNoCase szFileName (m_szFileName d) =? 0)
  then Some (Report E_WARN (SetFileName_message (m_szFileName d) szFileName))
  else None.

End Reporting.

(** ** Notions used to state further properties *)

Definition section_names (d : CDataFile) : list t_Str := s_szName <$> m_Sections d.

Definition key_names (Section : t_Section) : list t_Str := k_szKey <$> s_Keys Section.

(** No two sections have names that compare equal without case, and no two
    keys of a section have. *)
Definition well_formed (d : CDataFile) : bool :=
  distinct (section_names d) && forallb (fun s => distinct (key_names s)) (m_Sections d).

(** The number of keys of the document. *)
Definition total_keys (d : CDataFile) : nat :=
  sum_list_with (fun s => length (s_Keys s)) (m_Sections d).

(** The first section with the name [szSection], and the value of the first
    key with the name [szKey]: what [GetSection] and [GetKey] point to. *)
Definition section_of (d : CDataFile) (szSection : t_Str) : option t_Section :=
  snd <$> list_find (fun s => CompareNoCase (s_szName s) szSection = 0) (m_Sections d).

Definition value_in (Keys : list t_Key) (szKey : t_Str) : option t_Str :=
  (fun r => k_szValue (snd r))
    <$> list_find (fun k => CompareNoCase (k_szKey k) szKey = 0) Keys.

Definition value_of (d : CDataFile) (szKey szSection : t_Str) : option t_Str :=
  section_of d szSection ≫= fun s => value_in (s_Keys s) szKey.

(** The pointer [pSection] of [Load] points to a section. *)
Definition pointer_valid (st : load_state) : Prop :=
  exists p, ld_pSection st = Some p /\ is_Some (m_Sections (ld_this st) !! p).

(** The character of the decimal digit [m]. *)
Definition digit (m : Z) : ascii := ascii_of_N (Z.to_N (48 + m)).

(** The text of a file made of complete lines. *)
Definition lines_text (lines : list t_Str) : t_Str :=
  concat ((fun line => line ++ [LF]) <$> lines).

(* ===================================================================== *)
(** * Properties *)
(* ===================================================================== *)

(** ** Tactics *)

Ltac ret_bind := cbn [mbind outcome_bind mret outcome_ret].

Ltac text_eq :=
  unfold str; cbn [list_ascii_of_string app]; rewrite <- ?app_assoc;
  cbn [app]; rewrite <- ?app_assoc; reflexivity.

Ltac list_eq := repeat (cbn [app]; rewrite <- ?app_assoc); reflexivity.

(** ** Case-insensitive comparison and C strings *)

Lemma strcasecmp_refl s : strcasecmp s s = 0.
Proof.
  induction s as [|c s IH]; simpl; [done|].
  by rewrite Z.sub_diag.
Qed.

Lemma CompareNoCase_refl s : CompareNoCase s s = 0.
Proof. apply strcasecmp_refl. Qed.

Lemma byte_inj c1 c2 : byte c1 = byte c2 -> c1 = c2.
Proof.
  unfold byte. intros H. apply N2Z.inj in H.
  rewrite <- (ascii_N_embedding c1), <- (ascii_N_embedding c2). by rewrite H.
Qed.

Lemma byte_range c : 0 <= byte c < 256.
Proof. unfold byte. pose proof (N_ascii_bounded c). lia. Qed.

Lemma byte_tolower c :
  byte (tolower c) = if (65 <=? byte c) && (byte c <=? 90) then byte c + 32 else byte c.
Proof.
  unfold tolower. destruct ((65 <=? byte c) && (byte c <=? 90)) eqn:E; [|done].
  unfold byte in *. rewrite N_ascii_embedding; lia.
Qed.

Lemma tolower_NUL c : c <> NUL -> byte (tolower c) <> 0.
Proof.
  intros Hc. rewrite byte_tolower.
  assert (byte c <> 0) by (intros H; apply Hc, byte_inj; rewrite H; reflexivity).
  pose proof (byte_range c). destruct (_ && _); lia.
Qed.

Lemma c_str_no_NUL s : NUL ∉ c_str s.
Proof.
  induction s as [|c s IH]; simpl; [apply not_elem_of_nil|].
  destruct (decide (c = NUL)); [apply not_elem_of_nil|].
  rewrite not_elem_of_cons. split; [congruence|done].
Qed.

Lemma c_str_id s : NUL ∉ s -> c_str s = s.
Proof.
  induction s as [|c s IH]; simpl; [done|].
  rewrite not_elem_of_cons. intros [Hc Hs].
  destruct (decide (c = NUL)); [congruence|]. by rewrite IH.
Qed.

Lemma strcasecmp_0 s1 s2 :
  NUL ∉ s1 -> NUL ∉ s2 ->
  strcasecmp s1 s2 = 0 <-> tolower <$> s1 = tolower <$> s2.
Proof.
  revert s2. induction s1 as [|c1 s1 IH]; intros [|c2 s2]; simpl;
    rewrite ?not_elem_of_cons; intros H1 H2.
  - done.
  - split; [|done]. intros H. destruct H2 as [H2 _]. apply not_eq_sym, tolower_NUL in H2. lia.
  - split; [|done]. intros H. destruct H1 as [H1 _]. apply not_eq_sym, tolower_NUL in H1. lia.
  - destruct H1 as [_ H1], H2 as [_ H2].
    destruct (Z.eqb_spec (byte (tolower c1) - byte (tolower c2)) 0) as [E|E].
    + assert (tolower c1 = tolower c2) as -> by (apply byte_inj; lia).
      rewrite (IH s2 H1 H2). split; [intros E'; f_equal; exact E'|]. intros [= E']. exact E'.
    + split; [done|]. intros [= Hc _]. rewrite Hc in E. lia.
Qed.

Lemma CompareNoCase_0 s1 s2 :
  CompareNoCase s1 s2 = 0 <-> tolower <$> c_str s1 = tolower <$> c_str s2.
Proof. apply strcasecmp_0; apply c_str_no_NUL. Qed.

Lemma starts_with_spec pat s : starts_with pat s = true <-> exists s', s = pat ++ s'.
Proof.
  revert s. induction pat as [|p pat IH]; intros s; simpl.
  - split; [eauto|done].
  - destruct s as [|c s]; [split; [done|intros [? [=]]]|].
    rewrite andb_true_iff, bool_decide_eq_true, IH. split.
    + intros [-> [s' ->]]. eauto.
    + intros [s' [= -> ->]]. eauto.
Qed.

Lemma find_0 s pat : find s pat = 0 <-> starts_with pat s = true.
Proof.
  unfold find. destruct s as [|c s]; simpl.
  - destruct (starts_with pat []); simpl; [done|]. split; [|done]. unfold npos. lia.
  - destruct (starts_with pat (c :: s)); simpl; [done|]. split; [|done].
    destruct (find_occurrence s pat); simpl; [lia|unfold npos; lia].
Qed.

(** ** Positions, conversions and [Trim] *)

Lemma to_int_small z : - 2 ^ 31 <= z < 2 ^ 31 -> to_int z = z.
Proof. intros H. unfold to_int. rewrite Z.mod_small; lia. Qed.

Lemma to_int_npos : to_int npos = -1.
Proof. reflexivity. Qed.

Lemma to_size_t_small z : 0 <= z < 2 ^ 64 -> to_size_t z = z.
Proof. intros H. unfold to_size_t. rewrite Z.mod_small; lia. Qed.

Lemma first_index_lt P s i : first_index P s = Some i -> (i < length s)%nat.
Proof.
  revert i. induction s as [|c s IH]; intros i; simpl; [done|].
  destruct (P c); [intros [= <-]; lia|].
  destruct (first_index P s) as [j|]; simpl; [|done].
  intros [= <-]. specialize (IH j eq_refl). lia.
Qed.

Lemma first_index_None P s : first_index P s = None <-> forallb (fun c => negb (P c)) s = true.
Proof.
  induction s as [|c s IH]; simpl; [done|].
  destruct (P c); simpl; [done|].
  rewrite <- IH. by destruct (first_index P s).
Qed.

Lemma first_index_app P s1 s2 :
  forallb (fun c => negb (P c)) s1 = true ->
  first_index P (s1 ++ s2) = (fun i => (length s1 + i)%nat) <$> first_index P s2.
Proof.
  induction s1 as [|c s1 IH]; simpl.
  - intros _. by destruct (first_index P s2).
  - rewrite andb_true_iff, negb_true_iff. intros [-> H]. rewrite IH by done.
    by destruct (first_index P s2).
Qed.

Lemma last_index_snoc P s c :
  last_index P (s ++ [c]) = if P c then Some (length s) else last_index P s.
Proof.
  induction s as [|c' s IH]; simpl; [by destruct (P c)|].
  rewrite IH. destruct (P c); [done|]. done.
Qed.

Lemma last_index_lt P s i : last_index P s = Some i -> (i < length s)%nat.
Proof.
  revert i. induction s as [|c s IH]; intros i; simpl; [done|].
  destruct (last_index P s) as [j|].
  - intros [= <-]. specialize (IH j eq_refl). lia.
  - destruct (P c); [intros [= <-]; lia|done].
Qed.

Lemma last_index_None P s : last_index P s = None <-> forallb (fun c => negb (P c)) s = true.
Proof.
  induction s as [|c s IH]; simpl; [done|].
  destruct (last_index P s) as [j|].
  - split; [done|]. rewrite andb_true_iff. intros [_ H]. by apply IH in H.
  - destruct (P c); simpl; [done|]. by rewrite <- IH.
Qed.

Lemma pos_or_npos_lt o n :
  (forall i, o = Some i -> (i < n)%nat) -> Z.of_nat n <= 2 ^ 31 ->
  to_int (pos_or_npos o) = match o with Some i => Z.of_nat i | None => -1 end.
Proof.
  intros H Hn. destruct o as [i|]; simpl; [|done].
  specialize (H i eq_refl). apply to_int_small. lia.
Qed.

Lemma erase_prefix s n : 0 <= n <= size s -> erase s 0 n = Returned (drop (Z.to_nat n) s).
Proof.
  intros H. unfold erase.
  destruct (Z.ltb_spec (size s) 0); [unfold size in *; lia|].
  by rewrite Z.sub_0_r, Z.min_l, Z.add_0_l by lia.
Qed.

Lemma erase_suffix s pos : 0 <= pos <= size s ->
  erase s pos (size s - pos) = Returned (take (Z.to_nat pos) s).
Proof.
  intros H. unfold erase.
  destruct (Z.ltb_spec (size s) pos); [lia|].
  rewrite Z.min_id. replace (pos + (size s - pos)) with (size s) by lia.
  unfold size. rewrite Nat2Z.id, drop_all. by rewrite app_nil_r.
Qed.

Lemma substr_prefix s n : 0 <= n <= size s -> substr s 0 n = Returned (take (Z.to_nat n) s).
Proof.
  intros H. unfold substr.
  destruct (Z.ltb_spec (size s) 0); [unfold size in *; lia|].
  by rewrite Z.sub_0_r, Z.min_l by lia.
Qed.

Section Text.
Context {hdr : Header}.

Lemma Trim_left_step s :
  size s <= 2 ^ 31 ->
  (let nPos := to_int (find_first_not_of s trim_chars) in
   if 0 <? nPos then erase s 0 (to_size_t nPos) else mret s) = Returned (trim_left s).
Proof.
  intros Hs. unfold find_first_not_of, trim_left. cbv zeta.
  rewrite (pos_or_npos_lt _ (length s)) by (apply first_index_lt || done).
  destruct (first_index _ s) as [i|] eqn:E; [|done].
  apply first_index_lt in E. unfold size in Hs.
  destruct (Z.ltb_spec 0 (Z.of_nat i)).
  - rewrite to_size_t_small by lia. rewrite erase_prefix by (unfold size; lia).
    by rewrite Nat2Z.id.
  - assert (i = 0%nat) as -> by lia. done.
Qed.

Lemma Trim_right_step s :
  size s <= 2 ^ 31 ->
  (let nPos := to_int (find_last_not_of s trim_chars) in
   let rPos := to_int (find_last_of s trim_chars) in
   if (nPos <? rPos) && (-1 <? rPos)
   then erase s (to_size_t rPos) (to_size_t (size s - to_size_t rPos))
   else mret s) = Returned (trim_right s).
Proof.
  intros Hs. unfold find_last_not_of, find_last_of, trim_right. cbv zeta.
  rewrite !(pos_or_npos_lt _ (length s)) by (apply last_index_lt || done).
  destruct s as [|c0 s0 _] using rev_ind; [done|].
  rewrite !last_index_snoc, last_snoc.
  unfold size in *. rewrite length_app in *. simpl in *.
  destruct (is_one_of trim_chars c0) eqn:Ec; simpl.
  - assert (match last_index (fun c => negb (is_one_of trim_chars c)) s0 with
            | Some i => Z.of_nat i | None => -1 end < Z.of_nat (length s0)) as Hn.
    { destruct (last_index _ s0) as [i|] eqn:E; [apply last_index_lt in E|]; lia. }
    rewrite (proj2 (Z.ltb_lt _ _) Hn).
    rewrite (proj2 (Z.ltb_lt (-1) (Z.of_nat (length s0)))) by lia. simpl.
    rewrite !to_size_t_small by lia.
    pose proof (erase_suffix (s0 ++ [c0]) (Z.of_nat (length s0))) as He.
    unfold size in He. rewrite length_app in He. simpl in He.
    rewrite He by lia. do 2 f_equal. lia.
  - assert (match last_index (is_one_of trim_chars) s0 with
            | Some i => Z.of_nat i | None => -1 end < Z.of_nat (length s0)) as Hn.
    { destruct (last_index _ s0) as [i|] eqn:E; [apply last_index_lt in E|]; lia. }
    rewrite (proj2 (Z.ltb_ge _ _)) by lia. done.
Qed.

Lemma trim_left_length s : (length (trim_left s) <= length s)%nat.
Proof.
  unfold trim_left. destruct (first_index _ s); [|done]. rewrite length_drop. lia.
Qed.

Lemma Trim_short s :
  size s <= 2 ^ 31 -> Trim s = Returned (trim_right (trim_left s)).
Proof.
  intros Hs. unfold Trim. fold trim_chars.
  pose proof (Trim_left_step s Hs) as H1. cbv zeta in H1. cbv zeta. rewrite H1. simpl.
  apply (Trim_right_step (trim_left s)).
  pose proof (trim_left_length s). unfold size in *. lia.
Qed.

End Text.

(** ** The accessor API *)

Section Accessors.
Context {hdr : Header}.

Lemma GetSection_Some d szSection pSection :
  GetSection d szSection = Some pSection ->
  exists Section, m_Sections d !! pSection = Some Section
    /\ CompareNoCase (s_szName Section) szSection = 0.
Proof.
  unfold GetSection. intros H.
  destruct (list_find _ _) as [[i s]|] eqn:E; [|done].
  simpl in H. injection H as <-.
  apply list_find_Some in E as (Hl & HP & _). eauto.
Qed.

Lemma GetKey_Some d szKey szSection pKey :
  GetKey d szKey szSection = Some pKey ->
  exists Section Key,
    GetSection d szSection = Some (fst pKey)
    /\ m_Sections d !! fst pKey = Some Section
    /\ s_Keys Section !! snd pKey = Some Key
    /\ CompareNoCase (k_szKey Key) szKey = 0.
Proof.
  unfold GetKey. intros H.
  destruct (GetSection d szSection) as [p|] eqn:Es; simpl in H; [|done].
  destruct (m_Sections d !! p) as [s|] eqn:El; simpl in H; [|done].
  destruct (list_find _ (s_Keys s)) as [[j k]|] eqn:Ek; simpl in H; [|done].
  injection H as <-. simpl.
  apply list_find_Some in Ek as (Hk & HP & _).
  exists s, k. done.
Qed.

Lemma GetSection_push_back d s :
  GetSection d (s_szName s) = None ->
  GetSection (set_Sections (m_Sections d ++ [s]) d) (s_szName s)
  = Some (length (m_Sections d)).
Proof.
  unfold GetSection. simpl. intros H.
  destruct (list_find _ (m_Sections d)) as [[i x]|] eqn:E; [done|].
  rewrite list_find_app_r by done. simpl.
  rewrite decide_True by apply CompareNoCase_refl. done.
Qed.

Lemma copy_keys (Keys : KeyList) :
  (fun k_pos => mk_Key (k_szKey k_pos) (k_szValue k_pos) (k_szComment k_pos)) <$> Keys = Keys.
Proof. induction Keys as [|[] ? IH]; simpl; [done|]. by f_equal. Qed.

Lemma alter_push_back {A} (f : A -> A) (l : list A) (x : A) :
  alter f (length l) (l ++ [x]) = l ++ [f x].
Proof. rewrite <- (Nat.add_0_r (length l)) at 1. by rewrite alter_app_r. Qed.

Lemma lookup_push_back {A} (l : list A) (x : A) : (l ++ [x]) !! length l = Some x.
Proof. by rewrite lookup_app_r, Nat.sub_diag. Qed.

Lemma CreateSection_new d szSection szComment :
  GetSection d szSection = None ->
  CreateSection d szSection szComment
  = (true, mk_CDataFile (m_Sections d ++ [mk_Section szSection szComment []])
             (m_szFileName d) true (m_Flags d)).
Proof. unfold CreateSection. by intros ->. Qed.

Lemma CreateSection_existing d szSection szComment :
  GetSection d szSection <> None -> CreateSection d szSection szComment = (false, d).
Proof. unfold CreateSection. by destruct (GetSection d szSection). Qed.

(** The call returns what [CreateSection] computes, when it returns; it
    does for a name that is not taken. *)
Lemma CreateSection_call_new d szSection szComment :
  GetSection d szSection = None ->
  CreateSection_call d szSection szComment = Returned (CreateSection d szSection szComment).
Proof. unfold CreateSection_call, CreateSection. by intros ->. Qed.

Lemma CreateSection_call_Returned d szSection szComment r :
  CreateSection_call d szSection szComment = Returned r ->
  r = CreateSection d szSection szComment.
Proof.
  unfold CreateSection_call, CreateSection. destruct (GetSection d szSection).
  - destruct (Report _ _); unfold mbind, outcome_bind, mret, outcome_ret; congruence.
  - unfold mret, outcome_ret. congruence.
Qed.

Lemma CreateSection_KeyList_existing d szSection szComment Keys :
  GetSection d szSection <> None ->
  CreateSection_KeyList d szSection szComment Keys = (false, d).
Proof.
  intros H. unfold CreateSection_KeyList. by rewrite CreateSection_existing.
Qed.

Lemma CreateSection_KeyList_new d szSection szComment Keys :
  GetSection d szSection = None ->
  CreateSection_KeyList d szSection szComment Keys
  = (true, mk_CDataFile
             (m_Sections d ++ [mk_Section szSection szComment Keys;
                               mk_Section szSection szComment Keys])
             (m_szFileName d) true (m_Flags d)).
Proof.
  intros H. unfold CreateSection_KeyList.
  rewrite CreateSection_new by done. simpl.
  pose proof (GetSection_push_back d (mk_Section szSection szComment []) H) as Hg.
  unfold set_Sections in Hg. simpl in Hg.
  unfold GetSection in *. simpl in *.
  destruct (list_find _ (_ ++ _)) as [[i x]|] eqn:E; simpl in Hg; [|done].
  injection Hg as ->. simpl.
  unfold alter_section, set_Sections, set_Dirty. simpl.
  rewrite !(alter_push_back _ (m_Sections d)). simpl.
  rewrite (lookup_push_back (m_Sections d)). simpl.
  rewrite copy_keys. by rewrite <- app_assoc.
Qed.

Lemma SetValue_key_absent d szKey szValue szComment szSection :
  Z.land (m_Flags d) AUTOCREATE_KEYS = 0 ->
  GetSection d szSection <> None ->
  GetKey d szKey szSection = None ->
  SetValue d szKey szValue szComment szSection = (false, d).
Proof.
  intros Hf Hs Hk. unfold SetValue. rewrite Hk.
  destruct (GetSection d szSection) as [p|]; [|done]. simpl.
  rewrite bool_decide_eq_false_2; [done|]. by intros [].
Qed.

Lemma DeleteKey_dirty d szKey szFromSection :
  m_bDirty (snd (DeleteKey d szKey szFromSection)) = m_bDirty d.
Proof.
  unfold DeleteKey.
  destruct (GetSection d szFromSection) as [p|]; [|done].
  destruct (m_Sections d !! p) as [s|]; [|done].
  by destruct (list_find _ _) as [[j k]|].
Qed.

Lemma DeleteSection_dirty d szSection :
  m_bDirty (snd (DeleteSection d szSection)) = m_bDirty d.
Proof. unfold DeleteSection. by destruct (list_find _ _) as [[j k]|]. Qed.

Lemma GetBool_found d szKey szSection ret pKey :
  GetKey d szKey szSection = Some pKey ->
  exists Section Key,
    m_Sections d !! fst pKey = Some Section
    /\ s_Keys Section !! snd pKey = Some Key
    /\ GetValue d szKey szSection [] = (true, k_szValue Key)
    /\ GetBool d szKey szSection ret
       = (true, starts_with (str "1") (k_szValue Key)
                || bool_decide (tolower <$> c_str (k_szValue Key) = str "true")
                || bool_decide (tolower <$> c_str (k_szValue Key) = str "yes")).
Proof.
  intros H. destruct (GetKey_Some _ _ _ _ H) as (s & k & _ & Hs & Hk & _).
  exists s, k. split; [done|]. split; [done|].
  assert (GetValue d szKey szSection [] = (true, k_szValue k)) as Hv.
  { unfold GetValue. rewrite H, Hs. simpl. by rewrite Hk. }
  split; [done|].
  unfold GetBool. rewrite Hv. cbv beta iota zeta delta [negb]. f_equal.
  assert (forall v (w : string), NUL ∉ str w -> tolower <$> str w = str w ->
            (CompareNoCase v (str w) =? 0) = bool_decide (tolower <$> c_str v = str w)) as Hc.
  { intros v w Hn Hl. apply eq_true_iff_eq.
    rewrite Z.eqb_eq, bool_decide_eq_true, CompareNoCase_0, (c_str_id (str w)) by done.
    by rewrite Hl. }
  rewrite !Hc
    by (vm_compute;
        (reflexivity
         || (intros Hx;
             by repeat (apply elem_of_cons in Hx as [Hx|Hx]; [discriminate|]);
                apply elem_of_nil in Hx))).
  assert ((find (k_szValue k) (str "1") =? 0) = starts_with (str "1") (k_szValue k)) as ->.
  { apply eq_true_iff_eq. by rewrite Z.eqb_eq, find_0. }
  by destruct (_ || _).
Qed.

End Accessors.

(** ** The lines of a file *)

Section Lines.

Context {hdr : Header}.

Lemma Load_line_comment szLine st :
  find_first_of szLine CommentIndicators = 0 ->
  Load_line szLine st
  = Returned (mk_load_state (ld_this st) (ld_pSection st)
                            (ld_szComment st ++ [LF] ++ szLine)).
Proof. intros H. unfold Load_line. by rewrite H. Qed.

Lemma Load_line_null_section szLine szKey szValue d szComment :
  find_first_of szLine CommentIndicators <> 0 ->
  find_first_of szLine (str "[") <> 0 ->
  0 < size szLine ->
  GetNextWord szLine = Returned (szKey, szValue) ->
  0 < size szKey ->
  Load_line szLine (mk_load_state d None szComment) = Undefined.
Proof.
  intros H1 H2 H3 H4 H5. unfold Load_line. simpl.
  rewrite (proj2 (Z.eqb_neq _ _) H1), (proj2 (Z.eqb_neq _ _) H2).
  rewrite (proj2 (Z.ltb_lt _ _) H3), H4. simpl.
  by rewrite (proj2 (Z.ltb_lt _ _) H5).
Qed.

Lemma Load_line_unterminated_header szLine st :
  find_first_of szLine CommentIndicators <> 0 ->
  hd_error szLine = Some "["%char ->
  "]"%char ∉ szLine ->
  size szLine < npos ->
  Load_line szLine st = Thrown out_of_range.
Proof.
  intros Hc Hb Hn Hs. destruct szLine as [|c rest]; [done|].
  injection Hb as ->. unfold Load_line.
  rewrite (proj2 (Z.eqb_neq _ _) Hc).
  assert (find_first_of ("["%char :: rest) (str "[") = 0) as -> by reflexivity.
  cbv beta iota zeta delta [Z.eqb].
  rewrite erase_prefix by (unfold size; simpl length; lia).
  change (drop (Z.to_nat 1) ("["%char :: rest)) with rest. simpl mbind.
  assert (find_last_of rest (str "]") = npos) as ->.
  { unfold find_last_of.
    assert (last_index (is_one_of (str "]")) rest = None) as ->; [|done].
    apply last_index_None. apply forallb_forall. intros x Hx.
    apply negb_true_iff, bool_decide_eq_false. intros Hin.
    apply list_elem_of_In in Hx. apply Hn.
    apply elem_of_cons. right.
    apply list_elem_of_singleton in Hin. by subst. }
  unfold erase. unfold size in *. simpl length in Hs.
  rewrite (proj2 (Z.ltb_lt _ _)) by lia. done.
Qed.

Lemma Trim_trailing s c :
  size s < 2 ^ 31 - 1 ->
  (exists a s', s = a :: s' /\ is_one_of trim_chars a = false) ->
  is_one_of trim_chars c = true ->
  Trim (s ++ [c; c]) = Returned (s ++ [c]).
Proof.
  intros Hs (a & s' & -> & Ha) Hc.
  rewrite Trim_short by (unfold size in *; rewrite length_app; simpl length in *; lia).
  assert (trim_left ((a :: s') ++ [c; c]) = ((a :: s') ++ [c]) ++ [c]) as ->.
  { unfold trim_left. simpl first_index. rewrite Ha. simpl.
    by rewrite <- app_assoc. }
  unfold trim_right. rewrite last_snoc, Hc.
  rewrite take_app_length'; [done|]. rewrite !length_app. simpl. lia.
Qed.

End Lines.

(** ** The loop of [Load] *)

Lemma is_one_of_spec chars c : is_one_of chars c = true <-> c ∈ chars.
Proof. apply bool_decide_eq_true. Qed.

Lemma find_first_of_head c s chars :
  (find_first_of (c :: s) chars =? 0) = is_one_of chars c.
Proof.
  unfold find_first_of. simpl. destruct (is_one_of chars c); [done|].
  destruct (first_index _ s); simpl; [|done]. by destruct n.
Qed.

Lemma find_first_of_nil chars : (find_first_of [] chars =? 0) = false.
Proof. reflexivity. Qed.

Lemma getline_line line rest room :
  LF ∉ line -> (length line <= room)%nat ->
  getline (line ++ LF :: rest) room = (line, rest, false).
Proof.
  revert room. induction line as [|c line IH]; intros room Hn Hl; simpl.
  - by destruct (decide (LF = LF)).
  - apply not_elem_of_cons in Hn as [Hc Hn].
    rewrite decide_False by done.
    destruct room as [|room]; [simpl in Hl; lia|].
    rewrite IH; [done|done|simpl in Hl; lia].
Qed.

Lemma getline_shorter File room buffer rest :
  getline File room = (buffer, rest, false) -> (length rest < length File)%nat.
Proof.
  revert room buffer. induction File as [|c File IH]; intros room buffer; simpl; [done|].
  destruct (decide (c = LF)); [intros [= _ <-]; lia|].
  destruct room as [|room]; [done|].
  destruct (getline File room) as [[b r] dn] eqn:E.
  intros [= _ <- ->]. apply IH in E. lia.
Qed.

Section Stream.
Context {hdr : Header}.

Lemma Load_loop_fuel fuel1 fuel2 File st :
  (length File < fuel1)%nat -> (length File < fuel2)%nat ->
  Load_loop fuel1 File st = Load_loop fuel2 File st.
Proof.
  revert fuel2 File st. induction fuel1 as [|fuel1 IH]; intros fuel2 File st H1 H2; [lia|].
  destruct fuel2 as [|fuel2]; [lia|]. simpl.
  destruct (getline File (MAX_BUFFER_LEN - 1)) as [[buffer rest] bDone] eqn:E.
  destruct (Trim (c_str buffer) ≫= fun szLine => Load_line szLine st) as [st'| |]; [|done|done].
  destruct bDone; [done|].
  apply getline_shorter in E. apply IH; lia.
Qed.

Lemma Load_loop_terminates fuel File st :
  (length File < fuel)%nat -> is_Some (Load_loop fuel File st).
Proof.
  revert File st. induction fuel as [|fuel IH]; intros File st H; [lia|]. simpl.
  destruct (getline File (MAX_BUFFER_LEN - 1)) as [[buffer rest] bDone] eqn:E.
  destruct (Trim (c_str buffer) ≫= fun szLine => Load_line szLine st) as [st'| |]; [|done|done].
  destruct bDone; [done|].
  apply getline_shorter in E. apply IH; lia.
Qed.

Lemma Load_stream_fuel File st :
  Load_loop (S (length File)) File st = Some (Load_stream File st).
Proof.
  unfold Load_stream.
  destruct (Load_loop_terminates (S (length File)) File st) as [r ->]; [lia|done].
Qed.

Lemma Load_stream_end st : Load_stream [] st = Returned st.
Proof. reflexivity. Qed.

Lemma Load_stream_line line rest st :
  LF ∉ line -> NUL ∉ line -> (length line < MAX_BUFFER_LEN)%nat ->
  Load_stream (line ++ LF :: rest) st
  = st' ← (szLine ← Trim line; Load_line szLine st); Load_stream rest st'.
Proof.
  intros Hlf Hnul Hlen. unfold Load_stream at 1. simpl Load_loop.
  rewrite getline_line by (done || lia). rewrite c_str_id by done.
  destruct (Trim line ≫= fun szLine => Load_line szLine st) as [st'| |]; [|done|done].
  simpl. unfold Load_stream.
  rewrite (Load_loop_fuel _ (S (length rest))); [done| |lia].
  rewrite length_app. simpl. lia.
Qed.

End Stream.

(** ** Plain text *)

Section PlainText.
Context {hdr : Header}.

Lemma not_in_spec chars c : not_in chars c = true <-> c ∉ chars.
Proof. unfold not_in, is_one_of. by rewrite negb_true_iff, bool_decide_eq_false. Qed.

Lemma not_in_is_one_of chars c : not_in chars c = true -> is_one_of chars c = false.
Proof. unfold not_in. by rewrite negb_true_iff. Qed.

Lemma one_line_spec s : one_line s = true -> (NUL ∉ s) /\ (LF ∉ s).
Proof.
  unfold one_line. intros H.
  assert (forall c, c ∈ s -> (c <> NUL /\ c <> LF)) as Hc.
  { intros c Hin. apply list_elem_of_In in Hin.
    pose proof (proj1 (forallb_forall _ _) H c Hin) as Hn.
    apply not_in_spec in Hn. rewrite !not_elem_of_cons in Hn. tauto. }
  split; intros Hin; apply Hc in Hin; tauto.
Qed.

Lemma one_line_app s1 s2 : one_line (s1 ++ s2) = one_line s1 && one_line s2.
Proof. apply forallb_app. Qed.

Lemma Trim_id s :
  size s <= 2 ^ 31 -> starts_well s = true -> ends_well s = true ->
  Trim s = Returned s.
Proof.
  intros Hs H1 H2. rewrite Trim_short by done.
  assert (trim_left s = s) as ->.
  { unfold trim_left. destruct s as [|c s]; [done|]. simpl in *.
    unfold not_in in H1. by rewrite H1. }
  unfold trim_right. unfold ends_well in H2.
  destruct (last s) as [c|]; [|done]. by rewrite (not_in_is_one_of _ _ H2).
Qed.

Lemma Trim_leading c s :
  size s < 2 ^ 31 -> is_one_of trim_chars c = true ->
  s <> [] -> starts_well s = true -> ends_well s = true ->
  Trim (c :: s) = Returned s.
Proof.
  intros Hs Hc Hne H1 H2.
  rewrite Trim_short by (unfold size in *; simpl length; lia).
  assert (trim_left (c :: s) = s) as ->.
  { unfold trim_left. simpl. rewrite Hc. simpl.
    destruct s as [|a s]; [done|]. simpl in *. unfold not_in in H1. by rewrite H1. }
  unfold trim_right. unfold ends_well in H2.
  destruct (last s) as [a|]; [|done]. by rewrite (not_in_is_one_of _ _ H2).
Qed.

Lemma Trim_trailing_one s c :
  size s < 2 ^ 31 -> is_one_of trim_chars c = true ->
  s <> [] -> starts_well s = true ->
  Trim (s ++ [c]) = Returned s.
Proof.
  intros Hs Hc Hne H1.
  rewrite Trim_short by (unfold size in *; rewrite length_app; simpl length; lia).
  assert (trim_left (s ++ [c]) = s ++ [c]) as ->.
  { unfold trim_left. destruct s as [|a s]; [done|]. simpl in *.
    unfold not_in in H1. by rewrite H1. }
  unfold trim_right. rewrite last_snoc, Hc.
  rewrite length_app. simpl. rewrite take_app_length'; [done|lia].
Qed.

Lemma last_cons_ne {A} (a : A) (s : list A) : s <> [] -> last (a :: s) = last s.
Proof. by destruct s. Qed.

Lemma last_app_ne {A} (s1 s2 : list A) : s2 <> [] -> last (s1 ++ s2) = last s2.
Proof.
  intros H. destruct s2 as [|c s2 _] using rev_ind; [done|].
  by rewrite app_assoc, !last_snoc.
Qed.

Lemma ends_well_app s1 s2 : s2 <> [] -> ends_well (s1 ++ s2) = ends_well s2.
Proof. intros H. unfold ends_well. by rewrite last_app_ne. Qed.

Lemma not_in_pair a b c : not_in [a; b] c = true -> c <> a /\ c <> b.
Proof. rewrite not_in_spec, !not_elem_of_cons. tauto. Qed.

Lemma header_ok_spec :
  header_ok = true ->
  (exists e es, EqualIndicators = e :: es /\ e <> NUL /\ e <> LF)
  /\ (exists i ci, CommentIndicators = i :: ci /\ i <> NUL /\ i <> LF
                   /\ is_one_of trim_chars i = false)
  /\ is_one_of trim_chars LF = true
  /\ is_one_of trim_chars "["%char = false
  /\ is_one_of trim_chars "]"%char = false
  /\ is_one_of CommentIndicators "["%char = false
  /\ Z.of_nat MAX_BUFFER_LEN <= 2 ^ 31
  /\ AUTOCREATE_KEYS <> 0.
Proof.
  unfold header_ok. intros Hh.
  repeat (apply andb_true_iff in Hh as [Hh ?]).
  split.
  { destruct EqualIndicators as [|e es]; [done|]. exists e, es.
    apply not_in_pair in Hh. tauto. }
  split.
  { destruct CommentIndicators as [|i ci]; [done|]. exists i, ci.
    match goal with H : _ && _ = true |- _ => apply andb_true_iff in H as [Hi1 Hi2] end.
    apply not_in_pair in Hi1. apply not_in_is_one_of in Hi2. tauto. }
  repeat split; try (by apply not_in_is_one_of); try done.
  - by apply Z.leb_le.
  - apply Z.eqb_neq. by apply negb_true_iff.
Qed.

Lemma one_line_cons c s : one_line (c :: s) = true <-> (c <> NUL /\ c <> LF) /\ one_line s = true.
Proof.
  unfold one_line. simpl. rewrite andb_true_iff. split.
  - intros [H1 H2]. apply not_in_pair in H1. tauto.
  - intros [[H1 H2] H3]. split; [|done]. apply not_in_spec. rewrite !not_elem_of_cons.
    split; [done|]. split; [done|]. apply not_elem_of_nil.
Qed.

Lemma starts_well_app s1 s2 : s1 <> [] -> starts_well (s1 ++ s2) = starts_well s1.
Proof. by destruct s1. Qed.

Lemma find_first_of_app_head s1 s2 chars :
  s1 <> [] ->
  (find_first_of (s1 ++ s2) chars =? 0) = (find_first_of s1 chars =? 0).
Proof. destruct s1 as [|a s1]; [done|]. intros _. simpl. by rewrite !find_first_of_head. Qed.

(** The lines of a text. *)
Lemma lines_spec w :
  ((LF ∉ w) /\ lines w = [w])
  \/ (exists l w', w = l ++ LF :: w' /\ (LF ∉ l) /\ lines w = l :: lines w').
Proof.
  induction w as [|c w IH]; [left; split; [apply not_elem_of_nil|done]|].
  cbn [lines]. destruct (decide (c = LF)) as [->|Hc].
  - right. exists [], w. split; [done|]. split; [apply not_elem_of_nil|done].
  - destruct IH as [[Hlf ->]|(l & w' & -> & Hlf & ->)].
    + left. split; [|done]. rewrite not_elem_of_cons. by split; [congruence|].
    + right. exists (c :: l), w'. split; [done|]. split; [|done].
      rewrite not_elem_of_cons. by split; [congruence|].
Qed.

(** A text made of comment lines starts and ends as a comment line does. *)
Lemma comment_block_facts w :
  forallb comment_line (lines w) = true ->
  w <> [] /\ starts_well w = true /\ ends_well w = true
  /\ (find_first_of w CommentIndicators =? 0) = true.
Proof.
  remember (lines w) as ls eqn:E. revert w E.
  induction ls as [|l ls IH]; intros w E Hb.
  { destruct (lines_spec w) as [[_ Hl]|(l & w' & _ & _ & Hl)]; by rewrite Hl in E. }
  cbn [forallb] in Hb. apply andb_true_iff in Hb as [Hl Hls].
  unfold comment_line in Hl. repeat (apply andb_true_iff in Hl as [Hl ?]).
  assert (l <> []) as Hne by (by intros ->).
  destruct (lines_spec w) as [[_ Hw]|(l' & w' & Ew & _ & Hw)];
    rewrite Hw in E; injection E as El Els.
  - by rewrite <- El.
  - rewrite <- El in Ew. rewrite Ew.
    destruct (IH w' Els Hls) as (Hne' & _ & He' & _).
    split; [by destruct l|]. split; [by rewrite starts_well_app|].
    split; [|by rewrite find_first_of_app_head].
    rewrite ends_well_app by done. unfold ends_well in *. by rewrite last_cons_ne.
Qed.

Lemma CommentStr_trimmed c :
  size c <= 2 ^ 31 ->
  CommentStr c = Returned (written_comment (trim_right (trim_left c))).
Proof.
  intros Hs. unfold CommentStr. rewrite Trim_short by done. ret_bind.
  destruct (trim_right (trim_left c)) as [|a t]; [done|].
  unfold size. simpl length.
  by destruct (Z.eqb_spec (Z.of_nat (S (length t))) 0); [lia|].
Qed.

(** Properties of the comment [Save] writes. *)
Lemma saved_comment_plain c :
  plain_comment c = true -> c <> [] ->
  saved_comment c <> []
  /\ (NUL ∉ saved_comment c)
  /\ starts_well (saved_comment c) = true
  /\ ends_well (saved_comment c) = true
  /\ (find_first_of (saved_comment c) CommentIndicators =? 0) = true
  /\ forallb comment_line (lines (saved_comment c)) = true.
Proof.
  intros Hp Hne. unfold plain_comment in Hp. apply andb_true_iff in Hp as [_ Hp].
  destruct c as [|a c]; [done|].
  destruct (comment_block_facts _ Hp) as (H1 & H2 & H3 & H4).
  split; [done|]. split; [apply c_str_no_NUL|]. done.
Qed.

Lemma plain_comment_bound c : plain_comment c = true -> size c <= 2 ^ 31.
Proof.
  unfold plain_comment. intros Hp. apply andb_true_iff in Hp as [Hp _].
  by apply Z.leb_le.
Qed.

Lemma saved_comment_nil : saved_comment [] = [].
Proof. reflexivity. Qed.

Lemma CommentStr_plain c :
  plain_comment c = true ->
  exists x, CommentStr c = Returned x /\ c_str x = saved_comment c.
Proof.
  intros Hp. eexists. split; [|reflexivity].
  apply CommentStr_trimmed. by apply plain_comment_bound.
Qed.

Lemma CommentStr_loaded c :
  header_ok = true -> plain_comment c = true -> size (saved_comment c) < 2 ^ 31 ->
  CommentStr (loaded_comment c) = Returned (saved_comment c).
Proof.
  intros Hh Hp Hs. destruct c as [|a c]; [reflexivity|].
  destruct (saved_comment_plain (a :: c) Hp ltac:(done)) as (Hne & Hnul & Hs1 & Hs2 & Hf & _).
  destruct (header_ok_spec Hh) as (_ & _ & HLF & _).
  unfold loaded_comment. set (wc := saved_comment (a :: c)) in *.
  unfold CommentStr. change ([LF] ++ wc) with (LF :: wc).
  rewrite Trim_leading; try done.
  simpl. destruct wc as [|w wc']; [done|].
  unfold size. simpl length. destruct (Z.eqb_spec (Z.of_nat (S (length wc'))) 0); [lia|].
  rewrite Hf. done.
Qed.

End PlainText.

(** ** What [Save] writes for a plain document *)

Section SaveSide.
Context {hdr : Header}.

Lemma saved_comment_c_str c : c_str (saved_comment c) = saved_comment c.
Proof. apply c_str_id, c_str_no_NUL. Qed.

Lemma c_str_one_line s : one_line s = true -> c_str s = s.
Proof. intros H. apply c_str_id. by apply one_line_spec. Qed.

Lemma size_pos_loaded c : (0 <? size (loaded_comment c)) = (0 <? size c).
Proof. by destruct c. Qed.

Lemma WriteLn_fits File formatted :
  fits formatted = true -> WriteLn File formatted = Returned (File ++ formatted ++ [LF]).
Proof.
  unfold fits, WriteLn. intros H. apply Nat.ltb_lt in H.
  by rewrite (proj2 (Nat.leb_gt _ _) H).
Qed.

Lemma plain_key_spec k : plain_key k = true -> plain_key_facts k.
Proof.
  unfold plain_key. intros H. repeat (apply andb_true_iff in H as [H ?]).
  destruct (k_szKey k) as [|a s] eqn:E; [done|].
  repeat (apply andb_true_iff in H as [H ?]).
  split; rewrite ?E; try done.
  - rewrite find_first_of_head. by apply not_in_is_one_of.
  - rewrite find_first_of_head. by apply not_in_is_one_of.
Qed.

Lemma key_format_bounds k :
  header_ok = true -> fits (key_format k) = true ->
  size (k_szKey k) + size (k_szValue k) + 1 < 2 ^ 31
  /\ (length (k_szKey k) + length (k_szValue k) + 1 < MAX_BUFFER_LEN)%nat
  /\ (k_szComment k <> [] ->
      (length (saved_comment (k_szComment k)) + 2 < MAX_BUFFER_LEN)%nat)
  /\ size (saved_comment (k_szComment k)) < 2 ^ 31.
Proof.
  intros Hh Hf. destruct (header_ok_spec Hh) as (_ & _ & _ & _ & _ & _ & Hmax & _).
  unfold fits in Hf. apply Nat.ltb_lt in Hf. unfold key_format in Hf.
  rewrite !length_app in Hf. simpl length in Hf.
  unfold size. split; [lia|]. split; [lia|]. split; [|lia].
  intros Hne. destruct (k_szComment k) as [|a c] eqn:Ec; [done|].
  unfold size in Hf. simpl length in Hf.
  replace (0 <? Z.of_nat (S (length c))) with true in Hf by (symmetry; apply Z.ltb_lt; lia).
  simpl length in Hf. lia.
Qed.

Lemma Save_key_plain File k :
  header_ok = true -> plain_key k = true ->
  Save_key File k = Returned (File ++ key_text k).
Proof.
  intros Hh Hp. destruct (plain_key_spec k Hp)
    as [pk_nonempty0 pk_starts0 pk_not_comment0 pk_not_header0 pk_ends0 pk_line0
          pk_no_equal0 pk_value_line0 pk_value_ends0 pk_comment0 pk_fits0].
  unfold Save_key.
  assert ((0 <? size (k_szKey k)) = true) as ->.
  { apply Z.ltb_lt. unfold size. destruct (k_szKey k); [done|]. simpl. lia. }
  destruct (CommentStr_plain _ pk_comment0) as (x & Hc & Hx). rewrite Hc. ret_bind.
  rewrite Hx, !c_str_one_line by done.
  by rewrite WriteLn_fits.
Qed.

Lemma Save_key_loaded File k :
  header_ok = true -> plain_key k = true ->
  Save_key File (loaded_key k) = Returned (File ++ key_text k).
Proof.
  intros Hh Hp. destruct (plain_key_spec k Hp)
    as [pk_nonempty0 pk_starts0 pk_not_comment0 pk_not_header0 pk_ends0 pk_line0
          pk_no_equal0 pk_value_line0 pk_value_ends0 pk_comment0 pk_fits0].
  destruct (key_format_bounds k Hh pk_fits0) as (_ & _ & _ & Hc).
  unfold Save_key, loaded_key. simpl k_szKey. simpl k_szValue. simpl k_szComment.
  assert ((0 <? size (k_szKey k)) = true) as ->.
  { apply Z.ltb_lt. unfold size. destruct (k_szKey k); [done|]. simpl. lia. }
  rewrite CommentStr_loaded by done.
  ret_bind. rewrite size_pos_loaded, saved_comment_c_str.
  rewrite !c_str_one_line by done.
  by rewrite WriteLn_fits.
Qed.

Lemma for_each_Save_key (f : t_Key -> t_Key) Keys File :
  (forall k File, In k Keys -> Save_key File (f k) = Returned (File ++ key_text k)) ->
  for_each Save_key (f <$> Keys) File = Returned (File ++ keys_text Keys).
Proof.
  revert File. induction Keys as [|k Keys IH]; intros File H; simpl.
  - by rewrite app_nil_r.
  - rewrite H by (by left). ret_bind. rewrite IH by (intros; apply H; by right).
    unfold keys_text. simpl. by rewrite <- app_assoc.
Qed.

Lemma size_0 s : (size s =? 0) = true <-> s = [].
Proof. unfold size. destruct s; simpl; [done|]. by split. Qed.

Lemma size_pos s : (0 <? size s) = negb (size s =? 0).
Proof. unfold size. by destruct s. Qed.

Lemma size_pos_ne s : s <> [] -> (0 <? size s) = true.
Proof. intros H. destruct s; [done|]. apply Z.ltb_lt. unfold size. simpl. lia. Qed.

Lemma plain_section_spec s : plain_section s = true -> plain_section_facts s.
Proof.
  unfold plain_section. intros H. repeat (apply andb_true_iff in H as [H ?]).
  split; try done.
  - intros Hne. match goal with H : (size (s_szComment s) =? 0) || _ = true |- _ =>
      apply orb_true_iff in H as [H|H]; [by apply size_0 in H|done] end.
  - intros Hne. match goal with H : (size (s_szName s) =? 0) || _ = true |- _ =>
      apply orb_true_iff in H as [H|H]; [by apply size_0 in H|done] end.
  - by apply forallb_forall.
Qed.

Lemma comment_format_bounds s :
  header_ok = true -> fits (comment_format s) = true ->
  size (saved_comment (s_szComment s)) < 2 ^ 31
  /\ (length (saved_comment (s_szComment s)) + 1 < MAX_BUFFER_LEN)%nat.
Proof.
  intros Hh Hf. destruct (header_ok_spec Hh) as (_ & _ & _ & _ & _ & _ & Hmax & _).
  unfold fits in Hf. apply Nat.ltb_lt in Hf. unfold comment_format in Hf.
  rewrite !length_app in Hf. simpl length in Hf. unfold size. lia.
Qed.

(** The comment and the header of a section, as [Save_section] writes them
    for the section itself ([c' = s_szComment s]) and for the section read
    back ([c' = loaded_comment (s_szComment s)]). *)
Lemma Save_section_as File s c' Keys' :
  header_ok = true -> plain_section s = true ->
  (exists x, CommentStr c' = Returned x /\ c_str x = saved_comment (s_szComment s)) ->
  (0 <? size c') = (0 <? size (s_szComment s)) ->
  (forall File, for_each Save_key Keys' File = Returned (File ++ keys_text (s_Keys s))) ->
  Save_section File (mk_Section (s_szName s) c' Keys') = Returned (File ++ section_text s).
Proof.
  intros Hh Hp (x & Hc & Hx) Hsz Hk. destruct (plain_section_spec s Hp)
    as [ps_line0 ps_comment0 ps_comment_fits0 ps_header_fits0 ps_keys0 ps_distinct0].
  unfold Save_section, section_text. simpl s_szComment. simpl s_szName. simpl s_Keys.
  rewrite Hsz. destruct (s_szComment s) as [|a c] eqn:Ec.
  - change (0 <? size []) with false. cbv iota. ret_bind. cbv iota.
    destruct (s_szName s) as [|b n] eqn:En.
    + change (0 <? size []) with false. cbv iota. ret_bind. rewrite Hk.
      done.
    + rewrite (size_pos_ne (b :: n)) by done. rewrite c_str_one_line by done.
      rewrite WriteLn_fits.
      2:{ unfold header_format in ps_header_fits0. rewrite Ec, En in ps_header_fits0.
          by apply ps_header_fits0. }
      ret_bind. rewrite Hk. unfold header_format. rewrite Ec, En.
      change (0 <? size []) with false. cbv iota.
      text_eq.
  - rewrite (size_pos_ne (a :: c)) by done. rewrite Hc. ret_bind.
    rewrite Hx.
    rewrite WriteLn_fits.
    2:{ unfold comment_format in ps_comment_fits0. rewrite Ec in ps_comment_fits0.
        by apply ps_comment_fits0. }
    ret_bind. cbv iota.
    destruct (s_szName s) as [|b n] eqn:En.
    + change (0 <? size []) with false. cbv iota. ret_bind. rewrite Hk.
      unfold comment_format. rewrite Ec. text_eq.
    + rewrite (size_pos_ne (b :: n)) by done. rewrite c_str_one_line by done.
      rewrite WriteLn_fits.
      2:{ unfold header_format in ps_header_fits0. rewrite Ec, En in ps_header_fits0.
          rewrite (size_pos_ne (a :: c)) in ps_header_fits0 by done. by apply ps_header_fits0. }
      ret_bind. rewrite Hk. unfold comment_format, header_format. rewrite Ec, En.
      rewrite (size_pos_ne (a :: c)) by done.
      text_eq.
Qed.

End SaveSide.

(** ** What [Load] reads from it *)

Lemma land_lor_absorb a b : Z.land (Z.lor a b) b = b.
Proof.
  apply Z.bits_inj'. intros n Hn.
  rewrite Z.land_spec, Z.lor_spec. by destruct (Z.testbit a n), (Z.testbit b n).
Qed.

Lemma land_lor_other a b c : Z.land (Z.lor (Z.lor a b) c) b = b.
Proof.
  apply Z.bits_inj'. intros n Hn.
  rewrite Z.land_spec, !Z.lor_spec.
  by destruct (Z.testbit a n), (Z.testbit b n), (Z.testbit c n).
Qed.

Section LoadSide.
Context {hdr : Header}.

Lemma reading_push pre cur fname b flags :
  reading (pre ++ [cur]) fname b flags
  = mk_load_state (mk_CDataFile (pre ++ [cur]) fname b flags) (Some (length pre)) [].
Proof. unfold reading. rewrite length_app. simpl. do 2 f_equal. lia. Qed.

Lemma GetSection_last pre cur fname b flags szSection :
  Forall (fun s => CompareNoCase (s_szName s) szSection <> 0) pre ->
  CompareNoCase (s_szName cur) szSection = 0 ->
  GetSection (mk_CDataFile (pre ++ [cur]) fname b flags) szSection = Some (length pre).
Proof.
  intros Hpre Hcur. unfold GetSection. simpl m_Sections.
  rewrite list_find_app_r by (by apply list_find_None).
  simpl. by rewrite decide_True.
Qed.

Lemma GetSection_none l fname b flags szSection :
  Forall (fun s => CompareNoCase (s_szName s) szSection <> 0) l ->
  GetSection (mk_CDataFile l fname b flags) szSection = None.
Proof.
  intros Hl. unfold GetSection. simpl m_Sections.
  by rewrite (proj2 (list_find_None _ _) Hl).
Qed.

Lemma SetValue_push pre cur fname b flags szKey szValue szComment :
  Z.land flags AUTOCREATE_KEYS <> 0 ->
  Forall (fun s => CompareNoCase (s_szName s) (s_szName cur) <> 0) pre ->
  Forall (fun k => CompareNoCase (k_szKey k) szKey <> 0) (s_Keys cur) ->
  SetValue (mk_CDataFile (pre ++ [cur]) fname b flags) szKey szValue szComment (s_szName cur)
  = (true, mk_CDataFile
             (pre ++ [set_Keys (s_Keys cur ++ [mk_Key szKey szValue szComment]) cur])
             fname true flags).
Proof.
  intros Hf Hpre Hkeys.
  pose proof (GetSection_last pre cur fname b flags (s_szName cur) Hpre
                (CompareNoCase_refl _)) as Hs.
  unfold SetValue, GetKey. rewrite Hs. cbn [mbind option_bind m_Sections].
  rewrite lookup_push_back. cbn [mbind option_bind].
  rewrite (proj2 (list_find_None _ _) Hkeys). cbn [fmap option_fmap option_map mbind option_bind].
  cbn [negb m_Flags]. rewrite bool_decide_eq_true_2 by done.
  unfold alter_section, set_Dirty, set_Sections. cbn [m_Sections m_szFileName m_bDirty m_Flags].
  by rewrite alter_push_back.
Qed.

Lemma CreateSection_push l fname b flags szSection szComment :
  Forall (fun s => CompareNoCase (s_szName s) szSection <> 0) l ->
  CreateSection (mk_CDataFile l fname b flags) szSection szComment
  = (true, mk_CDataFile (l ++ [mk_Section szSection szComment []]) fname true flags).
Proof.
  intros Hl. rewrite CreateSection_new; [done|]. by apply GetSection_none.
Qed.

Lemma find_first_of_absent s chars :
  forallb (not_in chars) s = true -> find_first_of s chars = npos.
Proof.
  intros H. unfold find_first_of.
  assert (first_index (is_one_of chars) s = None) as ->; [|done].
  apply first_index_None. exact H.
Qed.

Lemma find_first_of_at s1 c s2 chars :
  forallb (not_in chars) s1 = true -> is_one_of chars c = true ->
  find_first_of (s1 ++ c :: s2) chars = Z.of_nat (length s1).
Proof.
  intros H Hc. unfold find_first_of. rewrite first_index_app by exact H.
  simpl. rewrite Hc. simpl. f_equal. lia.
Qed.

Lemma find_last_of_at s c chars :
  is_one_of chars c = true -> find_last_of (s ++ [c]) chars = Z.of_nat (length s).
Proof. intros Hc. unfold find_last_of. by rewrite last_index_snoc, Hc. Qed.

(** [GetNextWord] on a trimmed key line. *)
Lemma GetNextWord_key k :
  size k < 2 ^ 31 -> starts_well k = true -> ends_well k = true ->
  forallb (not_in EqualIndicators) k = true ->
  GetNextWord k = Returned (k, []).
Proof.
  intros Hs H1 H2 Hk. unfold GetNextWord.
  rewrite find_first_of_absent by done. rewrite to_int_npos.
  change (-1 <? -1) with false. cbv iota. ret_bind.
  rewrite Trim_id by (done || lia). done.
Qed.

Lemma GetNextWord_key_value k e v :
  size k + size v + 1 < 2 ^ 31 -> starts_well k = true -> ends_well k = true ->
  forallb (not_in EqualIndicators) k = true -> is_one_of EqualIndicators e = true ->
  GetNextWord (k ++ e :: v) = Returned (k, v).
Proof.
  intros Hs H1 H2 Hk He. unfold GetNextWord. unfold size in Hs.
  rewrite find_first_of_at by done.
  rewrite to_int_small by lia.
  rewrite (proj2 (Z.ltb_lt _ _)) by lia.
  rewrite to_size_t_small by lia.
  rewrite substr_prefix by (unfold size; rewrite length_app; simpl; lia).
  rewrite Nat2Z.id, take_app_length. ret_bind.
  unfold int_add, INT_MAX.
  rewrite (proj2 (Z.ltb_ge _ _)) by lia.
  rewrite (proj2 (Z.ltb_ge _ _)) by lia. cbn [orb]. ret_bind.
  rewrite to_size_t_small by lia.
  rewrite erase_prefix by (unfold size; rewrite length_app; simpl; lia).
  replace (Z.to_nat (Z.of_nat (length k) + 1)) with (length k + 1)%nat by lia.
  rewrite <- drop_drop, drop_app_length. cbn [drop]. ret_bind.
  rewrite Trim_id by (done || unfold size; lia). done.
Qed.

End LoadSide.

Section LoadLines.
Context {hdr : Header}.

Lemma Load_blank rest st :
  (0 < MAX_BUFFER_LEN)%nat ->
  Load_stream (LF :: rest) st = Load_stream rest st.
Proof.
  intros Hm. rewrite (Load_stream_line [] rest st); [|apply not_elem_of_nil..|done].
  rewrite Trim_id by done. done.
Qed.

Lemma Load_comment wc rest d p cm :
  wc <> [] -> one_line wc = true -> starts_well wc = true -> ends_well wc = true ->
  (find_first_of wc CommentIndicators =? 0) = true ->
  (length wc < MAX_BUFFER_LEN)%nat -> Z.of_nat MAX_BUFFER_LEN <= 2 ^ 31 ->
  Load_stream (wc ++ LF :: rest) (mk_load_state d p cm)
  = Load_stream rest (mk_load_state d p (cm ++ [LF] ++ wc)).
Proof.
  intros Hne Hl H1 H2 Hc Hlen Hmax.
  destruct (one_line_spec wc Hl) as [Hnul Hlf].
  rewrite Load_stream_line by done.
  rewrite Trim_id by (done || unfold size; lia). ret_bind.
  rewrite Load_line_comment by (by apply Z.eqb_eq). done.
Qed.

(** A text made of comment lines joins the pending comment, line by
    line. *)
Lemma Load_comment_block wc rest d p cm :
  forallb comment_line (lines wc) = true -> NUL ∉ wc ->
  (length wc < MAX_BUFFER_LEN)%nat -> Z.of_nat MAX_BUFFER_LEN <= 2 ^ 31 ->
  Load_stream (wc ++ LF :: rest) (mk_load_state d p cm)
  = Load_stream rest (mk_load_state d p (cm ++ [LF] ++ wc)).
Proof.
  intros Hb Hnul Hlen Hmax.
  remember (lines wc) as ls eqn:E. revert wc cm E Hb Hnul Hlen.
  induction ls as [|l ls IH]; intros wc cm E Hb Hnul Hlen.
  { destruct (lines_spec wc) as [[_ Hl]|(l & w' & _ & _ & Hl)]; by rewrite Hl in E. }
  cbn [forallb] in Hb. apply andb_true_iff in Hb as [Hl Hls].
  unfold comment_line in Hl. repeat (apply andb_true_iff in Hl as [Hl ?]).
  assert (l <> []) as Hne by (by intros ->).
  destruct (lines_spec wc) as [[Hlf Hw]|(l' & w' & Ew & Hlf & Hw)];
    rewrite Hw in E; injection E as El Els.
  - rewrite <- El in *. apply Load_comment; try done.
    unfold one_line. apply forallb_forall. intros x Hx. apply list_elem_of_In in Hx.
    apply not_in_spec. rewrite !not_elem_of_cons. split; [by intros ->|].
    split; [by intros ->|apply not_elem_of_nil].
  - rewrite <- El in *. rewrite Ew in *. clear Ew El Hw.
    rewrite not_elem_of_app, not_elem_of_cons in Hnul. destruct Hnul as (Hn1 & _ & Hn2).
    rewrite length_app in Hlen. simpl length in Hlen.
    rewrite <- app_assoc. cbn [app].
    rewrite Load_comment; try done; [|
      unfold one_line; apply forallb_forall; intros x Hx; apply list_elem_of_In in Hx;
      apply not_in_spec; rewrite !not_elem_of_cons; split; [by intros ->|];
      split; [by intros ->|apply not_elem_of_nil] | lia].
    rewrite (IH w' (cm ++ [LF] ++ l) Els Hls Hn2) by lia.
    do 2 f_equal. by rewrite <- !app_assoc.
Qed.

Lemma erase_last s c : erase (s ++ [c]) (Z.of_nat (length s)) 1 = Returned s.
Proof.
  pose proof (erase_suffix (s ++ [c]) (size s)) as H.
  unfold size in *. rewrite length_app in H. simpl length in H.
  replace (Z.of_nat (length s + 1) - Z.of_nat (length s)) with 1 in H by lia.
  rewrite H by lia. by rewrite Nat2Z.id, take_app_length.
Qed.

Lemma Load_header n rest l fname b flags p cm :
  header_ok = true -> one_line n = true ->
  (length (str "[" ++ n ++ str "]") < MAX_BUFFER_LEN)%nat ->
  Forall (fun s => CompareNoCase (s_szName s) n <> 0) l ->
  Load_stream ((str "[" ++ n ++ str "]") ++ LF :: rest)
              (mk_load_state (mk_CDataFile l fname b flags) p cm)
  = Load_stream rest (reading (l ++ [mk_Section n cm []]) fname true flags).
Proof.
  intros Hh Hl Hlen Hd.
  destruct (header_ok_spec Hh) as (_ & _ & _ & Hb1 & Hb2 & Hb3 & Hmax & _).
  destruct (one_line_spec n Hl) as [Hnul Hlf].
  change (str "[" ++ n ++ str "]") with ("["%char :: n ++ ["]"%char]) in *.
  rewrite Load_stream_line; [| | |done].
  2:{ rewrite not_elem_of_cons, not_elem_of_app, list_elem_of_singleton. done. }
  2:{ rewrite not_elem_of_cons, not_elem_of_app, list_elem_of_singleton. done. }
  rewrite Trim_id.
  2:{ unfold size. lia. }
  2:{ simpl. unfold not_in. by rewrite Hb1. }
  2:{ change ("["%char :: n ++ ["]"%char]) with (("["%char :: n) ++ ["]"%char]).
      unfold ends_well. rewrite last_snoc. unfold not_in. by rewrite Hb2. }
  ret_bind. unfold Load_line. cbn [ld_this ld_pSection ld_szComment].
  rewrite !find_first_of_head, Hb3.
  change (is_one_of (str "[") "["%char) with true. cbv iota.
  rewrite erase_prefix by (unfold size; simpl length; lia).
  change (drop (Z.to_nat 1) ("["%char :: n ++ ["]"%char])) with (n ++ ["]"%char]).
  ret_bind.
  rewrite (find_last_of_at n "]"%char (str "]")) by done.
  rewrite (erase_last n "]"%char). ret_bind.
  rewrite CreateSection_call_new by (by apply GetSection_none).
  rewrite CreateSection_push by done. ret_bind.
  rewrite GetSection_last by (done || apply CompareNoCase_refl).
  by rewrite reading_push.
Qed.

Lemma forallb_elem {A} (P : A -> bool) l x : forallb P l = true -> x ∈ l -> P x = true.
Proof. intros H Hx. apply (proj1 (forallb_forall P l) H). by apply list_elem_of_In. Qed.

(** A key line, read with the comment [cm] pending, appends the key to the
    current section. *)
Lemma Load_key_line K rest pre cur fname b flags cm :
  header_ok = true -> plain_key K = true ->
  Z.land flags AUTOCREATE_KEYS <> 0 ->
  Forall (fun s => CompareNoCase (s_szName s) (s_szName cur) <> 0) pre ->
  Forall (fun k => CompareNoCase (k_szKey k) (k_szKey K) <> 0) (s_Keys cur) ->
  Load_stream ((k_szKey K ++ [char0 EqualIndicators] ++ k_szValue K) ++ LF :: rest)
              (mk_load_state (mk_CDataFile (pre ++ [cur]) fname b flags)
                             (Some (length pre)) cm)
  = Load_stream rest
      (reading (pre ++ [set_Keys (s_Keys cur ++ [mk_Key (k_szKey K) (k_szValue K) cm]) cur])
               fname true flags).
Proof.
  intros Hh Hp Hf Hpre Hkeys.
  destruct (plain_key_spec K Hp)
    as [pk_nonempty0 pk_starts0 pk_not_comment0 pk_not_header0 pk_ends0 pk_line0
          pk_no_equal0 pk_value_line0 pk_value_ends0 pk_comment0 pk_fits0].
  destruct (header_ok_spec Hh) as ((e & es & Ee & He1 & He2) & _ & _ & _ & _ & _ & Hmax & _).
  destruct (key_format_bounds K Hh pk_fits0) as (Hsz & Hlen & _).
  destruct (one_line_spec _ pk_line0) as [Hknul Hklf].
  destruct (one_line_spec _ pk_value_line0) as [Hvnul Hvlf].
  set (k := k_szKey K) in *. set (v := k_szValue K) in *.
  assert (char0 EqualIndicators = e) as -> by (by rewrite Ee).
  assert (is_one_of EqualIndicators e = true) as Hein.
  { apply is_one_of_spec. rewrite Ee. apply elem_of_cons. by left. }
  assert (is_one_of trim_chars e = true) as Hetrim.
  { apply is_one_of_spec. unfold trim_chars. apply elem_of_app. right.
    by apply is_one_of_spec. }
  rewrite Load_stream_line.
  2:{ rewrite !not_elem_of_app, list_elem_of_singleton. done. }
  2:{ rewrite !not_elem_of_app, list_elem_of_singleton. done. }
  2:{ rewrite !length_app. simpl length. lia. }
  assert (exists t, Trim (k ++ [e] ++ v) = Returned t
                    /\ GetNextWord t = Returned (k, v)
                    /\ (find_first_of t CommentIndicators =? 0) = false
                    /\ (find_first_of t (str "[") =? 0) = false
                    /\ (0 <? size t) = true) as (t & -> & Hg & Hc1 & Hc2 & Hc3).
  { destruct v as [|b0 v0] eqn:Ev.
    - exists k. cbn [app]. split.
      { apply Trim_trailing_one; try done. unfold size in *. lia. }
      split; [apply GetNextWord_key; try done; unfold size in *; lia|].
      split; [done|]. split; [done|]. by apply size_pos_ne.
    - exists (k ++ [e] ++ b0 :: v0). split.
      { apply Trim_id.
        - unfold size in *. rewrite !length_app. simpl length in *. lia.
        - by rewrite starts_well_app.
        - rewrite app_assoc, ends_well_app by done. done. }
      split; [apply GetNextWord_key_value; try done; unfold size in *; simpl length in *; lia|].
      rewrite !find_first_of_app_head by done.
      split; [done|]. split; [done|]. apply size_pos_ne. by destruct k. }
  ret_bind. unfold Load_line. cbn [ld_this ld_pSection ld_szComment].
  rewrite Hc1, Hc2, Hc3, Hg. ret_bind. cbv beta iota.
  rewrite (size_pos_ne k) by done.
  cbn [mbind option_bind m_Sections]. rewrite lookup_push_back.
  rewrite SetValue_push by done. by rewrite reading_push.
Qed.

End LoadLines.

Lemma distinct_cons n names :
  distinct (n :: names) = true
  <-> Forall (fun m => CompareNoCase n m <> 0) names /\ distinct names = true.
Proof.
  simpl. rewrite andb_true_iff. apply and_iff_compat_r.
  rewrite forallb_forall, Forall_forall. apply forall_proper. intros m.
  rewrite negb_true_iff, Z.eqb_neq, list_elem_of_In. done.
Qed.

Lemma distinct_app_cons l1 x l2 :
  distinct (l1 ++ x :: l2) = true -> Forall (fun m => CompareNoCase m x <> 0) l1.
Proof.
  induction l1 as [|n l1 IH]; [done|].
  change ((n :: l1) ++ x :: l2) with (n :: (l1 ++ x :: l2)).
  rewrite distinct_cons, Forall_app, Forall_cons. intros [(_ & Hx & _) Hd].
  apply Forall_cons. split; [done|]. by apply IH.
Qed.

Section LoadAll.
Context {hdr : Header}.

Lemma fits_pos s : fits s = true -> (0 < MAX_BUFFER_LEN)%nat.
Proof. unfold fits. intros H. apply Nat.ltb_lt in H. lia. Qed.

Lemma Load_key K rest pre cur fname b flags :
  header_ok = true -> plain_key K = true ->
  Z.land flags AUTOCREATE_KEYS <> 0 ->
  Forall (fun s => CompareNoCase (s_szName s) (s_szName cur) <> 0) pre ->
  Forall (fun k => CompareNoCase (k_szKey k) (k_szKey K) <> 0) (s_Keys cur) ->
  Load_stream (key_text K ++ rest) (reading (pre ++ [cur]) fname b flags)
  = Load_stream rest
      (reading (pre ++ [set_Keys (s_Keys cur ++ [loaded_key K]) cur]) fname true flags).
Proof.
  intros Hh Hp Hf Hpre Hkeys.
  destruct (plain_key_spec K Hp)
    as [pk_nonempty0 pk_starts0 pk_not_comment0 pk_not_header0 pk_ends0 pk_line0
          pk_no_equal0 pk_value_line0 pk_value_ends0 pk_comment0 pk_fits0].
  destruct (header_ok_spec Hh) as (_ & _ & _ & _ & _ & _ & Hmax & _).
  destruct (key_format_bounds K Hh pk_fits0) as (_ & _ & Hwc & _).
  pose proof (fits_pos _ pk_fits0) as Hpos.
  rewrite reading_push. unfold key_text, key_format, loaded_key.
  destruct (k_szComment K) as [|a c] eqn:Ec.
  - change (0 <? size []) with false. cbv iota.
    change (saved_comment []) with (@nil ascii). change (loaded_comment []) with (@nil ascii).
    replace ((([] ++ [] ++ [] ++ k_szKey K ++ [char0 EqualIndicators] ++ k_szValue K)
              ++ [LF]) ++ rest)
      with ((k_szKey K ++ [char0 EqualIndicators] ++ k_szValue K) ++ LF :: rest)
      by list_eq.
    by apply Load_key_line.
  - rewrite (size_pos_ne (a :: c)) by done.
    destruct (saved_comment_plain (a :: c) pk_comment0 ltac:(done))
      as (Hne & Hnul & Hs1 & Hs2 & Hci & Hblock).
    specialize (Hwc ltac:(done)).
    set (wc := saved_comment (a :: c)) in *.
    replace ((([LF] ++ wc ++ [LF] ++ k_szKey K ++ [char0 EqualIndicators] ++ k_szValue K)
              ++ [LF]) ++ rest)
      with (LF :: (wc ++ LF :: ((k_szKey K ++ [char0 EqualIndicators] ++ k_szValue K)
                                ++ LF :: rest)))
      by list_eq.
    rewrite Load_blank by done.
    rewrite Load_comment_block by (done || lia).
    change ([] ++ [LF] ++ wc) with (loaded_comment (a :: c)).
    by apply Load_key_line.
Qed.

Lemma Load_keys Keys rest pre n c old fname b flags :
  header_ok = true -> (forall k, k ∈ Keys -> plain_key k = true) ->
  Z.land flags AUTOCREATE_KEYS <> 0 ->
  Forall (fun s => CompareNoCase (s_szName s) n <> 0) pre ->
  distinct ((k_szKey <$> old) ++ (k_szKey <$> Keys)) = true ->
  Load_stream (keys_text Keys ++ rest) (reading (pre ++ [mk_Section n c old]) fname b flags)
  = Load_stream rest
      (reading (pre ++ [mk_Section n c (old ++ (loaded_key <$> Keys))]) fname
               (match Keys with [] => b | _ => true end) flags).
Proof.
  intros Hh Hp Hf Hpre. revert old b.
  induction Keys as [|K Keys IH]; intros old b Hd.
  - by rewrite app_nil_r.
  - unfold keys_text. rewrite fmap_cons. cbn [concat]. rewrite <- app_assoc.
    rewrite (Load_key K _ pre (mk_Section n c old)); try done.
    + unfold set_Keys. cbn [s_szName s_szComment s_Keys].
      fold (keys_text Keys). rewrite IH.
      * rewrite <- app_assoc. cbn [fmap list_fmap app]. by destruct Keys.
      * intros k Hk. apply Hp. by right.
      * rewrite fmap_app, <- app_assoc. exact Hd.
    + apply Hp. by left.
    + cbn [s_Keys]. rewrite fmap_cons in Hd. apply distinct_app_cons in Hd.
      exact (proj1 (Forall_fmap k_szKey (fun m => CompareNoCase m (k_szKey K) <> 0) old) Hd).
Qed.

Lemma Load_section s rest l fname b flags :
  header_ok = true -> plain_section s = true -> s_szName s <> [] ->
  Z.land flags AUTOCREATE_KEYS <> 0 ->
  Forall (fun s' => CompareNoCase (s_szName s') (s_szName s) <> 0) l ->
  Load_stream (section_text s ++ rest) (reading l fname b flags)
  = Load_stream rest (reading (l ++ [loaded_section s]) fname true flags).
Proof.
  intros Hh Hp Hn Hf Hl.
  destruct (plain_section_spec s Hp)
    as [ps_line0 ps_comment0 ps_comment_fits0 ps_header_fits0 ps_keys0 ps_distinct0].
  destruct (header_ok_spec Hh) as (_ & _ & _ & _ & _ & _ & Hmax & _).
  specialize (ps_header_fits0 Hn). pose proof (fits_pos _ ps_header_fits0) as Hpos.
  assert (length (str "[" ++ s_szName s ++ str "]") < MAX_BUFFER_LEN)%nat as Hlen.
  { unfold fits in ps_header_fits0. apply Nat.ltb_lt in ps_header_fits0.
    unfold header_format in ps_header_fits0. rewrite length_app in ps_header_fits0. lia. }
  assert (forall cm b',
    Load_stream ((str "[" ++ s_szName s ++ str "]") ++ LF :: (keys_text (s_Keys s) ++ rest))
                (mk_load_state (mk_CDataFile l fname b' flags) (Some (length l - 1)%nat) cm)
    = Load_stream rest
        (reading (l ++ [mk_Section (s_szName s) cm (loaded_key <$> s_Keys s)]) fname true flags))
    as Hheader.
  { intros cm b'. rewrite Load_header by done.
    rewrite (Load_keys (s_Keys s) rest l (s_szName s) cm []); try done.
    - cbn [app]. by destruct (s_Keys s).
    - intros k Hk. apply ps_keys0. by apply list_elem_of_In. }
  unfold section_text, loaded_section, reading at 1.
  rewrite (size_pos_ne (s_szName s)) by done. unfold header_format.
  destruct (s_szComment s) as [|a c] eqn:Ec.
  - change (0 <? size []) with false. cbv iota.
    replace (([] ++ (([LF] ++ str "[" ++ s_szName s ++ str "]") ++ [LF])
              ++ keys_text (s_Keys s)) ++ rest)
      with (LF :: ((str "[" ++ s_szName s ++ str "]") ++ LF :: (keys_text (s_Keys s) ++ rest)))
      by list_eq.
    rewrite Load_blank by done. apply Hheader.
  - rewrite (size_pos_ne (a :: c)) by done. unfold comment_format. rewrite Ec.
    destruct (saved_comment_plain (a :: c) ps_comment0 ltac:(done))
      as (Hne & Hnul & Hs1 & Hs2 & Hci & Hblock).
    specialize (ps_comment_fits0 ltac:(done)).
    destruct (comment_format_bounds s Hh ps_comment_fits0) as (_ & Hwc).
    rewrite Ec in Hwc.
    set (wc := saved_comment (a :: c)) in *.
    replace (((([LF] ++ wc) ++ [LF]) ++ (([] ++ str "[" ++ s_szName s ++ str "]") ++ [LF])
              ++ keys_text (s_Keys s)) ++ rest)
      with (LF :: (wc ++ LF :: ((str "[" ++ s_szName s ++ str "]")
                                ++ LF :: (keys_text (s_Keys s) ++ rest))))
      by list_eq.
    rewrite Load_blank by done.
    rewrite Load_comment_block by (done || lia).
    apply Hheader.
Qed.

Lemma Load_sections ss rest l fname b flags :
  header_ok = true ->
  (forall s, s ∈ ss -> plain_section s = true /\ s_szName s <> []) ->
  Z.land flags AUTOCREATE_KEYS <> 0 ->
  distinct ((s_szName <$> l) ++ (s_szName <$> ss)) = true ->
  Load_stream (concat (section_text <$> ss) ++ rest) (reading l fname b flags)
  = Load_stream rest
      (reading (l ++ (loaded_section <$> ss)) fname
               (match ss with [] => b | _ => true end) flags).
Proof.
  intros Hh Hp Hf. revert l b.
  induction ss as [|s ss IH]; intros l b Hd.
  - by rewrite app_nil_r.
  - rewrite fmap_cons. cbn [concat]. rewrite <- app_assoc.
    destruct (Hp s ltac:(by left)) as [Hps Hn].
    rewrite Load_section; try done.
    + rewrite IH.
      * rewrite <- app_assoc. cbn [fmap list_fmap app]. by destruct ss.
      * intros s' Hs'. apply Hp. by right.
      * rewrite fmap_app, <- app_assoc. exact Hd.
    + rewrite fmap_cons in Hd. apply distinct_app_cons in Hd.
      exact (proj1 (Forall_fmap s_szName (fun m => CompareNoCase m (s_szName s) <> 0) l) Hd).
Qed.

End LoadAll.

(** ** Save, load and save again *)

Section RoundTrip.
Context {hdr : Header}.

Lemma for_each_Save_section (f : t_Section -> t_Section) Sections File :
  (forall s File, s ∈ Sections -> Save_section File (f s) = Returned (File ++ section_text s)) ->
  for_each Save_section (f <$> Sections) File
  = Returned (File ++ concat (section_text <$> Sections)).
Proof.
  revert File. induction Sections as [|s Sections IH]; intros File H.
  - cbn. by rewrite app_nil_r.
  - rewrite !fmap_cons. cbn [for_each concat]. rewrite H by (by left). ret_bind.
    rewrite IH by (intros; apply H; by right). by rewrite <- app_assoc.
Qed.

Lemma plain_comment_size s :
  header_ok = true -> plain_section s = true ->
  size (saved_comment (s_szComment s)) < 2 ^ 31.
Proof.
  intros Hh Hp.
  destruct (plain_section_spec s Hp)
    as [ps_line0 ps_comment0 ps_comment_fits0 ps_header_fits0 ps_keys0 ps_distinct0].
  destruct (s_szComment s) as [|a c] eqn:Ec.
  - unfold size. simpl. lia.
  - specialize (ps_comment_fits0 ltac:(done)).
    destruct (comment_format_bounds s Hh ps_comment_fits0) as (H1 & _).
    by rewrite Ec in H1.
Qed.

Lemma Save_section_plain File s :
  header_ok = true -> plain_section s = true ->
  Save_section File s = Returned (File ++ section_text s).
Proof.
  intros Hh Hp.
  destruct (plain_section_spec s Hp)
    as [ps_line0 ps_comment0 ps_comment_fits0 ps_header_fits0 ps_keys0 ps_distinct0].
  replace s with (mk_Section (s_szName s) (s_szComment s) (s_Keys s)) at 1 by (by destruct s).
  apply Save_section_as; try done.
  - by apply CommentStr_plain.
  - intros File'. rewrite <- (list_fmap_id (s_Keys s)) at 1.
    apply for_each_Save_key. intros k F Hk. apply Save_key_plain; [done|]. by apply ps_keys0.
Qed.

Lemma Save_section_loaded File s :
  header_ok = true -> plain_section s = true ->
  Save_section File (loaded_section s) = Returned (File ++ section_text s).
Proof.
  intros Hh Hp. pose proof (plain_comment_size s Hh Hp) as Hc.
  destruct (plain_section_spec s Hp)
    as [ps_line0 ps_comment0 ps_comment_fits0 ps_header_fits0 ps_keys0 ps_distinct0].
  unfold loaded_section. apply Save_section_as; try done.
  - exists (saved_comment (s_szComment s)). split; [by apply CommentStr_loaded|].
    apply saved_comment_c_str.
  - apply size_pos_loaded.
  - intros File'. apply for_each_Save_key.
    intros k F Hk. apply Save_key_loaded; [done|]. by apply ps_keys0.
Qed.

Lemma plain_document_spec d : plain_document d = true -> plain_document_facts d.
Proof.
  unfold plain_document. intros H.
  apply andb_true_iff in H as [H Hdis]. apply andb_true_iff in H as [H Hpl].
  split; [| |done].
  - destruct (m_Sections d) as [|s0 ss]; [done|]. exists s0, ss.
    apply andb_true_iff in H as [Hn Hc]. apply size_0 in Hn, Hc. done.
  - intros s Hs. by apply (forallb_elem plain_section (m_Sections d)).
Qed.

Lemma Save_text_plain d :
  header_ok = true -> plain_document d = true ->
  Save_text d = Returned (document_text d).
Proof.
  intros Hh Hp. destruct (plain_document_spec d Hp) as [_ Hpl _].
  unfold Save_text, document_text.
  rewrite <- (list_fmap_id (m_Sections d)) at 1.
  rewrite for_each_Save_section; [done|].
  intros s F Hs. apply Save_section_plain; [done|]. by apply Hpl.
Qed.

Lemma Save_text_loaded d d' :
  header_ok = true -> plain_document d = true ->
  m_Sections d' = loaded_section <$> m_Sections d ->
  Save_text d' = Returned (document_text d).
Proof.
  intros Hh Hp Hd'. destruct (plain_document_spec d Hp) as [_ Hpl _].
  unfold Save_text, document_text. rewrite Hd'.
  rewrite for_each_Save_section; [done|].
  intros s F Hs. apply Save_section_loaded; [done|]. by apply Hpl.
Qed.

Lemma Load_stream_document d fname b flags :
  header_ok = true -> plain_document d = true ->
  Z.land flags AUTOCREATE_KEYS <> 0 ->
  exists b',
    Load_stream (document_text d)
                (mk_load_state (mk_CDataFile [new_Section] fname b flags) (Some 0%nat) [])
    = Returned (reading (loaded_section <$> m_Sections d) fname b' flags).
Proof.
  intros Hh Hp Hf.
  destruct (plain_document_spec d Hp) as [(s0 & ss & Hd & Hn0 & Hc0) Hpl Hdis].
  unfold document_text. rewrite Hd in *. rewrite !fmap_cons in *.
  apply distinct_cons in Hdis as Hdis'. destruct Hdis' as [Hdef _].
  pose proof (Hpl s0 ltac:(by left)) as Hp0.
  destruct (plain_section_spec s0 Hp0)
    as [ps_line0 ps_comment0 ps_comment_fits0 ps_header_fits0 ps_keys0 ps_distinct0].
  cbn [concat]. unfold section_text at 1. rewrite Hn0, Hc0.
  change (0 <? size []) with false. cbv iota. cbn [app].
  change (mk_load_state (mk_CDataFile [new_Section] fname b flags) (Some 0%nat) [])
    with (reading ([] ++ [mk_Section [] [] []]) fname b flags).
  rewrite Load_keys; try done.
  2:{ intros k Hk. apply ps_keys0. by apply list_elem_of_In. }
  rewrite <- (app_nil_r (concat (section_text <$> ss))).
  cbn [app].
  assert (mk_Section [] [] (loaded_key <$> s_Keys s0) = loaded_section s0) as ->.
  { unfold loaded_section. by rewrite Hn0, Hc0. }
  rewrite (Load_sections ss [] [loaded_section s0]); try done.
  - eexists. rewrite Load_stream_end. reflexivity.
  - intros s Hs. split; [apply Hpl; by right|].
    rewrite Hn0 in Hdef. intros Hn.
    apply (proj1 (Forall_forall _ _) Hdef (s_szName s)).
    + by apply list_elem_of_fmap_2.
    + by rewrite Hn.
Qed.

End RoundTrip.

Section Same.
Context {hdr : Header}.

Lemma same_key_loaded k :
  header_ok = true -> plain_key k = true -> same_key k (loaded_key k).
Proof.
  intros Hh Hp.
  destruct (plain_key_spec k Hp)
    as [pk_nonempty0 pk_starts0 pk_not_comment0 pk_not_header0 pk_ends0 pk_line0
          pk_no_equal0 pk_value_line0 pk_value_ends0 pk_comment0 pk_fits0].
  destruct (key_format_bounds k Hh pk_fits0) as (_ & _ & _ & Hc1).
  split; [done|]. split; [done|]. cbn [loaded_key k_szComment].
  destruct (CommentStr_plain _ pk_comment0) as (x & -> & Hx).
  rewrite CommentStr_loaded by done. cbn [fmap outcome_fmap].
  by rewrite Hx, saved_comment_c_str.
Qed.

Lemma same_section_loaded s :
  header_ok = true -> plain_section s = true -> same_section s (loaded_section s).
Proof.
  intros Hh Hp. pose proof (plain_comment_size s Hh Hp) as Hc.
  destruct (plain_section_spec s Hp)
    as [ps_line0 ps_comment0 ps_comment_fits0 ps_header_fits0 ps_keys0 ps_distinct0].
  split; [done|]. split.
  - cbn [loaded_section s_szComment].
    destruct (CommentStr_plain _ ps_comment0) as (x & -> & Hx).
    rewrite CommentStr_loaded by done. cbn [fmap outcome_fmap].
    by rewrite Hx, saved_comment_c_str.
  - cbn [loaded_section s_Keys]. apply Forall2_fmap_r, Forall2_same_length_lookup_2; [done|].
    intros i k k' Hk Hk'. rewrite Hk in Hk'. injection Hk' as <-.
    apply same_key_loaded; [done|]. apply ps_keys0.
    apply list_elem_of_In. by eapply list_elem_of_lookup_2.
Qed.

Lemma same_document_loaded d d' :
  header_ok = true -> plain_document d = true ->
  m_Sections d' = loaded_section <$> m_Sections d ->
  same_document d d'.
Proof.
  intros Hh Hp Hd'. destruct (plain_document_spec d Hp) as [_ Hpl _].
  unfold same_document. rewrite Hd'.
  apply Forall2_fmap_r, Forall2_same_length_lookup_2; [done|].
  intros i s s' Hs Hs'. rewrite Hs in Hs'. injection Hs' as <-.
  apply same_section_loaded; [done|]. apply Hpl. by eapply list_elem_of_lookup_2.
Qed.

End Same.

(** ** The dirty flag *)

Section Flag.

Context {hdr : Header}.

Lemma CreateSection_sets_dirty d szSection szComment :
  fst (CreateSection d szSection szComment) = true ->
  m_bDirty (snd (CreateSection d szSection szComment)) = true.
Proof. unfold CreateSection. by destruct (GetSection d szSection). Qed.

Lemma SetValue_sets_dirty d szKey szValue szComment szSection :
  fst (SetValue d szKey szValue szComment szSection) = true ->
  m_bDirty (snd (SetValue d szKey szValue szComment szSection)) = true.
Proof.
  unfold SetValue.
  destruct (GetSection d szSection) as [p|] eqn:Es.
  - cbn [negb]. cbv iota beta.
    destruct (GetKey d szKey szSection); [done|].
    by destruct (bool_decide _).
  - destruct (bool_decide (Z.land (m_Flags d) AUTOCREATE_SECTIONS = 0)); [done|].
    destruct (CreateSection d szSection []) as [created d1] eqn:Ec.
    destruct created; [|done]. cbn [negb]. cbv iota beta.
    destruct (GetSection d1 szSection); [|done].
    destruct (GetKey d szKey szSection); [done|].
    by destruct (bool_decide _).
Qed.

Lemma Save_clears_dirty d fs d' fs' :
  Save d fs = Returned (true, d', fs') -> m_bDirty d' = false.
Proof.
  unfold Save.
  destruct ((KeyCount d =? 0) && (SectionCount d =? 0)); [done|].
  destruct (size (m_szFileName d) =? 0); [done|].
  destruct (negb (fs_writable fs (c_str (m_szFileName d)))); [done|].
  destruct (Save_text d); [|done..]. by intros [= <- _].
Qed.

Lemma CDataFile_open_clean fs szFileName d :
  CDataFile_open fs szFileName = Returned d -> m_bDirty d = false.
Proof.
  unfold CDataFile_open.
  destruct (Load _ fs _) as [[b d']| |]; [|done..]. by intros [= <-].
Qed.

End Flag.

(* ===================================================================== *)
(** * The claims *)
(* ===================================================================== *)

(** ** C1: save, load, save *)

(** C1 (amended): a plain document survives a save and a load. When the
    header is usable ([header_ok]: the first equal indicator is neither NUL
    nor a line feed; the first comment indicator is neither NUL, nor a line
    feed, nor a trim character; the line feed is a trim character and the
    two brackets are not; the opening bracket is no comment indicator;
    MAX_BUFFER_LEN is at most 2^31 and AUTOCREATE_KEYS is not zero) and the
    document is plain ([plain_document]: the default section comes first
    and has no comment; section names, and key names within a section,
    differ without case; every name and value is a single line without NUL;
    key names start and end with a character that [Trim] keeps, values end
    with one; a key name is not empty, holds no equal indicator and starts
    with neither a comment indicator nor an opening bracket; a comment that
    is not empty has at most 2^31 bytes and is written by [Save] as one or
    more lines that each start with a comment indicator and that [Trim]
    leaves alone; every line [Save] formats fits the buffer of [WriteLn]),
    [Save] writes a text, and [Load] of that text into a fresh document
    returns true with a document that has the sections, keys and values of
    the first one, every comment being written by [Save] as the original
    ([same_document]), and that [Save] writes as the same text. *)
Theorem Save_Load_Save_plain (hdr : Header) (d : CDataFile) :
  header_ok = true -> plain_document d = true ->
  exists File,
    Save_text d = Returned File
    /\ forall fs szFileName,
         fs_content fs (c_str szFileName) = Some File ->
         exists d',
           Load CDataFile_new fs szFileName = Returned (true, d')
           /\ m_Sections d' = loaded_section <$> m_Sections d
           /\ same_document d d'
           /\ Save_text d' = Returned File.
Proof.
  intros Hh Hp. exists (document_text d). split; [by apply Save_text_plain|].
  intros fs szFileName Hfs.
  destruct (header_ok_spec Hh) as (_ & _ & _ & _ & _ & _ & _ & Hak).
  unfold Load. rewrite Hfs.
  change (GetSection CDataFile_new []) with (Some 0%nat).
  set (flags := Z.lor (m_Flags (set_Flags (Z.lor (m_Flags CDataFile_new) AUTOCREATE_KEYS)
                                          CDataFile_new)) AUTOCREATE_SECTIONS).
  destruct (Load_stream_document d [] false flags Hh Hp) as [b' Hl].
  { unfold flags. cbn [m_Flags set_Flags]. by rewrite land_lor_other. }
  change (set_Flags flags _) with (mk_CDataFile [new_Section] [] false flags).
  rewrite Hl. ret_bind. eexists. split; [reflexivity|].
  assert (forall (c1 c2 : bool) f1 f2 (x : CDataFile),
            m_Sections (if c2 then set_Flags f2 (if c1 then set_Flags f1 x else x)
                        else (if c1 then set_Flags f1 x else x)) = m_Sections x) as Hm
    by (by intros [] []).
  split; [|split].
  - cbv zeta. by rewrite Hm.
  - apply same_document_loaded; [done..|]. cbv zeta. by rewrite Hm.
  - eapply Save_text_loaded; [done..|]. cbv zeta. by rewrite Hm.
Qed.

#[local] Existing Instance spec_header.

(** The theorem of C1 (amended) at the document [server_example]. *)
Lemma Save_Load_Save_plain_witness :
  exists File,
    Save_text server_example = Returned File
    /\ forall fs szFileName,
         fs_content fs (c_str szFileName) = Some File ->
         exists d',
           Load CDataFile_new fs szFileName = Returned (true, d')
           /\ m_Sections d' = loaded_section <$> m_Sections server_example
           /\ same_document server_example d'
           /\ Save_text d' = Returned File.
Proof.
  apply (Save_Load_Save_plain spec_header server_example).
  - vm_compute. reflexivity.
  - vm_compute. reflexivity.
Defined.

(** Comments the amended claim covers: with white space around them, of
    several comment lines, with a NUL, and as [Load] stores them. *)
Lemma plain_comment_examples :
  plain_comment (str " foo") = true
  /\ plain_comment (str "foo ") = true
  /\ plain_comment server_comment = true
  /\ plain_comment (str "port" ++ [NUL] ++ str "cut") = true
  /\ plain_comment (loaded_comment server_comment) = true
  /\ plain_document settings = true.
Proof. repeat split; vm_compute; reflexivity. Qed.

(** What [restored] decides. *)
Lemma forallb2_Forall2 {A} (f : A -> A -> bool) (P : A -> A -> Prop) l l' :
  (forall a b, f a b = true -> P a b) -> forallb2 f l l' = true -> Forall2 P l l'.
Proof.
  intros Hf. revert l'. induction l as [|a l IH]; intros [|b l'] H; try done.
  simpl in H. apply andb_true_iff in H as [H1 H2]. constructor; auto.
Qed.

Lemma same_outcome_eq a b : same_outcome a b = true -> a = b.
Proof.
  destruct a as [x| |], b as [y| |]; try done. simpl.
  intros H. apply bool_decide_eq_true in H. by rewrite H.
Qed.

Lemma restored_spec d :
  restored d = true ->
  exists File d',
    Save_text d = Returned File
    /\ Load CDataFile_new (one_file (str "f") File) (str "f") = Returned (true, d')
    /\ same_document d d'
    /\ Save_text d' = Returned File.
Proof.
  unfold restored. destruct (Save_text d) as [File| |]; [|done|done].
  destruct (Load _ _ _) as [[[] d']| |] eqn:El; try done.
  intros H. apply andb_true_iff in H as [H1 H2].
  exists File, d'. split; [done|]. split; [done|]. split.
  - apply (forallb2_Forall2 same_section_b); [|done].
    intros a b Hs. unfold same_section_b in Hs.
    apply andb_true_iff in Hs as [Hs Hk]. apply andb_true_iff in Hs as [Hn Hc].
    apply bool_decide_eq_true in Hn. apply same_outcome_eq in Hc.
    split; [done|]. split; [done|].
    apply (forallb2_Forall2 same_key_b); [|done].
    intros k k' Hkk. unfold same_key_b in Hkk.
    apply andb_true_iff in Hkk as [Hkk Hkc]. apply andb_true_iff in Hkk as [Hkn Hkv].
    apply bool_decide_eq_true in Hkn, Hkv. apply same_outcome_eq in Hkc.
    by split; [|split].
  - destruct (Save_text d') as [File'| |]; [|done|done].
    apply bool_decide_eq_true in H2. by rewrite H2.
Qed.

(** The conditions on the document are exact on the small documents: such
    a document is restored exactly when it is plain. *)
Lemma plain_document_exact_on_small_documents :
  forallb (fun d => bool_decide (restored d = plain_document d)) small_documents = true
  /\ length small_documents = 1184%nat.
Proof. vm_compute. split; reflexivity. Qed.

(** C1 as stated fails: a key named ;x, set through [SetValue], is written
    as the line ;x=v, which [Load] reads as a comment. The document read
    back has no key, and [Save] writes the empty text for it. *)
Lemma comment_like_key_not_restored :
  exists File d' File',
    Save_text with_comment_like_key = Returned File
    /\ Load CDataFile_new (one_file (str "f") File) (str "f") = Returned (true, d')
    /\ Save_text d' = Returned File'
    /\ File' <> File
    /\ KeyCount with_comment_like_key = 1
    /\ KeyCount d' = 0.
Proof.
  do 3 eexists. split; [vm_compute; reflexivity|]. split; [vm_compute; reflexivity|].
  split; [vm_compute; reflexivity|]. split; [discriminate|]. split; reflexivity.
Qed.

(** A key with the two-line comment a / b is written with the comment
    indicator before the first line only; [Load] reads the second line as a
    key named b. *)
Lemma multiline_comment_not_restored :
  exists File d' File',
    Save_text with_multiline_comment = Returned File
    /\ Load CDataFile_new (one_file (str "f") File) (str "f") = Returned (true, d')
    /\ Save_text d' = Returned File'
    /\ File' <> File
    /\ KeyCount with_multiline_comment = 1
    /\ KeyCount d' = 2.
Proof.
  do 3 eexists. split; [vm_compute; reflexivity|]. split; [vm_compute; reflexivity|].
  split; [vm_compute; reflexivity|]. split; [discriminate|]. split; reflexivity.
Qed.

(** A value that ends with a blank loses it: the line is trimmed as a whole
    before it is split. *)
Lemma trailing_blank_not_restored :
  exists d',
    Load CDataFile_new (one_file (str "f") (str "k=v " ++ [LF])) (str "f") = Returned (true, d')
    /\ GetValue d' (str "k") [] [] = (true, str "v").
Proof. eexists. split; [vm_compute; reflexivity|reflexivity]. Qed.

(** A comment that ends with two blanks loses one of them when it is
    written and the other one when the line is read: the second text is
    shorter. *)
Lemma padded_comment_not_restored :
  exists File d' File',
    plain_document with_padded_comment = false
    /\ Save_text with_padded_comment = Returned File
    /\ Load CDataFile_new (one_file (str "f") File) (str "f") = Returned (true, d')
    /\ Save_text d' = Returned File'
    /\ File' <> File.
Proof.
  do 3 eexists. split; [vm_compute; reflexivity|]. split; [vm_compute; reflexivity|].
  split; [vm_compute; reflexivity|]. split; [vm_compute; reflexivity|discriminate].
Qed.

(** The comment of the default section is written before the first key and
    read back as the comment of that key: the text is the same, the
    comments are not where they were. *)
Lemma default_section_comment_moves :
  exists File d',
    plain_document with_default_comment = false
    /\ Save_text with_default_comment = Returned File
    /\ Load CDataFile_new (one_file (str "f") File) (str "f") = Returned (true, d')
    /\ m_Sections with_default_comment = [mk_Section [] (str "c") [mk_Key (str "k") (str "v") []]]
    /\ m_Sections d' = [mk_Section [] [] [mk_Key (str "k") (str "v") ([LF] ++ str "; c")]].
Proof.
  do 2 eexists. split; [vm_compute; reflexivity|]. split; [vm_compute; reflexivity|].
  split; [vm_compute; reflexivity|]. split; reflexivity.
Qed.

(** A line of a comment that is not a comment line is read as what it
    looks like, here a key: the text is the same, the document has one key
    more. *)
Lemma comment_with_key_line_not_restored :
  exists File d',
    plain_document with_key_in_comment = false
    /\ Save_text with_key_in_comment = Returned File
    /\ Load CDataFile_new (one_file (str "f") File) (str "f") = Returned (true, d')
    /\ Save_text d' = Returned File
    /\ KeyCount with_key_in_comment = 1
    /\ KeyCount d' = 2.
Proof.
  do 2 eexists. split; [vm_compute; reflexivity|]. split; [vm_compute; reflexivity|].
  split; [vm_compute; reflexivity|]. split; [vm_compute; reflexivity|]. split; reflexivity.
Qed.

(** A document without the default section is read into a document that
    has it. *)
Lemma missing_default_section_not_restored :
  exists File d',
    plain_document without_default_section = false
    /\ Save_text without_default_section = Returned File
    /\ Load CDataFile_new (one_file (str "f") File) (str "f") = Returned (true, d')
    /\ Save_text d' = Returned File
    /\ SectionCount without_default_section = 1
    /\ SectionCount d' = 2.
Proof.
  do 2 eexists. split; [vm_compute; reflexivity|]. split; [vm_compute; reflexivity|].
  split; [vm_compute; reflexivity|]. split; [vm_compute; reflexivity|]. split; reflexivity.
Qed.

(** A value with a NUL is written up to the NUL: the text is the same after
    a load and a save, the value is not. *)
Lemma NUL_value_not_restored :
  exists File d',
    plain_document with_NUL_value = false
    /\ Save_text with_NUL_value = Returned File
    /\ Load CDataFile_new (one_file (str "f") File) (str "f") = Returned (true, d')
    /\ GetValue with_NUL_value (str "k") [] [] = (true, str "yes" ++ [NUL] ++ str "no")
    /\ GetValue d' (str "k") [] [] = (true, str "yes").
Proof.
  do 2 eexists. split; [vm_compute; reflexivity|]. split; [vm_compute; reflexivity|].
  split; [vm_compute; reflexivity|]. split; reflexivity.
Qed.

(** ** C2: the default section *)

Lemma CDataFile_new_default (hdr : Header) :
  length (default_sections CDataFile_new) = 1%nat.
Proof. reflexivity. Qed.

(** C2: the document does not keep its default section. On a document just
    constructed, [DeleteSection] with the empty name returns true and leaves
    no section at all, so none is named by the empty string. *)
Theorem DeleteSection_removes_default_section (hdr : Header) :
  exists d, DeleteSection CDataFile_new [] = (true, d)
            /\ m_Sections d = []
            /\ length (default_sections d) = 0%nat.
Proof. eexists. split; [reflexivity|]. split; reflexivity. Qed.

(** [Load] relies on the default section: without it, a key line ahead of
    the first section header is stored through a null pointer. *)
Lemma Load_without_default_section :
  Load (snd (DeleteSection CDataFile_new []))
       (one_file (str "f") (str "k=v" ++ [LF])) (str "f")
  = Undefined.
Proof. vm_compute. reflexivity. Qed.

(** ** C3: unique section names *)

(** C3: the overload of [CreateSection] that takes a key list adds the new
    section twice. For a name that no section of [d] has, it returns true
    and [m_Sections] ends with two sections of that name, each holding the
    keys given. *)
Theorem CreateSection_KeyList_adds_section_twice d szSection szComment Keys :
  GetSection d szSection = None ->
  exists d', CreateSection_KeyList d szSection szComment Keys = (true, d')
    /\ m_Sections d' = m_Sections d ++ [mk_Section szSection szComment Keys;
                                        mk_Section szSection szComment Keys].
Proof.
  intros H. eexists. split; [by apply CreateSection_KeyList_new|done].
Qed.

Lemma CreateSection_KeyList_adds_section_twice_witness :
  exists d',
    CreateSection_KeyList CDataFile_new (str "A") [] [mk_Key (str "k") (str "v") []] = (true, d')
    /\ m_Sections d'
       = m_Sections CDataFile_new
         ++ [mk_Section (str "A") [] [mk_Key (str "k") (str "v") []];
             mk_Section (str "A") [] [mk_Key (str "k") (str "v") []]].
Proof.
  apply (CreateSection_KeyList_adds_section_twice CDataFile_new (str "A") []
           [mk_Key (str "k") (str "v") []]).
  reflexivity.
Defined.

(** The part of C3 that holds: a name that compares equal, without case, to
    the name of a section is refused by both overloads, and the document is
    left as it was; a call that returns, after the report of the taken
    name, returns that. *)
Lemma CreateSection_refuses_existing_name d szSection szComment Keys :
  GetSection d szSection <> None ->
  CreateSection d szSection szComment = (false, d)
  /\ CreateSection_KeyList d szSection szComment Keys = (false, d)
  /\ (forall r, CreateSection_call d szSection szComment = Returned r -> r = (false, d)).
Proof.
  intros H. split; [by apply CreateSection_existing|].
  split; [by apply CreateSection_KeyList_existing|].
  intros r Hr. apply CreateSection_call_Returned in Hr.
  by rewrite Hr, CreateSection_existing.
Qed.

(** ** C4: the dirty flag *)

(** C4: a deletion leaves the dirty flag as it was. [DeleteKey] and
    [DeleteSection] never write [m_bDirty]; on the document constructed
    from a file that holds the line k=v, whose flag is false, [DeleteKey]
    removes the key, returns true, and the flag is still false. *)
Theorem deletion_leaves_dirty_flag :
  (forall d szKey szFromSection,
      m_bDirty (snd (DeleteKey d szKey szFromSection)) = m_bDirty d)
  /\ (forall d szSection, m_bDirty (snd (DeleteSection d szSection)) = m_bDirty d)
  /\ (exists d d',
        CDataFile_open (one_file (str "f") (str "k=v" ++ [LF])) (str "f") = Returned d
        /\ m_bDirty d = false
        /\ DeleteKey d (str "k") [] = (true, d')
        /\ GetKey d' (str "k") [] = None
        /\ m_bDirty d' = false).
Proof.
  split; [apply DeleteKey_dirty|]. split; [apply DeleteSection_dirty|].
  do 2 eexists. split; [vm_compute; reflexivity|]. split; [reflexivity|].
  split; [vm_compute; reflexivity|]. split; reflexivity.
Qed.

(** ** C5: no exception leaves an operation *)

(** C5: [Load] does not return on a section header without a closing
    bracket. When the first line of the file is an opening bracket followed
    by [name], a line of text without a closing bracket that [Trim] keeps
    whole and that fits the buffer, [erase] is called at [npos] and throws
    [std::out_of_range], which leaves [Load]. *)
Theorem Load_unterminated_header_throws (hdr : Header) d fs szFileName name rest :
  fs_content fs (c_str szFileName) = Some (("["%char :: name) ++ LF :: rest) ->
  one_line name = true -> "]"%char ∉ name ->
  is_one_of trim_chars "["%char = false ->
  is_one_of CommentIndicators "["%char = false ->
  ends_well ("["%char :: name) = true ->
  (length name + 1 < MAX_BUFFER_LEN)%nat -> Z.of_nat MAX_BUFFER_LEN <= 2 ^ 31 ->
  Load d fs szFileName = Thrown out_of_range.
Proof.
  intros Hfs Hl Hn Hb1 Hb2 He Hlen Hmax.
  destruct (one_line_spec name Hl) as [Hnul Hlf].
  unfold Load. rewrite Hfs. cbv zeta.
  rewrite Load_stream_line; [| | |simpl; lia].
  2:{ rewrite not_elem_of_cons. done. }
  2:{ rewrite not_elem_of_cons. done. }
  rewrite Trim_id.
  2:{ unfold size. simpl length. lia. }
  2:{ simpl. unfold not_in. by rewrite Hb1. }
  2:{ done. }
  ret_bind. rewrite Load_line_unterminated_header; [done| |done| |].
  - rewrite <- Z.eqb_neq, find_first_of_head. exact Hb2.
  - rewrite not_elem_of_cons. done.
  - unfold size, npos. simpl length. lia.
Qed.

Lemma Load_unterminated_header_throws_witness :
  Load CDataFile_new (one_file (str "f") (str "[abc" ++ [LF])) (str "f")
  = Thrown out_of_range.
Proof.
  apply (Load_unterminated_header_throws spec_header CDataFile_new
           (one_file (str "f") (str "[abc" ++ [LF])) (str "f") (str "abc") []).
  - reflexivity.
  - reflexivity.
  - vm_compute. intros H.
    repeat (apply elem_of_cons in H as [H|H]; [discriminate|]). by apply elem_of_nil in H.
  - reflexivity.
  - reflexivity.
  - reflexivity.
  - vm_compute. lia.
  - vm_compute. discriminate.
Defined.

(** ** C6: Trim *)

(** C6: [Trim] removes one trailing trim character only. For a string [s]
    that starts with a character [Trim] keeps, followed by a trim character
    [c] twice, [Trim] returns [s] followed by [c]. *)
Theorem Trim_removes_one_trailing_character (hdr : Header) (s : t_Str) (c : ascii) :
  size s < 2 ^ 31 - 1 ->
  (exists a s', s = a :: s' /\ is_one_of trim_chars a = false) ->
  is_one_of trim_chars c = true ->
  Trim (s ++ [c; c]) = Returned (s ++ [c]).
Proof. apply Trim_trailing. Qed.

Lemma Trim_removes_one_trailing_character_witness :
  Trim (str "ab" ++ [" "%char; " "%char]) = Returned (str "ab" ++ [" "%char]).
Proof.
  apply (Trim_removes_one_trailing_character spec_header (str "ab") " "%char).
  - vm_compute. reflexivity.
  - exists "a"%char, (str "b"). split; reflexivity.
  - reflexivity.
Defined.

(** ** C7: pending comments *)

(** C7 as stated fails: the first comment line, read while no comment is
    pending, is stored after a line feed. *)
Lemma first_comment_line_gets_separator :
  exists st,
    Load_line (str ";c1") (mk_load_state CDataFile_new (Some 0%nat) []) = Returned st
    /\ ld_szComment st = LF :: str ";c1"
    /\ ld_szComment st <> str ";c1".
Proof. eexists. split; [vm_compute; reflexivity|]. split; [reflexivity|discriminate]. Qed.

(** C7 (amended): a comment line is appended to the pending comment after a
    line feed, whether or not a comment is pending. Parsing the lines ;c1,
    an empty line and Key=V stores the key Key with the value V and the
    comment made of a line feed and ;c1, which [CommentStr] writes as ;c1:
    the empty line does not drop the pending comment. *)
Theorem comment_line_appended_after_separator :
  (forall (hdr : Header) szLine st,
      find_first_of szLine CommentIndicators = 0 ->
      Load_line szLine st
      = Returned (mk_load_state (ld_this st) (ld_pSection st)
                                (ld_szComment st ++ [LF] ++ szLine)))
  /\ (exists d,
        Load CDataFile_new
          (one_file (str "f") (str ";c1" ++ [LF] ++ [LF] ++ str "Key=V" ++ [LF])) (str "f")
        = Returned (true, d)
        /\ m_Sections d = [mk_Section [] [] [mk_Key (str "Key") (str "V") (LF :: str ";c1")]]
        /\ CommentStr (LF :: str ";c1") = Returned (str ";c1")).
Proof.
  split; [intros; by apply Load_line_comment|].
  eexists. split; [vm_compute; reflexivity|]. split; reflexivity.
Qed.

Lemma comment_line_appended_after_separator_witness :
  Load_line (str ";c1") (mk_load_state CDataFile_new (Some 0%nat) (str ";c0"))
  = Returned (mk_load_state CDataFile_new (Some 0%nat) (str ";c0" ++ [LF] ++ str ";c1")).
Proof.
  apply (proj1 comment_line_appended_after_separator spec_header (str ";c1")).
  reflexivity.
Defined.

(** ** C8: SetValue without AUTOCREATE_KEYS *)

(** C8: when the flag [AUTOCREATE_KEYS] is not set, [SetValue] for a
    section that exists and has no key of the given name (compared without
    case) returns false and leaves the document as it was; [KeyCount] is
    the same before and after. *)
Theorem SetValue_without_AutoCreateKeys (hdr : Header) d szKey szValue szComment szSection :
  Z.land (m_Flags d) AUTOCREATE_KEYS = 0 ->
  HasSection d szSection = true ->
  GetKey d szKey szSection = None ->
  SetValue d szKey szValue szComment szSection = (false, d)
  /\ KeyCount (snd (SetValue d szKey szValue szComment szSection)) = KeyCount d.
Proof.
  intros Hf Hs Hk. apply bool_decide_eq_true in Hs.
  rewrite SetValue_key_absent by done. done.
Qed.

Lemma SetValue_without_AutoCreateKeys_witness :
  SetValue no_auto_keys (str "NewKey") (str "v") [] (str "ExistingSection")
  = (false, no_auto_keys)
  /\ KeyCount (snd (SetValue no_auto_keys (str "NewKey") (str "v") [] (str "ExistingSection")))
     = KeyCount no_auto_keys.
Proof.
  apply (SetValue_without_AutoCreateKeys spec_header no_auto_keys (str "NewKey") (str "v") []
           (str "ExistingSection")); reflexivity.
Defined.

(** ** C9: GetBool *)

(** C9 (amended): [GetBool] on a key that exists returns true, and the
    boolean it stores is true exactly when the value of the key starts with
    1 or its part before the first NUL (all of it when it has none,
    [c_str_id]), which is what [strcasecmp] reads, is, once put in lower
    case, the word true or the word yes. Any other value, the empty one
    included, gives false. *)
Theorem GetBool_of_existing_key d szKey szSection ret pKey :
  GetKey d szKey szSection = Some pKey ->
  exists Section Key b,
    m_Sections d !! fst pKey = Some Section
    /\ s_Keys Section !! snd pKey = Some Key
    /\ GetBool d szKey szSection ret = (true, b)
    /\ (b = true <->
        (exists rest, k_szValue Key = str "1" ++ rest)
        \/ tolower <$> c_str (k_szValue Key) = str "true"
        \/ tolower <$> c_str (k_szValue Key) = str "yes").
Proof.
  intros H. destruct (GetBool_found d szKey szSection ret pKey H)
    as (s & k & Hs & Hk & _ & Hb).
  exists s, k. eexists. split; [done|]. split; [done|]. split; [exact Hb|].
  rewrite !orb_true_iff, !bool_decide_eq_true, starts_with_spec. tauto.
Qed.

Lemma GetBool_of_existing_key_witness :
  exists Section Key b,
    m_Sections with_flag !! 1%nat = Some Section
    /\ s_Keys Section !! 0%nat = Some Key
    /\ GetBool with_flag (str "flag") (str "NET") false = (true, b)
    /\ (b = true <->
        (exists rest, k_szValue Key = str "1" ++ rest)
        \/ tolower <$> c_str (k_szValue Key) = str "true"
        \/ tolower <$> c_str (k_szValue Key) = str "yes").
Proof.
  apply (GetBool_of_existing_key with_flag (str "flag") (str "NET") false (1%nat, 0%nat)).
  reflexivity.
Defined.

(** C9 (as stated): the stored value need not be one of the three. The
    value of six bytes made of yes, a NUL and no, which [GetValue] returns
    whole, does not start with 1 and is neither true nor yes in any letter
    case; [GetBool] gives true for it. *)
Lemma GetBool_true_beyond_NUL :
  GetValue with_NUL_value (str "k") [] [] = (true, str "yes" ++ [NUL] ++ str "no")
  /\ GetBool with_NUL_value (str "k") [] false = (true, true)
  /\ ~ ((exists rest, str "yes" ++ [NUL] ++ str "no" = str "1" ++ rest)
        \/ tolower <$> (str "yes" ++ [NUL] ++ str "no") = str "true"
        \/ tolower <$> (str "yes" ++ [NUL] ++ str "no") = str "yes").
Proof.
  split; [reflexivity|]. split; [reflexivity|].
  intros [[rest H]|[H|H]]; discriminate.
Qed.

(** The table of the specification. *)
Lemma GetBool_table :
  let get v := GetBool (snd (SetValue CDataFile_new (str "k") v [] [])) (str "k") [] false in
  get (str "1") = (true, true) /\ get (str "True") = (true, true)
  /\ get (str "yes") = (true, true) /\ get (str "0") = (true, false)
  /\ get (str "false") = (true, false) /\ get (str "no") = (true, false)
  /\ get [] = (true, false).
Proof. repeat split. Qed.

(** ** C10: the destructor *)

(** C10: the destructor saves a dirty document and nothing else. When
    [m_bDirty] is false the file system is left as it was; when it is true
    the destructor does what [Save] does, and when [Save] gets as far as
    writing (a section exists, a file name is set, the file opens), the file
    named by [m_szFileName] holds the text of the document afterwards. *)
Theorem destructor_saves_iff_dirty (hdr : Header) d fs :
  (m_bDirty d = false -> CDataFile_delete d fs = Returned fs)
  /\ (m_bDirty d = true ->
      CDataFile_delete d fs = (fun r => snd r) <$> Save d fs)
  /\ (m_bDirty d = true ->
      forall File, Save_text d = Returned File ->
      (KeyCount d =? 0) && (SectionCount d =? 0) = false ->
      (size (m_szFileName d) =? 0) = false ->
      fs_writable fs (c_str (m_szFileName d)) = true ->
      CDataFile_delete d fs = Returned (fs_write (c_str (m_szFileName d)) File fs)).
Proof.
  unfold CDataFile_delete. split; [by intros ->|]. split.
  - intros ->. by destruct (Save d fs) as [[[? ?] ?]| |].
  - intros -> File Ht Hs Hn Hw. unfold Save. by rewrite Hs, Hn, Hw, Ht.
Qed.

Lemma destructor_saves_iff_dirty_witness :
  CDataFile_delete (set_Dirty false dirty_doc) (one_file (str "f") [])
  = Returned (one_file (str "f") [])
  /\ CDataFile_delete dirty_doc (one_file (str "f") [])
     = (fun r => snd r) <$> Save dirty_doc (one_file (str "f") [])
  /\ CDataFile_delete dirty_doc (one_file (str "f") [])
     = Returned (fs_write (str "f") ([LF] ++ str "[Net]" ++ [LF] ++ str "Port=1200" ++ [LF])
                   (one_file (str "f") [])).
Proof.
  split; [|split].
  - apply (proj1 (destructor_saves_iff_dirty spec_header (set_Dirty false dirty_doc)
                    (one_file (str "f") []))).
    reflexivity.
  - apply (proj1 (proj2 (destructor_saves_iff_dirty spec_header dirty_doc
                           (one_file (str "f") [])))).
    reflexivity.
  - apply (proj2 (proj2 (destructor_saves_iff_dirty spec_header dirty_doc
                           (one_file (str "f") [])))
             eq_refl ([LF] ++ str "[Net]" ++ [LF] ++ str "Port=1200" ++ [LF])).
    + vm_compute. reflexivity.
    + reflexivity.
    + reflexivity.
    + reflexivity.
Defined.

(* ===================================================================== *)
(** * Further properties

    Properties of the code beyond the claims: the text utilities, the
    accessor API, the numeric accessors, [Load] and [Save] as a whole, and
    [Report]. The lemmas come first, the properties after them. *)
(* ===================================================================== *)

(** ** Lemmas on the text utilities *)
Lemma CompareNoCase_sym a b : CompareNoCase a b = 0 -> CompareNoCase b a = 0.
Proof. rewrite !CompareNoCase_0. by intros ->. Qed.

Lemma CompareNoCase_trans a b c :
  CompareNoCase a b = 0 -> CompareNoCase b c = 0 -> CompareNoCase a c = 0.
Proof. rewrite !CompareNoCase_0. by intros -> ->. Qed.

Lemma CompareNoCase_equiv a b x :
  CompareNoCase a b = 0 -> CompareNoCase x a = 0 <-> CompareNoCase x b = 0.
Proof.
  intros H. split; intros Hx.
  - by apply (CompareNoCase_trans x a b).
  - apply (CompareNoCase_trans x b a); [done|by apply CompareNoCase_sym].
Qed.

Lemma first_index_Some P s i :
  first_index P s = Some i ->
  forallb (fun c => negb (P c)) (take i s) = true
  /\ exists c, s !! i = Some c /\ P c = true.
Proof.
  revert i. induction s as [|c s IH]; intros i; simpl; [done|].
  destruct (P c) eqn:E.
  - intros [= <-]. split; [done|]. by exists c.
  - destruct (first_index P s) as [j|]; simpl; [|done].
    intros [= <-]. destruct (IH j eq_refl) as [H1 H2].
    simpl. rewrite E. done.
Qed.

Lemma forallb_same {A} (P Q : A -> bool) l :
  (forall x, P x = Q x) -> forallb P l = forallb Q l.
Proof. intros H. induction l as [|x l IH]; simpl; [done|]. by rewrite H, IH. Qed.

Section TextExtras.
Context {hdr : Header}.

Lemma trim_left_split s :
  exists pre, s = pre ++ trim_left s /\ forallb (is_one_of trim_chars) pre = true.
Proof.
  unfold trim_left.
  destruct (first_index _ s) as [i|] eqn:E.
  - exists (take i s). rewrite take_drop. split; [done|].
    apply first_index_Some in E as [H _].
    rewrite <- H. apply forallb_same. intros c. by rewrite negb_involutive.
  - exists []. split; reflexivity.
Qed.

Lemma trim_right_split s :
  exists post, s = trim_right s ++ post /\ forallb (is_one_of trim_chars) post = true
               /\ (length post <= 1)%nat.
Proof.
  unfold trim_right. destruct s as [|c s _] using rev_ind.
  - exists []. repeat split; simpl; lia.
  - rewrite last_snoc. destruct (is_one_of trim_chars c) eqn:E.
    + exists [c]. rewrite length_app. simpl.
      rewrite take_app_length' by lia. split; [done|]. simpl. by rewrite E.
    + exists []. rewrite app_nil_r. repeat split; simpl; lia.
Qed.

Lemma trim_left_starts s :
  forallb (is_one_of trim_chars) s = false ->
  exists c r, trim_left s = c :: r /\ is_one_of trim_chars c = false.
Proof.
  intros H. unfold trim_left.
  destruct (first_index (fun c => negb (is_one_of trim_chars c)) s) as [i|] eqn:E.
  - apply first_index_Some in E as [_ (c & Hc & Hn)].
    apply negb_true_iff in Hn.
    exists c, (drop (S i) s). split; [|done].
    by rewrite (drop_S _ _ _ Hc).
  - apply first_index_None in E.
    exfalso. rewrite (forallb_same _ (is_one_of trim_chars)) in E; [congruence|].
    intros c. by rewrite negb_involutive.
Qed.

Lemma GetNextWord_delimiter k e v :
  size (k ++ e :: v) < 2 ^ 31 ->
  forallb (not_in EqualIndicators) k = true -> is_one_of EqualIndicators e = true ->
  GetNextWord (k ++ e :: v) = (sWord ← Trim k; mret (sWord, v)).
Proof.
  intros Hs Hk He. unfold GetNextWord. unfold size in Hs.
  rewrite length_app in Hs. simpl length in Hs.
  rewrite find_first_of_at by done.
  rewrite to_int_small by lia.
  rewrite (proj2 (Z.ltb_lt _ _)) by lia.
  rewrite to_size_t_small by lia.
  rewrite substr_prefix by (unfold size; rewrite length_app; simpl; lia).
  rewrite Nat2Z.id, take_app_length. ret_bind.
  unfold int_add, INT_MAX.
  rewrite (proj2 (Z.ltb_ge _ _)) by lia.
  rewrite (proj2 (Z.ltb_ge _ _)) by lia. cbn [orb]. ret_bind.
  rewrite to_size_t_small by lia.
  rewrite erase_prefix by (unfold size; rewrite length_app; simpl; lia).
  replace (Z.to_nat (Z.of_nat (length k) + 1)) with (length k + 1)%nat by lia.
  rewrite <- drop_drop, drop_app_length. cbn [drop]. done.
Qed.

Lemma GetNextWord_no_delimiter line :
  forallb (not_in EqualIndicators) line = true ->
  GetNextWord line = (sWord ← Trim line; mret (sWord, [])).
Proof.
  intros Hk. unfold GetNextWord.
  rewrite find_first_of_absent by done. rewrite to_int_npos.
  change (-1 <? -1) with false. done.
Qed.

Lemma CommentStr_short c :
  size c <= 2 ^ 31 ->
  CommentStr c
  = Returned (match trim_right (trim_left c) with
              | [] => []
              | a :: r =>
                  (if is_one_of CommentIndicators a then []
                   else [char0 CommentIndicators; " "%char]) ++ a :: r
              end).
Proof.
  intros Hs. unfold CommentStr. rewrite Trim_short by done. ret_bind.
  destruct (trim_right (trim_left c)) as [|a r]; [done|].
  unfold size. simpl length.
  destruct (Z.eqb_spec (Z.of_nat (S (length r))) 0); [lia|].
  rewrite find_first_of_head. by destruct (is_one_of CommentIndicators a).
Qed.

End TextExtras.

Section TrimHead.
Context {hdr : Header}.

Lemma trim_right_keeps_head c r :
  is_one_of trim_chars c = false -> exists r', trim_right (c :: r) = c :: r'.
Proof.
  intros Hc. unfold trim_right.
  destruct (last (c :: r)) as [x|] eqn:E; [|by eexists].
  destruct (is_one_of trim_chars x) eqn:Ex; [|by eexists].
  destruct r as [|y r]; [simpl in E; injection E as <-; congruence|].
  simpl length. replace (S (S (length r)) - 1)%nat with (S (length r)) by lia.
  by eexists.
Qed.

End TrimHead.

(** ** Lemmas on the accessor API *)

Lemma find_pos_alter {A} (P : A -> Prop) `{!forall x, Decision (P x)} (f : A -> A) i l :
  (forall x, P (f x) <-> P x) ->
  fst <$> list_find P (alter f i l) = fst <$> list_find P l.
Proof.
  intros Hf. revert i. induction l as [|x l IH]; intros i; [done|].
  destruct i as [|i]; cbn [alter list_alter list_find].
  - destruct (decide (P x)) as [Hx|Hx].
    + rewrite decide_True by (by apply Hf). done.
    + rewrite decide_False by (by rewrite Hf). done.
  - destruct (decide (P x)); [done|].
    specialize (IH i). change (list_alter f i l) with (alter f i l).
    destruct (list_find P (alter f i l)) as [[a b]|], (list_find P l) as [[a' b']|];
      simpl in *; congruence.
Qed.

Lemma find_pos_app_l {A} (P : A -> Prop) `{!forall x, Decision (P x)} l1 l2 i :
  fst <$> list_find P l1 = Some i -> fst <$> list_find P (l1 ++ l2) = Some i.
Proof.
  intros Hi. destruct (list_find P l1) as [[j x]|] eqn:E; [|done].
  simpl in Hi. injection Hi as ->.
  by rewrite (list_find_app_l _ _ _ _ _ E).
Qed.

Section AccessorExtras.
Context {hdr : Header}.

Lemma GetSection_equiv d a b :
  CompareNoCase a b = 0 -> GetSection d a = GetSection d b.
Proof.
  intros H. unfold GetSection. f_equal. apply list_find_ext.
  intros s. by apply CompareNoCase_equiv.
Qed.

Lemma GetKey_equiv d k k' s s' :
  CompareNoCase k k' = 0 -> CompareNoCase s s' = 0 -> GetKey d k s = GetKey d k' s'.
Proof.
  intros Hk Hs. unfold GetKey. rewrite (GetSection_equiv d s s' Hs).
  destruct (GetSection d s') as [p|]; [|done]. simpl.
  destruct (m_Sections d !! p) as [x|]; [|done]. simpl.
  rewrite (list_find_ext _ (fun k0 => CompareNoCase (k_szKey k0) k' = 0)); [done|].
  intros y. by apply CompareNoCase_equiv.
Qed.

Lemma GetValue_equiv d k k' s s' ret :
  CompareNoCase k k' = 0 -> CompareNoCase s s' = 0 ->
  GetValue d k s ret = GetValue d k' s' ret.
Proof. intros Hk Hs. unfold GetValue. by rewrite (GetKey_equiv d k k' s s'). Qed.

Lemma GetSection_alter d f p n :
  (forall s, s_szName (f s) = s_szName s) ->
  GetSection (alter_section f p d) n = GetSection d n.
Proof.
  intros Hf. unfold GetSection, alter_section. simpl.
  apply (find_pos_alter (fun s => CompareNoCase (s_szName s) n = 0)).
  intros s. by rewrite Hf.
Qed.

Lemma GetSection_set_Dirty d b n : GetSection (set_Dirty b d) n = GetSection d n.
Proof. done. Qed.

Lemma GetKey_found d k s p j Key Section :
  GetSection d s = Some p -> m_Sections d !! p = Some Section ->
  list_find (fun k0 => CompareNoCase (k_szKey k0) k = 0) (s_Keys Section) = Some (j, Key) ->
  GetValue d k s [] = (true, k_szValue Key) /\ GetKey d k s = Some (p, j).
Proof.
  intros Hs Hl Hk.
  assert (GetKey d k s = Some (p, j)) as HK.
  { unfold GetKey. rewrite Hs. simpl. rewrite Hl. simpl. by rewrite Hk. }
  split; [|done]. unfold GetValue. rewrite HK. simpl. rewrite Hl. simpl.
  apply list_find_Some in Hk as (-> & _). done.
Qed.

Lemma GetValue_ret d k s ret v : GetValue d k s [] = (true, v) -> GetValue d k s ret = (true, v).
Proof.
  unfold GetValue. destruct (GetKey d k s) as [pk|]; [|done].
  by destruct (_ ≫= _).
Qed.

(** A key appended to the section of [s] is found under its name. *)
Lemma GetValue_appended d k v c s p :
  GetSection d s = Some p -> GetKey d k s = None ->
  GetValue (alter_section (fun x => set_Keys (s_Keys x ++ [mk_Key k v c]) x) p d) k s []
  = (true, v).
Proof.
  intros Hs Hk.
  destruct (GetSection_Some _ _ _ Hs) as (Section & Hl & _).
  set (g := fun x => set_Keys (s_Keys x ++ [mk_Key k v c]) x).
  assert (list_find (fun k0 => CompareNoCase (k_szKey k0) k = 0) (s_Keys Section) = None) as Hn.
  { unfold GetKey in Hk. rewrite Hs in Hk. simpl in Hk. rewrite Hl in Hk. simpl in Hk.
    by destruct (list_find _ (s_Keys Section)) as [[]|]. }
  refine (proj1 (GetKey_found _ k s p (length (s_Keys Section)) (mk_Key k v c) (g Section) _ _ _)).
  - by rewrite GetSection_alter.
  - unfold alter_section. simpl. by rewrite list_lookup_alter, decide_True, Hl.
  - simpl. rewrite list_find_app_r by done. simpl.
    rewrite decide_True by apply CompareNoCase_refl. simpl.
    by rewrite ?Nat.add_0_r.
Qed.

Lemma SetValue_GetValue_same d k v c s d' :
  SetValue d k v c s = (true, d') -> GetValue d' k s [] = (true, v).
Proof.
  unfold SetValue.
  destruct (GetSection d s) as [p|] eqn:Es.
  - cbv beta iota zeta delta [negb].
    destruct (GetKey d k s) as [pk|] eqn:Ek.
    + intros [= <-].
      destruct (GetKey_Some _ _ _ _ Ek) as (Section & Key & Hs' & Hl & Hkl & Hc).
      unfold GetKey in Ek. rewrite Es in Ek. simpl in Ek.
      rewrite Es in Hs'. injection Hs' as Hp. 
      destruct pk as [p' j]. simpl in *. subst p'. rewrite Hl in Ek. simpl in Ek.
      destruct (list_find _ (s_Keys Section)) as [[j' K']|] eqn:Ef; [|done].
      simpl in Ek. injection Ek as ->.
      set (fk := fun k0 => mk_Key (k_szKey k0) v c).
      refine (proj1 (GetKey_found _ k s p j (fk Key)
                       (set_Keys (alter fk j (s_Keys Section)) Section) _ _ _)).
      * unfold alter_key. simpl. rewrite GetSection_set_Dirty.
        by rewrite GetSection_alter.
      * unfold alter_key, alter_section. simpl. by rewrite list_lookup_alter, decide_True, Hl.
      * simpl. apply list_find_Some. split; [|split].
        -- by rewrite list_lookup_alter, decide_True, Hkl.
        -- done.
        -- intros i y Hy Hij. rewrite list_lookup_alter_ne in Hy by lia.
           apply list_find_Some in Ef as (_ & _ & Hm). by apply (Hm i).
    + destruct (bool_decide (Z.land (m_Flags d) AUTOCREATE_KEYS ≠ 0)); [|done].
      intros [= <-]. apply GetValue_appended; done.
  - destruct (bool_decide (Z.land (m_Flags d) AUTOCREATE_SECTIONS = 0)); [done|].
    rewrite CreateSection_new by done.
    cbv beta iota zeta delta [negb].
    set (d1 := mk_CDataFile _ _ _ _).
    assert (GetSection d1 s = Some (length (m_Sections d))) as Hg.
    { exact (GetSection_push_back d (mk_Section s [] []) Es). }
    rewrite Hg.
    assert (GetKey d k s = None) as -> by (unfold GetKey; by rewrite Es).
    destruct (bool_decide (Z.land (m_Flags d1) AUTOCREATE_KEYS ≠ 0)); [|done].
    intros [= <-]. apply GetValue_appended; [done|].
    unfold GetKey. rewrite GetSection_set_Dirty, Hg. simpl. subst d1. simpl.
    by rewrite lookup_push_back.
Qed.

Lemma SetValue_GetValue d k v c s d' k' s' ret :
  SetValue d k v c s = (true, d') ->
  CompareNoCase k k' = 0 -> CompareNoCase s s' = 0 ->
  GetValue d' k' s' ret = (true, v).
Proof.
  intros H Hk Hs. apply GetValue_ret.
  rewrite <- (GetValue_equiv d' k k' s s') by done.
  by apply (SetValue_GetValue_same d k v c s).
Qed.

End AccessorExtras.

(** ** Lemmas on the numeric accessors *)

(** ** Decimal digits *)

Lemma byte_digit m : 0 <= m < 10 -> byte (digit m) = 48 + m.
Proof. intros H. unfold byte, digit. rewrite N_ascii_embedding; lia. Qed.

Lemma isdigit_digit m : 0 <= m < 10 -> isdigit (digit m) = true.
Proof. intros H. unfold isdigit. rewrite byte_digit by done. lia. Qed.

Lemma decimal_value_snoc ds c :
  decimal_value (ds ++ [c]) = 10 * decimal_value ds + (byte c - 48).
Proof. unfold decimal_value. by rewrite fold_left_app. Qed.

Lemma digits_acc_spec fuel n acc :
  (0 < fuel)%nat -> 0 <= n < 2 ^ Z.of_nat fuel ->
  exists ds, digits_acc fuel n acc = ds ++ acc
    /\ ds <> [] /\ forallb isdigit ds = true /\ decimal_value ds = n
    /\ (length ds <= fuel)%nat.
Proof.
  revert n acc. induction fuel as [|fuel IH]; intros n acc Hf Hn; [lia|].
  - cbn [digits_acc]. fold (digit (n mod 10)).
    pose proof (Z.mod_pos_bound n 10 ltac:(lia)) as Hm.
    destruct (Z.ltb_spec n 10) as [Hlt|Hge].
    + exists [digit (n mod 10)]. split; [done|]. split; [done|].
      split; [simpl; by rewrite isdigit_digit|].
      split; [|simpl; lia].
      unfold decimal_value. simpl. rewrite byte_digit by done.
      rewrite Z.mod_small; lia.
    + assert (0 <= n / 10 < 2 ^ Z.of_nat fuel) as Hq.
      { split; [apply Z.div_pos; lia|].
        apply Z.div_lt_upper_bound; [lia|].
        rewrite Nat2Z.inj_succ, Z.pow_succ_r in Hn by lia. lia. }
      assert (0 < fuel)%nat as Hf'.
      { destruct fuel; [|lia]. change (2 ^ Z.of_nat 1) with 2 in Hn. lia. }
      destruct (IH (n / 10) (digit (n mod 10) :: acc) Hf' Hq) as (ds & -> & Hne & Hd & Hv & Hl).
      exists (ds ++ [digit (n mod 10)]).
      split; [by rewrite <- app_assoc|].
      split; [by destruct ds|].
      split; [rewrite forallb_app, Hd; simpl; by rewrite isdigit_digit|].
      split; [|rewrite length_app; simpl; lia].
      rewrite decimal_value_snoc, Hv, byte_digit by done.
      pose proof (Z.div_mod n 10 ltac:(lia)). lia.
Qed.

Lemma digits_spec n :
  0 <= n ->
  exists ds, digits n = ds /\ ds <> [] /\ forallb isdigit ds = true /\ decimal_value ds = n
    /\ (length ds <= S (Z.to_nat (Z.log2 n)))%nat.
Proof.
  intros Hn. unfold digits.
  destruct (digits_acc_spec (S (Z.to_nat (Z.log2 n))) n []) as (ds & -> & H).
  - lia.
  - split; [done|].
    destruct (Z.eq_dec n 0) as [->|Hz]; [done|].
    pose proof (Z.log2_spec n ltac:(lia)) as Hl. pose proof (Z.log2_nonneg n).
    rewrite Nat2Z.inj_succ, Z2Nat.id by done. lia.
  - exists ds. by rewrite app_nil_r.
Qed.

Lemma isdigit_not_space c : isdigit c = true -> isspace c = false.
Proof. unfold isdigit, isspace. lia. Qed.

Lemma skip_chars_app P ws s :
  forallb P ws = true -> skip_chars P (ws ++ s) = skip_chars P s.
Proof.
  induction ws as [|c ws IH]; simpl; [done|].
  rewrite andb_true_iff. intros [-> H]. by apply IH.
Qed.

Lemma leading_chars_app P ds rest :
  forallb P ds = true -> match rest with [] => true | c :: _ => negb (P c) end = true ->
  leading_chars P (ds ++ rest) = ds.
Proof.
  intros Hd Hr. induction ds as [|c ds IH]; simpl in *.
  - destruct rest as [|c rest]; [done|]. simpl. by apply negb_true_iff in Hr as ->.
  - apply andb_true_iff in Hd as [-> Hd]. f_equal. by apply IH.
Qed.

Lemma isdigit_chars c : isdigit c = true -> c <> "-"%char /\ c <> "+"%char.
Proof.
  unfold isdigit. intros H. split; intros ->; vm_compute in H; discriminate.
Qed.

(** The field [>>] extracts is the one ["%d"] wrote, whatever white space
    comes before it and whatever follows it that is not a digit. *)
Lemma extract_int_format_d ws n rest :
  - 2 ^ 31 <= n <= INT_MAX ->
  forallb isspace ws = true ->
  match rest with [] => true | c :: _ => negb (isdigit c) end = true ->
  extract_int (ws ++ format_d n ++ rest) = Some n.
Proof.
  intros Hn Hws Hrest. unfold extract_int, INT_MAX in *.
  rewrite skip_chars_app by done. unfold format_d.
  destruct (Z.ltb_spec n 0) as [Hneg|Hpos].
  - destruct (digits_spec (- n) ltac:(lia)) as (ds & -> & Hne & Hd & Hv & _).
    cbn [app skip_chars]. change (isspace "-") with false. cbv iota.
    rewrite decide_True by done.
    rewrite leading_chars_app by done.
    destruct ds as [|c ds]; [done|]. rewrite Hv.
    rewrite (proj2 (Z.ltb_ge _ _)) by lia.
    rewrite (proj2 (Z.ltb_ge _ _)) by lia. simpl. f_equal. lia.
  - destruct (digits_spec n ltac:(lia)) as (ds & -> & Hne & Hd & Hv & _).
    destruct ds as [|c ds]; [done|].
    assert (isdigit c = true) as Hc by (simpl in Hd; by apply andb_true_iff in Hd as [? _]).
    cbn [app skip_chars]. rewrite (isdigit_not_space c Hc).
    destruct (isdigit_chars c Hc) as [H1 H2].
    rewrite decide_False by done. rewrite decide_False by done.
    change (c :: ds ++ rest) with ((c :: ds) ++ rest).
    rewrite leading_chars_app by done. rewrite Hv.
    rewrite (proj2 (Z.ltb_ge _ _)) by lia.
    rewrite (proj2 (Z.ltb_ge _ _)) by lia. done.
Qed.

Lemma format_d_length n : - 2 ^ 31 <= n <= INT_MAX -> (length (format_d n) <= 63)%nat.
Proof.
  intros Hn. unfold format_d, INT_MAX in *.
  assert (forall m, 0 <= m <= 2 ^ 31 -> (length (digits m) <= 33)%nat) as Hl.
  { intros m Hm. destruct (digits_spec m ltac:(lia)) as (ds & -> & _ & _ & _ & Hl).
    assert (Z.log2 m <= 31); [|lia].
    destruct (Z.eq_dec m 0) as [->|]; [done|].
    change 31 with (Z.log2 (2 ^ 31)). apply Z.log2_le_mono. lia. }
  destruct (Z.ltb_spec n 0).
  - simpl. specialize (Hl (- n)). lia.
  - specialize (Hl n). lia.
Qed.

Lemma snprintf_format_d n :
  - 2 ^ 31 <= n <= INT_MAX -> snprintf 64 (format_d n) = format_d n.
Proof.
  intros Hn. unfold snprintf. apply take_ge.
  pose proof (format_d_length n Hn). lia.
Qed.

Section NumberExtras.
Context {hdr : Header}.

Lemma SetBool_GetBool_same d k (b : bool) c s d' k' s' ret :
  SetBool d k b c s = (true, d') ->
  CompareNoCase k k' = 0 -> CompareNoCase s s' = 0 ->
  GetBool d' k' s' ret = (true, b).
Proof.
  intros H Hk Hs. unfold SetBool in H.
  pose proof (SetValue_GetValue _ _ _ _ _ _ k' s' [] H Hk Hs) as Hv.
  unfold GetBool. rewrite Hv. by destruct b.
Qed.

Lemma GetInt_value d k s v ret ws n rest :
  GetValue d k s [] = (true, v) ->
  v = ws ++ format_d n ++ rest ->
  - 2 ^ 31 <= n <= INT_MAX ->
  forallb isspace ws = true ->
  match rest with [] => true | c :: _ => negb (isdigit c) end = true ->
  GetInt d k s ret = (true, n).
Proof.
  intros Hv -> Hn Hws Hr. unfold GetInt. rewrite Hv.
  cbv beta iota zeta delta [negb]. by rewrite extract_int_format_d.
Qed.

Lemma SetInt_GetInt_same d k n c s d' k' s' ret :
  - 2 ^ 31 <= n <= INT_MAX ->
  SetInt d k n c s = (true, d') ->
  CompareNoCase k k' = 0 -> CompareNoCase s s' = 0 ->
  GetInt d' k' s' ret = (true, n).
Proof.
  intros Hn H Hk Hs. unfold SetInt in H. rewrite snprintf_format_d in H by done.
  pose proof (SetValue_GetValue _ _ _ _ _ _ k' s' [] H Hk Hs) as Hv.
  apply (GetInt_value d' k' s' (format_d n) ret [] n []); try done.
  by rewrite app_nil_r.
Qed.

Lemma GetKey_set_Flags d f k s : GetKey (set_Flags f d) k s = GetKey d k s.
Proof. done. Qed.

Lemma GetValue_set_Flags d f k s ret : GetValue (set_Flags f d) k s ret = GetValue d k s ret.
Proof. done. Qed.

Lemma SetValue_succeeds d k v c s :
  GetSection d s <> None -> Z.land (m_Flags d) AUTOCREATE_KEYS <> 0 ->
  fst (SetValue d k v c s) = true.
Proof.
  intros Hs Hf. unfold SetValue.
  destruct (GetSection d s) as [p|]; [|done]. cbv beta iota zeta delta [negb].
  destruct (GetKey d k s); [done|].
  by rewrite bool_decide_eq_true_2.
Qed.

Lemma SetValue_flags d k v c s : m_Flags (snd (SetValue d k v c s)) = m_Flags d.
Proof.
  unfold SetValue.
  destruct (GetSection d s) as [p|] eqn:Es.
  - cbv beta iota zeta delta [negb].
    destruct (GetKey d k s); [done|].
    by destruct (bool_decide _).
  - destruct (bool_decide (Z.land (m_Flags d) AUTOCREATE_SECTIONS = 0)); [done|].
    rewrite CreateSection_new by done. cbv beta iota zeta delta [negb].
    match goal with |- context [GetSection ?x s] => destruct (GetSection x s) end;
      [|reflexivity].
    destruct (GetKey d k s); [reflexivity|].
    destruct (bool_decide _); reflexivity.
Qed.

Lemma restore_flag flags bit :
  Z.land flags bit = 0 \/ Z.land flags bit = bit ->
  (if negb (bool_decide (Z.land flags bit = bit))
   then Z.land (Z.lor flags bit) (Z.lnot bit) else Z.lor flags bit) = flags.
Proof.
  intros H. destruct (bool_decide (Z.land flags bit = bit)) eqn:E; simpl.
  - apply bool_decide_eq_true in E. apply Z.bits_inj'. intros n Hn.
    apply (f_equal (fun z => Z.testbit z n)) in E.
    rewrite Z.land_spec in E. rewrite Z.lor_spec.
    destruct (Z.testbit flags n), (Z.testbit bit n); simpl in *; congruence.
  - apply bool_decide_eq_false in E. destruct H as [H|H]; [|done].
    apply Z.bits_inj'. intros n Hn.
    apply (f_equal (fun z => Z.testbit z n)) in H.
    rewrite Z.land_spec, Z.bits_0 in H.
    rewrite Z.land_spec, Z.lor_spec, Z.lnot_spec by done.
    destruct (Z.testbit flags n), (Z.testbit bit n); simpl in *; congruence.
Qed.

Lemma CreateKey_creates d k v c s :
  AUTOCREATE_KEYS <> 0 -> GetSection d s <> None ->
  exists d',
    CreateKey d k v c s = (true, d')
    /\ (forall k' s' ret, CompareNoCase k k' = 0 -> CompareNoCase s s' = 0 ->
          GetValue d' k' s' ret = (true, v))
    /\ (Z.land (m_Flags d) AUTOCREATE_KEYS = 0
        \/ Z.land (m_Flags d) AUTOCREATE_KEYS = AUTOCREATE_KEYS ->
        m_Flags d' = m_Flags d).
Proof.
  intros Hak Hs. unfold CreateKey.
  set (d1 := set_Flags (Z.lor (m_Flags d) AUTOCREATE_KEYS) d).
  pose proof (SetValue_succeeds d1 k v c s) as Hok.
  pose proof (SetValue_flags d1 k v c s) as Hfl.
  destruct (SetValue d1 k v c s) as [b d2] eqn:E. simpl in Hok, Hfl.
  rewrite Hok; [|done|].
  2:{ subst d1. simpl. by rewrite land_lor_absorb. }
  eexists. split; [reflexivity|]. split.
  - intros k' s' ret Hk' Hs'.
    assert (GetValue d2 k' s' ret = (true, v)) as Hv.
    { apply (SetValue_GetValue d1 k v c s d2); [|done|done].
      rewrite E. f_equal. apply Hok; [done|]. subst d1. simpl. by rewrite land_lor_absorb. }
    by destruct (negb _).
  - intros Hf. subst d1. cbn [m_Flags set_Flags] in Hfl.
    pose proof (restore_flag (m_Flags d) AUTOCREATE_KEYS Hf) as Hr.
    destruct (bool_decide (Z.land (m_Flags d) AUTOCREATE_KEYS = AUTOCREATE_KEYS));
      cbn [negb] in *; cbv iota in Hr; cbv iota; cbn [m_Flags set_Flags];
      rewrite Hfl; exact Hr.
Qed.

End NumberExtras.

(** ** The answers of [GetValue] *)

Lemma forallb_Forall {A} (P : A -> bool) l :
  forallb P l = true <-> Forall (fun x => P x = true) l.
Proof.
  rewrite forallb_forall, Forall_forall. apply forall_proper. intros x.
  by rewrite list_elem_of_In.
Qed.

Lemma list_find_alter {A} (P : A -> Prop) `{!forall x, Decision (P x)} (f : A -> A) i l :
  (forall x, P (f x) <-> P x) ->
  list_find P (alter f i l)
  = (fun r => (fst r, if decide (fst r = i) then f (snd r) else snd r)) <$> list_find P l.
Proof.
  intros Hf. revert i. induction l as [|x l IH]; intros i; [done|].
  destruct i as [|i]; cbn [alter list_alter list_find].
  - destruct (decide (P x)) as [Hx|Hx].
    + rewrite decide_True by (by apply Hf). done.
    + rewrite decide_False by (by rewrite Hf).
      destruct (list_find P l) as [[j y]|]; [|done]. done.
  - destruct (decide (P x)); [done|].
    change (list_alter f i l) with (alter f i l). rewrite IH.
    destruct (list_find P l) as [[j y]|]; [|done]. simpl.
    destruct (decide (j = i)), (decide (S j = S i)); (done || lia).
Qed.

Lemma list_find_snoc {A} (P : A -> Prop) `{!forall x, Decision (P x)} l x :
  list_find P (l ++ [x])
  = match list_find P l with
    | Some r => Some r
    | None => if decide (P x) then Some (length l, x) else None
    end.
Proof.
  destruct (list_find P l) as [[j y]|] eqn:E.
  - by apply list_find_app_l.
  - rewrite list_find_app_r by done. simpl.
    destruct (decide (P x)); simpl; [|done]. by rewrite ?Nat.add_0_r.
Qed.

Lemma distinct_snoc l x :
  distinct (l ++ [x]) = true
  <-> distinct l = true /\ Forall (fun m => CompareNoCase m x <> 0) l.
Proof.
  induction l as [|a l IH].
  - simpl. split; [done|]. done.
  - change ((a :: l) ++ [x]) with (a :: (l ++ [x])).
    rewrite !distinct_cons, IH, Forall_app, Forall_singleton, Forall_cons. tauto.
Qed.

Lemma distinct_delete l i : distinct l = true -> distinct (delete i l) = true.
Proof.
  revert i. induction l as [|a l IH]; intros i; [done|].
  rewrite distinct_cons. intros [Ha Hl]. destruct i as [|i]; [done|].
  cbn [delete list_delete]. change (list_delete i l) with (delete i l).
  rewrite distinct_cons. split; [by apply Forall_delete|by apply IH].
Qed.

Lemma distinct_lookup l i j a b :
  distinct l = true -> l !! i = Some a -> l !! j = Some b -> CompareNoCase a b = 0 -> i = j.
Proof.
  revert i j. induction l as [|x l IH]; intros i j Hd Hi Hj Hc; [done|].
  apply distinct_cons in Hd as [Hx Hl].
  rewrite Forall_forall in Hx.
  destruct i as [|i], j as [|j]; simpl in *.
  - done.
  - injection Hi as ->. exfalso. apply (Hx b); [|done]. by eapply list_elem_of_lookup_2.
  - injection Hj as ->. exfalso. apply (Hx a); [by eapply list_elem_of_lookup_2|].
    by apply CompareNoCase_sym.
  - f_equal. by apply IH.
Qed.

Lemma fmap_alter_same {A B} (g : A -> B) (f : A -> A) (i : nat) (l : list A) :
  (forall x, l !! i = Some x -> g (f x) = g x) -> g <$> alter f i l = g <$> l.
Proof.
  intros H. apply list_eq. intros j.
  rewrite !list_lookup_fmap, list_lookup_alter.
  destruct (decide (i = j)) as [<-|]; [|reflexivity].
  destruct (l !! i) as [x|] eqn:E; [|reflexivity]. simpl. f_equal. by apply H.
Qed.

Section Shape.
Context {hdr : Header}.

Lemma GetValue_value_of d k s ret :
  GetValue d k s ret
  = match value_of d k s with Some v => (true, v) | None => (false, ret) end.
Proof.
  unfold GetValue, GetKey, GetSection, value_of, section_of, value_in.
  destruct (list_find _ (m_Sections d)) as [[p S]|] eqn:E; [|done]. simpl.
  apply list_find_Some in E as (Hl & _). rewrite Hl. simpl.
  destruct (list_find _ (s_Keys S)) as [[j K]|] eqn:Ek; [|done]. simpl.
  rewrite Hl. simpl.
  apply list_find_Some in Ek as (-> & _). done.
Qed.

Lemma GetSection_section_of d s p :
  GetSection d s = Some p -> section_of d s = m_Sections d !! p.
Proof.
  unfold GetSection, section_of. destruct (list_find _ _) as [[i S]|] eqn:E; [|done].
  simpl. intros [= <-]. apply list_find_Some in E as (-> & _). done.
Qed.

Lemma GetSection_None_section_of d s :
  GetSection d s = None <-> section_of d s = None.
Proof.
  unfold GetSection, section_of. by destruct (list_find _ _) as [[i S]|].
Qed.

Lemma GetKey_None_value_of d k s : GetKey d k s = None <-> value_of d k s = None.
Proof.
  unfold GetKey, GetSection, value_of, section_of, value_in.
  destruct (list_find _ (m_Sections d)) as [[p S]|] eqn:E; [|done]. simpl.
  apply list_find_Some in E as (Hl & _). rewrite Hl. simpl.
  by destruct (list_find _ (s_Keys S)) as [[j K]|].
Qed.

(** What [SetValue] does, case by case. *)
Lemma SetValue_eq d k v c s :
  SetValue d k v c s
  = match GetSection d s with
    | Some p =>
        match GetKey d k s with
        | Some pKey =>
            (true, set_Dirty true
                     (alter_key (fun k0 => mk_Key (k_szKey k0) v c) pKey d))
        | None =>
            if bool_decide (Z.land (m_Flags d) AUTOCREATE_KEYS ≠ 0)
            then (true, alter_section (fun x => set_Keys (s_Keys x ++ [mk_Key k v c]) x) p
                          (set_Dirty true d))
            else (false, d)
        end
    | None =>
        if bool_decide (Z.land (m_Flags d) AUTOCREATE_SECTIONS = 0) then (false, d)
        else if bool_decide (Z.land (m_Flags d) AUTOCREATE_KEYS ≠ 0)
        then (true, mk_CDataFile (m_Sections d ++ [mk_Section s [] [mk_Key k v c]])
                      (m_szFileName d) true (m_Flags d))
        else (false, mk_CDataFile (m_Sections d ++ [mk_Section s [] []])
                       (m_szFileName d) true (m_Flags d))
    end.
Proof.
  unfold SetValue.
  destruct (GetSection d s) as [p|] eqn:Es; [done|].
  destruct (bool_decide (Z.land (m_Flags d) AUTOCREATE_SECTIONS = 0)); [done|].
  rewrite CreateSection_new by done. cbv beta iota zeta delta [negb].
  set (d1 := mk_CDataFile _ _ _ _).
  assert (GetSection d1 s = Some (length (m_Sections d))) as ->
    by exact (GetSection_push_back d (mk_Section s [] []) Es).
  assert (GetKey d k s = None) as -> by (unfold GetKey; by rewrite Es).
  subst d1. cbn [m_Flags].
  destruct (bool_decide (Z.land (m_Flags d) AUTOCREATE_KEYS ≠ 0)); [|done].
  unfold alter_section, set_Dirty, set_Sections. cbn [m_Sections m_szFileName m_Flags m_bDirty].
  by rewrite alter_push_back.
Qed.

End Shape.

Lemma list_find_delete_other {A} (P : A -> Prop) `{!forall x, Decision (P x)} (i : nat)
    (l : list A) :
  (forall x, l !! i = Some x -> ~ P x) ->
  snd <$> list_find P (delete i l) = snd <$> list_find P l.
Proof.
  revert i. induction l as [|a l IH]; intros i Hn; [done|].
  destruct i as [|i]; cbn [delete list_delete list_find].
  - rewrite decide_False by (by apply Hn).
    by destruct (list_find P l) as [[]|].
  - change (list_delete i l) with (delete i l).
    destruct (decide (P a)); [done|].
    specialize (IH i Hn).
    destruct (list_find P (delete i l)) as [[]|], (list_find P l) as [[]|];
      simpl in *; congruence.
Qed.

Lemma list_find_delete_only {A} (P : A -> Prop) `{!forall x, Decision (P x)} (i : nat)
    (l : list A) :
  (forall j y, l !! j = Some y -> P y -> j = i) ->
  list_find P (delete i l) = None.
Proof.
  intros Hn. apply list_find_None. apply Forall_forall. intros y Hy Py.
  apply list_elem_of_lookup_1 in Hy as [j Hj].
  rewrite list_lookup_delete in Hj.
  destruct (decide (j < i)%nat) as [Hlt|Hge].
  - specialize (Hn j y Hj Py). lia.
  - specialize (Hn (S j) y Hj Py). lia.
Qed.

Section Effects.
Context {hdr : Header}.

(** *** Sections and values after a write through a pointer *)

Lemma section_of_alter d g p s2 :
  (forall Sec, s_szName (g Sec) = s_szName Sec) ->
  section_of (alter_section g p d) s2
  = (if decide (GetSection d s2 = Some p) then g else id) <$> section_of d s2.
Proof.
  intros Hg. unfold section_of, GetSection, alter_section. cbn [m_Sections set_Sections].
  rewrite (list_find_alter (fun s => CompareNoCase (s_szName s) s2 = 0))
    by (intros Sec; by rewrite Hg).
  destruct (list_find _ (m_Sections d)) as [[j Sec]|]; [|done]. simpl.
  destruct (decide (j = p)) as [->|Hne].
  - by rewrite decide_True.
  - rewrite decide_False; [done|]. by intros [= ->].
Qed.

Lemma section_of_push_back d x s2 fname b flags :
  section_of (mk_CDataFile (m_Sections d ++ [x]) fname b flags) s2
  = match section_of d s2 with
    | Some Sec => Some Sec
    | None => if decide (CompareNoCase (s_szName x) s2 = 0) then Some x else None
    end.
Proof.
  unfold section_of. cbn [m_Sections]. rewrite list_find_snoc.
  destruct (list_find _ (m_Sections d)) as [[j Sec]|]; [done|].
  by destruct (decide _).
Qed.

Lemma value_in_alter Keys f j k2 :
  (forall K, k_szKey (f K) = k_szKey K) ->
  (forall K, Keys !! j = Some K -> CompareNoCase (k_szKey K) k2 = 0 ->
             k_szValue (f K) = k_szValue K) ->
  value_in (alter f j Keys) k2 = value_in Keys k2.
Proof.
  intros Hf Hv. unfold value_in.
  rewrite (list_find_alter (fun k => CompareNoCase (k_szKey k) k2 = 0))
    by (intros K; by rewrite Hf).
  destruct (list_find _ Keys) as [[i K]|] eqn:E; [|done]. simpl.
  destruct (decide (i = j)) as [->|]; [|done].
  apply list_find_Some in E as (Hl & HP & _). f_equal. by apply Hv.
Qed.

Lemma value_in_snoc Keys K k2 :
  value_in (Keys ++ [K]) k2
  = match value_in Keys k2 with
    | Some v => Some v
    | None => if decide (CompareNoCase (k_szKey K) k2 = 0) then Some (k_szValue K) else None
    end.
Proof.
  unfold value_in. rewrite list_find_snoc.
  destruct (list_find _ Keys) as [[j y]|]; [done|]. by destruct (decide _).
Qed.

Lemma value_of_equiv d k k' s s' :
  CompareNoCase k k' = 0 -> CompareNoCase s s' = 0 -> value_of d k s = value_of d k' s'.
Proof.
  intros Hk Hs.
  pose proof (GetValue_equiv d k k' s s' [] Hk Hs) as H.
  rewrite !GetValue_value_of in H.
  destruct (value_of d k s), (value_of d k' s'); congruence.
Qed.

(** Two names found at the same place compare equal. *)
Lemma same_section_same_name d s s2 p :
  GetSection d s = Some p -> GetSection d s2 = Some p -> CompareNoCase s s2 = 0.
Proof.
  intros H1 H2.
  destruct (GetSection_Some _ _ _ H1) as (S1 & Hl1 & Hc1).
  destruct (GetSection_Some _ _ _ H2) as (S2 & Hl2 & Hc2).
  rewrite Hl1 in Hl2. injection Hl2 as <-.
  apply (CompareNoCase_trans s (s_szName S1) s2); [by apply CompareNoCase_sym|done].
Qed.

(** A write to the keys of the section of [s] that keeps the answer for
    [k2] keeps the answer of the document. *)
Lemma value_of_alter_keys d s p h k2 s2 :
  GetSection d s = Some p ->
  (CompareNoCase s s2 = 0 ->
   forall Sec, m_Sections d !! p = Some Sec -> value_in (h (s_Keys Sec)) k2 = value_in (s_Keys Sec) k2) ->
  value_of (alter_section (fun Sec => set_Keys (h (s_Keys Sec)) Sec) p d) k2 s2 = value_of d k2 s2.
Proof.
  intros Hs Hh. unfold value_of. rewrite section_of_alter by done.
  destruct (decide (GetSection d s2 = Some p)) as [Hp|Hp].
  - rewrite (GetSection_section_of d s2 p Hp).
    destruct (m_Sections d !! p) as [Sec|] eqn:El; [|done]. simpl.
    apply Hh; [|done]. by apply (same_section_same_name d s s2 p).
  - by destruct (section_of d s2).
Qed.

Lemma value_of_set_Dirty d b k s : value_of (set_Dirty b d) k s = value_of d k s.
Proof. done. Qed.

(** *** [SetValue] *)

Lemma value_of_overwrite d k s pKey v c k2 s2 :
  GetKey d k s = Some pKey ->
  ~ (CompareNoCase k k2 = 0 /\ CompareNoCase s s2 = 0) ->
  value_of (alter_key (fun k0 => mk_Key (k_szKey k0) v c) pKey d) k2 s2 = value_of d k2 s2.
Proof.
  intros Ek Hne.
  destruct (GetKey_Some _ _ _ _ Ek) as (Sec & K & Hs' & Hl & Hkl & Hc).
  destruct pKey as [p j]. cbn [fst snd] in *. unfold alter_key. cbn [fst snd].
  apply (value_of_alter_keys d s p (alter (fun k0 => mk_Key (k_szKey k0) v c) j)); [done|].
  intros Hss Sec' HS'. apply value_in_alter; [done|].
  intros K' HK' HcK'. rewrite Hl in HS'. injection HS' as <-.
  rewrite Hkl in HK'. injection HK' as <-.
  exfalso. apply Hne. split; [|done].
  apply (CompareNoCase_trans k (k_szKey K) k2); [by apply CompareNoCase_sym|done].
Qed.

Lemma value_of_append d k s p v c k2 s2 :
  GetSection d s = Some p ->
  ~ (CompareNoCase k k2 = 0 /\ CompareNoCase s s2 = 0) ->
  value_of (alter_section (fun x => set_Keys (s_Keys x ++ [mk_Key k v c]) x) p d) k2 s2
  = value_of d k2 s2.
Proof.
  intros Es Hne.
  apply (value_of_alter_keys d s p (fun Keys => Keys ++ [mk_Key k v c])); [done|].
  intros Hss Sec' HS'. rewrite value_in_snoc.
  destruct (value_in (s_Keys Sec') k2); [done|].
  cbn [k_szKey]. rewrite decide_False; [done|]. tauto.
Qed.

Lemma value_of_new_section d s k2 s2 cm Keys fname b flags :
  GetSection d s = None ->
  (CompareNoCase s s2 = 0 -> value_in Keys k2 = None) ->
  value_of (mk_CDataFile (m_Sections d ++ [mk_Section s cm Keys]) fname b flags) k2 s2
  = value_of d k2 s2.
Proof.
  intros Es Hne. unfold value_of. rewrite section_of_push_back.
  destruct (section_of d s2) as [S2|] eqn:E2; [done|]. cbn [s_szName].
  destruct (decide (CompareNoCase s s2 = 0)) as [Hss|Hss]; [|done].
  cbn [mbind option_bind s_Keys]. by apply Hne.
Qed.

Lemma SetValue_other d k v c s k2 s2 :
  ~ (CompareNoCase k k2 = 0 /\ CompareNoCase s s2 = 0) ->
  value_of (snd (SetValue d k v c s)) k2 s2 = value_of d k2 s2.
Proof.
  intros Hne. rewrite SetValue_eq.
  destruct (GetSection d s) as [p|] eqn:Es.
  - destruct (GetKey d k s) as [pKey|] eqn:Ek.
    + cbn [snd]. rewrite value_of_set_Dirty. by apply (value_of_overwrite d k s).
    + destruct (bool_decide (Z.land (m_Flags d) AUTOCREATE_KEYS ≠ 0)); [|done].
      cbn [snd]. by rewrite (value_of_append (set_Dirty true d) k s).
  - destruct (bool_decide (Z.land (m_Flags d) AUTOCREATE_SECTIONS = 0)); [done|].
    destruct (bool_decide (Z.land (m_Flags d) AUTOCREATE_KEYS ≠ 0)); cbn [snd].
    + apply value_of_new_section; [done|]. intros Hss.
      unfold value_in. cbn [list_find k_szKey]. rewrite decide_False; [done|]. tauto.
    + by apply value_of_new_section.
Qed.

Lemma SetValue_failed d k v c s k2 s2 :
  fst (SetValue d k v c s) = false ->
  value_of (snd (SetValue d k v c s)) k2 s2 = value_of d k2 s2.
Proof.
  rewrite SetValue_eq.
  destruct (GetSection d s) as [p|] eqn:Es.
  - destruct (GetKey d k s) as [pKey|] eqn:Ek; [done|].
    by destruct (bool_decide (Z.land (m_Flags d) AUTOCREATE_KEYS ≠ 0)).
  - destruct (bool_decide (Z.land (m_Flags d) AUTOCREATE_SECTIONS = 0)); [done|].
    destruct (bool_decide (Z.land (m_Flags d) AUTOCREATE_KEYS ≠ 0)); [done|].
    intros _. cbn [snd]. by apply value_of_new_section.
Qed.

Lemma SetValue_value_of d k v c s k2 s2 :
  value_of (snd (SetValue d k v c s)) k2 s2
  = if fst (SetValue d k v c s)
       && bool_decide (CompareNoCase k k2 = 0) && bool_decide (CompareNoCase s s2 = 0)
    then Some v else value_of d k2 s2.
Proof.
  destruct (fst (SetValue d k v c s)) eqn:Eok; [|by apply SetValue_failed].
  destruct (decide (CompareNoCase k k2 = 0)) as [Hk|Hk];
    [|rewrite (bool_decide_eq_false_2 _ Hk); apply SetValue_other; tauto].
  destruct (decide (CompareNoCase s s2 = 0)) as [Hs|Hs];
    [|rewrite (bool_decide_eq_false_2 _ Hs), andb_false_r; apply SetValue_other; tauto].
  rewrite (bool_decide_eq_true_2 _ Hk), (bool_decide_eq_true_2 _ Hs). cbn [andb].
  destruct (SetValue d k v c s) as [b d'] eqn:E. simpl in Eok. subst b.
  pose proof (SetValue_GetValue d k v c s d' k2 s2 [] E Hk Hs) as H.
  rewrite GetValue_value_of in H. simpl.
  destruct (value_of d' k2 s2); [by injection H as ->|done].
Qed.

End Effects.

(** ** Distinct names *)

Section Invariant.
Context {hdr : Header}.

Lemma well_formed_spec d :
  well_formed d = true
  <-> distinct (section_names d) = true
      /\ Forall (fun s => distinct (key_names s) = true) (m_Sections d).
Proof. unfold well_formed. by rewrite andb_true_iff, forallb_Forall. Qed.

Lemma well_formed_alter d g p :
  (forall Sec, m_Sections d !! p = Some Sec ->
     s_szName (g Sec) = s_szName Sec
     /\ (distinct (key_names Sec) = true -> distinct (key_names (g Sec)) = true)) ->
  well_formed d = true -> well_formed (alter_section g p d) = true.
Proof.
  intros Hg. rewrite !well_formed_spec. intros [Hn Hk].
  unfold section_names, alter_section. cbn [m_Sections set_Sections]. split.
  - rewrite fmap_alter_same; [done|]. intros x Hx. by apply Hg.
  - apply Forall_alter; [done|]. intros x Hx. by apply Hg.
Qed.

Lemma well_formed_push_back d x fname b flags :
  GetSection d (s_szName x) = None -> distinct (key_names x) = true ->
  well_formed d = true ->
  well_formed (mk_CDataFile (m_Sections d ++ [x]) fname b flags) = true.
Proof.
  intros Hs Hx. rewrite !well_formed_spec. intros [Hn Hk].
  unfold section_names. cbn [m_Sections]. split.
  - rewrite fmap_app. apply distinct_snoc. split; [done|].
    unfold GetSection in Hs.
    destruct (list_find _ (m_Sections d)) as [[]|] eqn:E; [done|].
    apply list_find_None in E. by apply Forall_fmap.
  - apply Forall_app. split; [done|]. by apply Forall_singleton.
Qed.

Lemma well_formed_set_Dirty d b : well_formed (set_Dirty b d) = well_formed d.
Proof. done. Qed.

Lemma well_formed_set_Flags d f : well_formed (set_Flags f d) = well_formed d.
Proof. done. Qed.

Lemma GetKey_None_keys d k s p Sec :
  GetSection d s = Some p -> m_Sections d !! p = Some Sec -> GetKey d k s = None ->
  Forall (fun m => CompareNoCase m k <> 0) (key_names Sec).
Proof.
  intros Hs Hl Hk. unfold GetKey in Hk. rewrite Hs in Hk. simpl in Hk.
  rewrite Hl in Hk. simpl in Hk.
  destruct (list_find _ (s_Keys Sec)) as [[]|] eqn:E; [done|].
  apply list_find_None in E. unfold key_names. by apply Forall_fmap.
Qed.

Lemma CreateSection_well_formed d n cm :
  well_formed d = true -> well_formed (snd (CreateSection d n cm)) = true.
Proof.
  intros H. unfold CreateSection.
  destruct (GetSection d n) eqn:E; [done|]. cbn [snd].
  by apply (well_formed_push_back d (mk_Section n cm [])).
Qed.

Lemma SetValue_well_formed d k v c s :
  well_formed d = true -> well_formed (snd (SetValue d k v c s)) = true.
Proof.
  intros H. rewrite SetValue_eq.
  destruct (GetSection d s) as [p|] eqn:Es.
  - destruct (GetKey d k s) as [pKey|] eqn:Ek.
    + cbn [snd]. rewrite well_formed_set_Dirty. unfold alter_key.
      apply well_formed_alter; [|done]. intros Sec _. split; [done|].
      unfold key_names. cbn [s_Keys set_Keys].
      rewrite fmap_alter_same; done.
    + destruct (bool_decide (Z.land (m_Flags d) AUTOCREATE_KEYS ≠ 0)); [|done].
      cbn [snd]. apply well_formed_alter; [|done]. intros Sec HS. split; [done|].
      intros Hd. unfold key_names. cbn [s_Keys set_Keys]. rewrite fmap_app.
      apply distinct_snoc. split; [done|].
      by apply (GetKey_None_keys d k s p).
  - destruct (bool_decide (Z.land (m_Flags d) AUTOCREATE_SECTIONS = 0)); [done|].
    destruct (bool_decide (Z.land (m_Flags d) AUTOCREATE_KEYS ≠ 0)); cbn [snd].
    + by apply (well_formed_push_back d (mk_Section s [] [mk_Key k v c])).
    + by apply (well_formed_push_back d (mk_Section s [] [])).
Qed.

Lemma CreateKey_well_formed d k v c s :
  well_formed d = true -> well_formed (snd (CreateKey d k v c s)) = true.
Proof.
  intros H. unfold CreateKey.
  pose proof (SetValue_well_formed (set_Flags (Z.lor (m_Flags d) AUTOCREATE_KEYS) d) k v c s H)
    as Hw.
  destruct (SetValue _ k v c s) as [b d']. cbn [snd] in *.
  by destruct (negb _).
Qed.

Lemma DeleteSection_well_formed d s :
  well_formed d = true -> well_formed (snd (DeleteSection d s)) = true.
Proof.
  unfold DeleteSection. destruct (list_find _ _) as [[p Sec]|]; [|done].
  cbn [snd]. rewrite !well_formed_spec. unfold section_names. cbn [m_Sections set_Sections].
  intros [Hn Hk]. split.
  - rewrite list_fmap_delete. by apply distinct_delete.
  - by apply Forall_delete.
Qed.

Lemma DeleteKey_well_formed d k s :
  well_formed d = true -> well_formed (snd (DeleteKey d k s)) = true.
Proof.
  intros H. unfold DeleteKey.
  destruct (GetSection d s) as [p|]; [|done].
  destruct (m_Sections d !! p) as [Sec|]; [|done].
  destruct (list_find _ _) as [[j K]|]; [|done]. cbn [snd].
  apply well_formed_alter; [|done]. intros Sec' _. split; [done|].
  unfold key_names. cbn [s_Keys set_Keys]. rewrite list_fmap_delete.
  apply distinct_delete.
Qed.

Lemma SetKeyComment_well_formed d k c s :
  well_formed d = true -> well_formed (snd (SetKeyComment d k c s)) = true.
Proof.
  intros H. unfold SetKeyComment. destruct (GetKey d k s) as [pKey|]; [|done].
  cbn [snd]. rewrite well_formed_set_Dirty. unfold alter_key.
  apply well_formed_alter; [|done]. intros Sec _. split; [done|].
  unfold key_names. cbn [s_Keys set_Keys]. rewrite fmap_alter_same; done.
Qed.

Lemma SetSectionComment_well_formed d s c :
  well_formed d = true -> well_formed (snd (SetSectionComment d s c)) = true.
Proof.
  intros H. unfold SetSectionComment. destruct (list_find _ _) as [[p Sec]|]; [|done].
  cbn [snd]. rewrite well_formed_set_Dirty.
  apply well_formed_alter; [|done]. intros Sec' _. done.
Qed.

(** *** Deleting *)

Lemma distinct_only names i a :
  distinct names = true -> names !! i = Some a ->
  forall j b, names !! j = Some b -> CompareNoCase b a = 0 -> j = i.
Proof.
  intros Hd Hi j b Hj Hc. by apply (distinct_lookup names j i b a).
Qed.

Lemma DeleteSection_section_of d s s2 :
  well_formed d = true ->
  section_of (snd (DeleteSection d s)) s2
  = if decide (CompareNoCase s s2 = 0) then None else section_of d s2.
Proof.
  intros Hw. apply well_formed_spec in Hw as [Hn _].
  unfold DeleteSection, section_of.
  destruct (list_find _ (m_Sections d)) as [[p Sec]|] eqn:E.
  - cbn [snd m_Sections set_Sections].
    apply list_find_Some in E as (Hl & Hc & _).
    destruct (decide (CompareNoCase s s2 = 0)) as [Hs|Hs].
    + rewrite list_find_delete_only; [done|].
      intros j y Hj Hy.
      apply (distinct_only (section_names d) p (s_szName Sec) Hn) with (b := s_szName y).
      * unfold section_names. by rewrite list_lookup_fmap, Hl.
      * unfold section_names. by rewrite list_lookup_fmap, Hj.
      * apply (CompareNoCase_trans _ s2); [done|].
        apply CompareNoCase_sym. by apply (CompareNoCase_trans _ s).
    + apply list_find_delete_other. intros x Hx Hc2. rewrite Hl in Hx. injection Hx as <-.
      apply Hs. apply (CompareNoCase_trans _ (s_szName Sec)); [by apply CompareNoCase_sym|done].
  - cbn [snd]. destruct (decide (CompareNoCase s s2 = 0)) as [Hs|Hs]; [|done].
    rewrite <- (list_find_ext (fun x => CompareNoCase (s_szName x) s = 0)), E; [done|].
    intros x. by apply CompareNoCase_equiv.
Qed.

Lemma value_in_delete Keys j K k k2 :
  distinct (k_szKey <$> Keys) = true ->
  Keys !! j = Some K -> CompareNoCase (k_szKey K) k = 0 ->
  value_in (delete j Keys) k2
  = if decide (CompareNoCase k k2 = 0) then None else value_in Keys k2.
Proof.
  intros Hd Hl Hc. unfold value_in.
  destruct (decide (CompareNoCase k k2 = 0)) as [Hk|Hk].
  - rewrite list_find_delete_only; [done|].
    intros i y Hi Hy.
    apply (distinct_only (k_szKey <$> Keys) j (k_szKey K) Hd) with (b := k_szKey y).
    + by rewrite list_lookup_fmap, Hl.
    + by rewrite list_lookup_fmap, Hi.
    + apply (CompareNoCase_trans _ k2); [done|].
      apply CompareNoCase_sym. by apply (CompareNoCase_trans _ k).
  - pose proof (list_find_delete_other
                  (fun k0 => CompareNoCase (k_szKey k0) k2 = 0) j Keys) as H.
    destruct (list_find _ (delete j Keys)) as [[]|], (list_find _ Keys) as [[]|];
      simpl in *.
    all: try (assert (forall x, Keys !! j = Some x -> CompareNoCase (k_szKey x) k2 <> 0) as Hx
                by (intros x Hx Hc2; rewrite Hl in Hx; injection Hx as <-; apply Hk;
                    apply (CompareNoCase_trans _ (k_szKey K)); [by apply CompareNoCase_sym|done]);
              specialize (H Hx); congruence).
Qed.

Lemma DeleteKey_value_of d k s k2 s2 :
  well_formed d = true ->
  value_of (snd (DeleteKey d k s)) k2 s2
  = if bool_decide (CompareNoCase k k2 = 0) && bool_decide (CompareNoCase s s2 = 0)
    then None else value_of d k2 s2.
Proof.
  intros Hw. unfold DeleteKey.
  destruct (GetSection d s) as [p|] eqn:Es.
  - destruct (GetSection_Some _ _ _ Es) as (Sec & Hl & Hc). rewrite Hl.
    destruct (list_find _ (s_Keys Sec)) as [[j K]|] eqn:Ek; cbn [snd].
    + apply list_find_Some in Ek as (HK & HcK & _).
      assert (distinct (key_names Sec) = true) as Hd.
      { apply well_formed_spec in Hw as [_ Hf]. rewrite Forall_forall in Hf.
        apply Hf. by eapply list_elem_of_lookup_2. }
      destruct (decide (CompareNoCase s s2 = 0)) as [Hs|Hs].
      * rewrite (bool_decide_eq_true_2 _ Hs), andb_true_r.
        unfold value_of. rewrite section_of_alter by done.
        rewrite <- (GetSection_equiv d s s2 Hs), Es.
        rewrite decide_True by done.
        rewrite <- (GetSection_section_of d s2 p) in Hl
          by (by rewrite <- (GetSection_equiv d s s2 Hs)).
        rewrite Hl. cbn [fmap option_fmap option_map mbind option_bind s_Keys set_Keys].
        rewrite (value_in_delete (s_Keys Sec) j K k k2) by done.
        destruct (decide (CompareNoCase k k2 = 0)) as [Hk|Hk].
        -- by rewrite (bool_decide_eq_true_2 _ Hk).
        -- by rewrite (bool_decide_eq_false_2 _ Hk).
      * rewrite (bool_decide_eq_false_2 _ Hs), andb_false_r.
        apply (value_of_alter_keys d s p (delete j)); [done|]. done.
    + destruct (decide (CompareNoCase s s2 = 0)) as [Hs|Hs];
        [|by rewrite (bool_decide_eq_false_2 _ Hs), andb_false_r].
      destruct (decide (CompareNoCase k k2 = 0)) as [Hk|Hk];
        [|by rewrite (bool_decide_eq_false_2 _ Hk)].
      rewrite (bool_decide_eq_true_2 _ Hs), (bool_decide_eq_true_2 _ Hk). cbn [andb].
      rewrite <- (value_of_equiv d k k2 s s2) by done.
      apply GetKey_None_value_of. unfold GetKey. rewrite Es. simpl. rewrite Hl. simpl.
      by rewrite Ek.
  - cbn [snd].
    destruct (decide (CompareNoCase s s2 = 0)) as [Hs|Hs];
      [|by rewrite (bool_decide_eq_false_2 _ Hs), andb_false_r].
    destruct (decide (CompareNoCase k k2 = 0)) as [Hk|Hk];
      [|by rewrite (bool_decide_eq_false_2 _ Hk)].
    rewrite (bool_decide_eq_true_2 _ Hs), (bool_decide_eq_true_2 _ Hk). cbn [andb].
    rewrite <- (value_of_equiv d k k2 s s2) by done.
    apply GetKey_None_value_of. unfold GetKey. by rewrite Es.
Qed.

End Invariant.

Section SectionEffects.
Context {hdr : Header}.

Lemma HasSection_section_of d s : HasSection d s = bool_decide (section_of d s <> None).
Proof.
  unfold HasSection. apply bool_decide_ext. by rewrite GetSection_None_section_of.
Qed.

Lemma HasSection_equiv d s s' : CompareNoCase s s' = 0 -> HasSection d s = HasSection d s'.
Proof. intros H. unfold HasSection. by rewrite (GetSection_equiv d s s'). Qed.

Lemma DeleteSection_value_of d s k2 s2 :
  well_formed d = true ->
  value_of (snd (DeleteSection d s)) k2 s2
  = if decide (CompareNoCase s s2 = 0) then None else value_of d k2 s2.
Proof.
  intros Hw. unfold value_of. rewrite DeleteSection_section_of by done.
  by destruct (decide _).
Qed.

Lemma DeleteSection_HasSection d s s2 :
  well_formed d = true ->
  HasSection (snd (DeleteSection d s)) s2
  = negb (bool_decide (CompareNoCase s s2 = 0)) && HasSection d s2.
Proof.
  intros Hw. rewrite !HasSection_section_of, DeleteSection_section_of by done.
  destruct (decide (CompareNoCase s s2 = 0)) as [Hs|Hs].
  - by rewrite (bool_decide_eq_true_2 _ Hs).
  - by rewrite (bool_decide_eq_false_2 _ Hs).
Qed.

Lemma DeleteSection_fst d s : fst (DeleteSection d s) = HasSection d s.
Proof.
  unfold DeleteSection, HasSection, GetSection.
  destruct (list_find _ _) as [[p Sec]|]; cbn [fst fmap option_fmap option_map].
  - symmetry. by apply bool_decide_eq_true_2.
  - symmetry. apply bool_decide_eq_false_2. by intros [].
Qed.

Lemma DeleteKey_fst d k s :
  fst (DeleteKey d k s) = bool_decide (GetKey d k s <> None).
Proof.
  unfold DeleteKey, GetKey.
  destruct (GetSection d s) as [p|]; cbn [mbind option_bind fst];
    [|symmetry; apply bool_decide_eq_false_2; by intros []].
  destruct (m_Sections d !! p) as [Sec|]; cbn [mbind option_bind fst];
    [|symmetry; apply bool_decide_eq_false_2; by intros []].
  destruct (list_find _ _) as [[j K]|]; cbn [mbind option_bind fst fmap option_fmap option_map].
  - symmetry. by apply bool_decide_eq_true_2.
  - symmetry. apply bool_decide_eq_false_2. by intros [].
Qed.

Lemma CreateSection_fst d s c : fst (CreateSection d s c) = negb (HasSection d s).
Proof.
  unfold CreateSection, HasSection. destruct (GetSection d s); cbn [fst].
  - by rewrite bool_decide_eq_true_2.
  - rewrite bool_decide_eq_false_2; [done|]. by intros [].
Qed.

Lemma CreateSection_section_of d s c s2 :
  section_of (snd (CreateSection d s c)) s2
  = match section_of d s2 with
    | Some Sec => Some Sec
    | None => if decide (CompareNoCase s s2 = 0) then Some (mk_Section s c []) else None
    end.
Proof.
  unfold CreateSection.
  destruct (GetSection d s) as [p|] eqn:Es; cbn [snd].
  - destruct (section_of d s2) as [Sec|] eqn:E2; [done|].
    rewrite decide_False; [done|]. intros Hs.
    apply GetSection_None_section_of in E2.
    rewrite <- (GetSection_equiv d s s2 Hs) in E2. congruence.
  - unfold set_Dirty, set_Sections. cbn [m_Sections m_szFileName m_Flags].
    by rewrite section_of_push_back.
Qed.

Lemma CreateSection_value_of d s c k2 s2 :
  value_of (snd (CreateSection d s c)) k2 s2 = value_of d k2 s2.
Proof.
  unfold value_of. rewrite CreateSection_section_of.
  destruct (section_of d s2); [done|]. by destruct (decide _).
Qed.

Lemma CreateSection_HasSection d s c s2 :
  HasSection (snd (CreateSection d s c)) s2
  = HasSection d s2 || bool_decide (CompareNoCase s s2 = 0).
Proof.
  rewrite !HasSection_section_of, CreateSection_section_of.
  destruct (section_of d s2) as [Sec|].
  { rewrite !(bool_decide_eq_true_2 (Some Sec <> None)) by done. reflexivity. }
  rewrite (bool_decide_eq_false_2 (None <> None)) by (by intros []).
  destruct (decide (CompareNoCase s s2 = 0)) as [Hs|Hs].
  - rewrite (bool_decide_eq_true_2 _ Hs). by apply bool_decide_eq_true_2.
  - rewrite (bool_decide_eq_false_2 _ Hs). apply bool_decide_eq_false_2. by intros [].
Qed.

Lemma SetKeyComment_value_of d k c s k2 s2 :
  value_of (snd (SetKeyComment d k c s)) k2 s2 = value_of d k2 s2.
Proof.
  unfold SetKeyComment. destruct (GetKey d k s) as [[p j]|] eqn:Ek; [|done].
  cbn [snd]. rewrite value_of_set_Dirty. unfold alter_key. cbn [fst snd].
  destruct (GetKey_Some _ _ _ _ Ek) as (Sec & K & Hs' & _). cbn [fst] in Hs'.
  apply (value_of_alter_keys d s p
           (alter (fun k0 => mk_Key (k_szKey k0) (k_szValue k0) c) j)); [done|].
  intros _ Sec' _. by apply value_in_alter.
Qed.

Lemma SetSectionComment_value_of d s c k2 s2 :
  value_of (snd (SetSectionComment d s c)) k2 s2 = value_of d k2 s2.
Proof.
  unfold SetSectionComment.
  destruct (list_find _ _) as [[p Sec]|] eqn:E; [|done].
  cbn [snd]. rewrite value_of_set_Dirty. unfold value_of.
  rewrite section_of_alter by done.
  destruct (section_of d s2) as [Sec2|]; [|reflexivity].
  destruct (decide _); reflexivity.
Qed.

(** *** Counting *)

Lemma to_int_to_size_t n : 0 <= n < 2 ^ 31 -> to_int (to_size_t n) = n.
Proof.
  intros H. rewrite to_size_t_small by lia. apply to_int_small. lia.
Qed.

Lemma KeyCount_from Sections n :
  0 <= n -> n + Z.of_nat (sum_list_with (fun s => length (s_Keys s)) Sections) < 2 ^ 31 ->
  foldl (fun nCounter s => to_int (to_size_t nCounter + Z.of_nat (length (s_Keys s))))
        n Sections
  = n + Z.of_nat (sum_list_with (fun s => length (s_Keys s)) Sections).
Proof.
  revert n. induction Sections as [|Sec l IH]; intros n H0 H; simpl in *; [lia|].
  rewrite to_size_t_small by lia. rewrite to_int_small by lia.
  rewrite IH by lia. lia.
Qed.

Lemma KeyCount_total d :
  Z.of_nat (total_keys d) < 2 ^ 31 -> KeyCount d = Z.of_nat (total_keys d).
Proof. intros H. unfold KeyCount, total_keys in *. by rewrite KeyCount_from. Qed.

Lemma SectionCount_length d :
  Z.of_nat (length (m_Sections d)) < 2 ^ 31 ->
  SectionCount d = Z.of_nat (length (m_Sections d)).
Proof. intros H. unfold SectionCount. apply to_int_small. lia. Qed.

End SectionEffects.

(** ** Counting keys *)

Section Totals.
Context {hdr : Header}.

Lemma sum_alter (f : t_Section -> nat) g p l x :
  l !! p = Some x ->
  (sum_list_with f (alter g p l) + f x = sum_list_with f l + f (g x))%nat.
Proof.
  revert p. induction l as [|a l IH]; intros p Hp; [done|].
  destruct p as [|p]; simpl in *.
  - injection Hp as ->. lia.
  - specialize (IH p Hp). change (list_alter g p l) with (alter g p l). lia.
Qed.

Lemma total_keys_alter d g p x :
  m_Sections d !! p = Some x ->
  (total_keys (alter_section g p d) + length (s_Keys x)
   = total_keys d + length (s_Keys (g x)))%nat.
Proof.
  intros H. unfold total_keys, alter_section. cbn [m_Sections set_Sections].
  by apply (sum_alter (fun s => length (s_Keys s))).
Qed.

Lemma total_keys_push_back d x fname b flags :
  total_keys (mk_CDataFile (m_Sections d ++ [x]) fname b flags)
  = (total_keys d + length (s_Keys x))%nat.
Proof.
  unfold total_keys. cbn [m_Sections]. rewrite sum_list_with_app. simpl. lia.
Qed.

Lemma SetValue_total_keys d k v c s :
  total_keys (snd (SetValue d k v c s))
  = (total_keys d
     + if fst (SetValue d k v c s) && bool_decide (GetKey d k s = None) then 1 else 0)%nat.
Proof.
  rewrite SetValue_eq.
  destruct (GetSection d s) as [p|] eqn:Es.
  - destruct (GetSection_Some _ _ _ Es) as (Sec & Hl & _).
    destruct (GetKey d k s) as [[p' j]|] eqn:Ek.
    + cbn [fst snd andb]. rewrite bool_decide_eq_false_2 by done.
      destruct (GetKey_Some _ _ _ _ Ek) as (Sec' & K & Hs' & Hl' & _).
      cbn [fst snd] in *.
      unfold alter_key. cbn [fst snd].
      pose proof (total_keys_alter d
                    (fun s0 => set_Keys (alter (fun k0 => mk_Key (k_szKey k0) v c) j (s_Keys s0)) s0)
                    p' Sec' Hl') as H.
      cbn [s_Keys set_Keys] in H. rewrite length_alter in H.
      change (total_keys (set_Dirty true ?x)) with (total_keys x). lia.
    + destruct (bool_decide (Z.land (m_Flags d) AUTOCREATE_KEYS ≠ 0)); cbn [fst snd andb];
        [|lia].
      rewrite bool_decide_eq_true_2 by done.
      pose proof (total_keys_alter (set_Dirty true d)
                    (fun x => set_Keys (s_Keys x ++ [mk_Key k v c]) x) p Sec Hl) as H.
      cbn [s_Keys set_Keys] in H. rewrite length_app in H. simpl in H.
      change (total_keys (set_Dirty true d)) with (total_keys d) in H. lia.
  - assert (GetKey d k s = None) as Hk by (unfold GetKey; by rewrite Es).
    destruct (bool_decide (Z.land (m_Flags d) AUTOCREATE_SECTIONS = 0)); [cbn [fst snd andb]; lia|].
    destruct (bool_decide (Z.land (m_Flags d) AUTOCREATE_KEYS ≠ 0)); cbn [fst snd andb].
    + rewrite bool_decide_eq_true_2 by done. rewrite total_keys_push_back. simpl. lia.
    + rewrite total_keys_push_back. simpl. lia.
Qed.

Lemma DeleteKey_total_keys d k s :
  (total_keys (snd (DeleteKey d k s)) + (if fst (DeleteKey d k s) then 1 else 0)
   = total_keys d)%nat.
Proof.
  unfold DeleteKey.
  destruct (GetSection d s) as [p|] eqn:Es; [|cbn [fst snd]; lia].
  destruct (m_Sections d !! p) as [Sec|] eqn:Hl; [|cbn [fst snd]; lia].
  destruct (list_find _ (s_Keys Sec)) as [[j K]|] eqn:Ek; [|cbn [fst snd]; lia].
  cbn [fst snd].
  pose proof (total_keys_alter d (fun s0 => set_Keys (delete j (s_Keys s0)) s0) p Sec Hl) as H.
  cbn [s_Keys set_Keys] in H. rewrite length_delete in H.
  2:{ apply list_find_Some in Ek as (Hj & _). by eexists. }
  apply list_find_Some in Ek as (Hj & _). apply lookup_lt_Some in Hj. lia.
Qed.

End Totals.

(** ** What [Load] keeps *)

Section LoadInvariant.
Context {hdr : Header}.

(** What every line keeps, the whole loop keeps. *)
Lemma Load_loop_invariant (I : load_state -> Prop) fuel File st r :
  (forall szLine st st', I st -> Load_line szLine st = Returned st' -> I st') ->
  I st -> Load_loop fuel File st = Some (Returned r) -> I r.
Proof.
  intros Hstep. revert File st. induction fuel as [|fuel IH]; intros File st HI; [done|].
  simpl. destruct (getline File (MAX_BUFFER_LEN - 1)) as [[buffer rest] bDone].
  destruct (Trim (c_str buffer)) as [szLine| |]; simpl; [|done|done].
  destruct (Load_line szLine st) as [st'| |] eqn:E; [|done|done].
  specialize (Hstep szLine st st' HI E).
  destruct bDone; [by intros [= <-]|]. by apply IH.
Qed.

Lemma Load_stream_invariant (I : load_state -> Prop) File st r :
  (forall szLine st st', I st -> Load_line szLine st = Returned st' -> I st') ->
  I st -> Load_stream File st = Returned r -> I r.
Proof.
  intros Hstep HI H. apply (Load_loop_invariant I (S (length File)) File st r); [done|done|].
  by rewrite Load_stream_fuel, H.
Qed.

(** The cases of [Load_line] that return. *)
Lemma Load_line_cases szLine st st' :
  Load_line szLine st = Returned st' ->
  ld_this st' = ld_this st
  \/ (exists n c, ld_this st' = snd (CreateSection (ld_this st) n c))
  \/ (exists k v c s, ld_this st' = snd (SetValue (ld_this st) k v c s)).
Proof.
  unfold Load_line.
  destruct (_ =? 0); [intros [= <-]; by left|].
  destruct (_ =? 0).
  - destruct (erase szLine 0 1) as [l1| |]; simpl; [|done|done].
    destruct (erase l1 _ 1) as [l2| |]; simpl; [|done|done].
    destruct (CreateSection_call (ld_this st) l2 (ld_szComment st)) as [[b d']| |] eqn:E;
      simpl; [|done|done].
    apply CreateSection_call_Returned in E.
    intros [= <-]. right. left. exists l2, (ld_szComment st). by rewrite <- E.
  - destruct (0 <? size szLine); [|intros [= <-]; by left].
    destruct (GetNextWord szLine) as [[k v]| |]; simpl; [|done|done].
    destruct (0 <? size k); [|intros [= <-]; by left].
    destruct (ld_pSection st ≫= _) as [Sec|]; [|done].
    destruct (SetValue (ld_this st) k v (ld_szComment st) (s_szName Sec)) as [b d'] eqn:E.
    intros [= <-]. right. right. exists k, v, (ld_szComment st), (s_szName Sec). by rewrite E.
Qed.

(** A property of the document that [CreateSection] and [SetValue] keep is
    kept by [Load]'s loop. *)
Lemma Load_stream_keeps (P : CDataFile -> Prop) File st r :
  (forall d n c, P d -> P (snd (CreateSection d n c))) ->
  (forall d k v c s, P d -> P (snd (SetValue d k v c s))) ->
  P (ld_this st) -> Load_stream File st = Returned r -> P (ld_this r).
Proof.
  intros Hc Hs HP H.
  apply (Load_stream_invariant (fun st => P (ld_this st)) File st r); [|done|done].
  intros szLine st0 st' HI E.
  destruct (Load_line_cases _ _ _ E) as [->|[(n & c & ->)|(k & v & c & s & ->)]]; auto.
Qed.

Lemma CreateSection_flags d n c : m_Flags (snd (CreateSection d n c)) = m_Flags d.
Proof. unfold CreateSection. by destruct (GetSection d n). Qed.

Lemma CreateSection_name d n c : m_szFileName (snd (CreateSection d n c)) = m_szFileName d.
Proof. unfold CreateSection. by destruct (GetSection d n). Qed.

Lemma SetValue_name d k v c s : m_szFileName (snd (SetValue d k v c s)) = m_szFileName d.
Proof.
  rewrite SetValue_eq.
  destruct (GetSection d s); [destruct (GetKey d k s)|]; repeat destruct (bool_decide _); done.
Qed.

Lemma CreateSection_keeps_dirty d n c :
  m_bDirty d = true -> m_bDirty (snd (CreateSection d n c)) = true.
Proof. unfold CreateSection. by destruct (GetSection d n). Qed.

Lemma SetValue_keeps_dirty d k v c s :
  m_bDirty d = true -> m_bDirty (snd (SetValue d k v c s)) = true.
Proof.
  rewrite SetValue_eq.
  destruct (GetSection d s); [destruct (GetKey d k s)|]; repeat destruct (bool_decide _); done.
Qed.

Lemma SetValue_keeps_value d k v c s k2 s2 :
  value_of d k2 s2 <> None -> value_of (snd (SetValue d k v c s)) k2 s2 <> None.
Proof. rewrite SetValue_value_of. by destruct (_ && _). Qed.

Lemma SetValue_keeps_section d k v c s s2 :
  HasSection d s2 = true -> HasSection (snd (SetValue d k v c s)) s2 = true.
Proof.
  unfold HasSection. rewrite !bool_decide_eq_true. rewrite SetValue_eq.
  destruct (GetSection d s) as [p|] eqn:Es.
  - destruct (GetKey d k s) as [pk|]; cbn [snd].
    + unfold alter_key. rewrite GetSection_set_Dirty, GetSection_alter; done.
    + destruct (bool_decide _); [|done]. cbn [snd]. rewrite GetSection_alter; done.
  - destruct (bool_decide _); [done|].
    assert (forall x fname b flags, GetSection d s2 <> None ->
              GetSection (mk_CDataFile (m_Sections d ++ [x]) fname b flags) s2 <> None) as Hp.
    { intros x fname b flags. rewrite !GetSection_None_section_of, section_of_push_back.
      by destruct (section_of d s2). }
    destruct (bool_decide _); cbn [snd]; apply Hp.
Qed.

Lemma double_restore flags a b :
  (Z.land flags a = 0 \/ Z.land flags a = a) ->
  (Z.land flags b = 0 \/ Z.land flags b = b) ->
  Z.land a b = 0 ->
  let f1 := Z.lor (Z.lor flags a) b in
  let f2 := if negb (bool_decide (Z.land flags a = a)) then Z.land f1 (Z.lnot a) else f1 in
  (if negb (bool_decide (Z.land flags b = b)) then Z.land f2 (Z.lnot b) else f2) = flags.
Proof.
  intros Ha Hb Hab. cbv zeta.
  assert (forall n, 0 <= n ->
            (Z.testbit a n = true -> Z.testbit b n = false)) as Hdisj.
  { intros n Hn H. apply (f_equal (fun z => Z.testbit z n)) in Hab.
    rewrite Z.land_spec, Z.bits_0, H in Hab. done. }
  assert (forall x, (Z.land flags x = 0 \/ Z.land flags x = x) ->
            if bool_decide (Z.land flags x = x)
            then forall n, 0 <= n -> Z.testbit x n = true -> Z.testbit flags n = true
            else forall n, 0 <= n -> Z.testbit x n = true -> Z.testbit flags n = false) as Hbits.
  { intros x Hx. destruct (bool_decide (Z.land flags x = x)) eqn:E.
    - apply bool_decide_eq_true in E. intros n Hn H.
      apply (f_equal (fun z => Z.testbit z n)) in E. rewrite Z.land_spec, H in E.
      by destruct (Z.testbit flags n).
    - apply bool_decide_eq_false in E. destruct Hx as [Hx|Hx]; [|done]. intros n Hn H.
      apply (f_equal (fun z => Z.testbit z n)) in Hx.
      rewrite Z.land_spec, Z.bits_0, H in Hx. by destruct (Z.testbit flags n). }
  pose proof (Hbits a Ha) as Hba. pose proof (Hbits b Hb) as Hbb.
  destruct (bool_decide (Z.land flags a = a)), (bool_decide (Z.land flags b = b));
    cbn [negb]; apply Z.bits_inj'; intros n Hn;
    rewrite ?Z.land_spec, ?Z.lor_spec, ?Z.lnot_spec by done;
    specialize (Hba n Hn); specialize (Hbb n Hn); specialize (Hdisj n Hn);
    destruct (Z.testbit flags n), (Z.testbit a n), (Z.testbit b n); simpl in *;
    try reflexivity; try (by discriminate (Hba eq_refl));
    try (by discriminate (Hbb eq_refl)); try (by discriminate (Hdisj eq_refl)).
Qed.

(** What [Load] keeps when it returns. *)
Lemma Load_keeps d fs szFileName b d' :
  Load d fs szFileName = Returned (b, d') ->
  m_szFileName d' = m_szFileName d
  /\ (well_formed d = true -> well_formed d' = true)
  /\ (m_bDirty d = true -> m_bDirty d' = true)
  /\ (forall s, HasSection d s = true -> HasSection d' s = true)
  /\ (forall k s, value_of d k s <> None -> value_of d' k s <> None)
  /\ ((Z.land (m_Flags d) AUTOCREATE_KEYS = 0
       \/ Z.land (m_Flags d) AUTOCREATE_KEYS = AUTOCREATE_KEYS) ->
      (Z.land (m_Flags d) AUTOCREATE_SECTIONS = 0
       \/ Z.land (m_Flags d) AUTOCREATE_SECTIONS = AUTOCREATE_SECTIONS) ->
      Z.land AUTOCREATE_KEYS AUTOCREATE_SECTIONS = 0 ->
      m_Flags d' = m_Flags d).
Proof.
  unfold Load. destruct (fs_content fs (c_str szFileName)) as [File|].
  2:{ intros [= <- <-]. repeat split; auto. }
  cbv zeta.
  set (d0 := set_Flags _ (set_Flags _ d)).
  destruct (Load_stream File (mk_load_state d0 (GetSection d []) [])) as [st| |] eqn:E;
    simpl; [|done|done].
  set (P := fun x : CDataFile =>
    m_szFileName x = m_szFileName d
    /\ (well_formed d = true -> well_formed x = true)
    /\ (m_bDirty d = true -> m_bDirty x = true)
    /\ (forall s, HasSection d s = true -> HasSection x s = true)
    /\ (forall k s, value_of d k s <> None -> value_of x k s <> None)
    /\ m_Flags x = m_Flags d0).
  assert (P (ld_this st)) as (H1 & H2 & H3 & H4 & H5 & H6).
  { apply (Load_stream_keeps P File _ st) in E; [done| | |].
    - intros x n c (H1 & H2 & H3 & H4 & H5 & H6). unfold P.
      rewrite CreateSection_name, CreateSection_flags. split; [done|].
      split; [intros Hw; by apply CreateSection_well_formed, H2|].
      split; [intros Hd; by apply CreateSection_keeps_dirty, H3|].
      split; [|split; [|done]].
      + intros s Hs. rewrite CreateSection_HasSection, H4; done.
      + intros k s Hv. rewrite CreateSection_value_of. by apply H5.
    - intros x k v c s (H1 & H2 & H3 & H4 & H5 & H6). unfold P.
      rewrite SetValue_name, SetValue_flags. split; [done|].
      split; [intros Hw; by apply SetValue_well_formed, H2|].
      split; [intros Hd; by apply SetValue_keeps_dirty, H3|].
      split; [|split; [|done]].
      + intros s2 Hs. by apply SetValue_keeps_section, H4.
      + intros k2 s2 Hv. by apply SetValue_keeps_value, H5.
    - unfold P. simpl. repeat split; auto. }
  intros [= <- <-].
  set (r := if negb _ then _ else _).
  assert (m_Sections r = m_Sections (ld_this st) /\ m_szFileName r = m_szFileName (ld_this st)
          /\ m_bDirty r = m_bDirty (ld_this st)) as (Hs & Hn & Hd).
  { subst r. by repeat destruct (negb _). }
  assert (forall k s, value_of r k s = value_of (ld_this st) k s) as Hv.
  { intros k s. unfold value_of, section_of. by rewrite Hs. }
  assert (forall s, HasSection r s = HasSection (ld_this st) s) as Hh.
  { intros s. unfold HasSection, GetSection. by rewrite Hs. }
  assert (well_formed r = well_formed (ld_this st)) as Hw.
  { unfold well_formed, section_names. by rewrite Hs. }
  split; [congruence|]. split; [rewrite Hw; done|]. split; [rewrite Hd; done|].
  split; [intros s; rewrite Hh; auto|]. split; [intros k s; rewrite Hv; auto|].
  intros Ha Hb Hab. subst r. cbn [m_Flags set_Flags]. 
  pose proof (double_restore (m_Flags d) AUTOCREATE_KEYS AUTOCREATE_SECTIONS Ha Hb Hab) as Hr.
  cbv zeta in Hr. subst d0. cbn [m_Flags set_Flags] in H6.
  destruct (negb (bool_decide (Z.land (m_Flags d) AUTOCREATE_KEYS = AUTOCREATE_KEYS)));
    destruct (negb (bool_decide (Z.land (m_Flags d) AUTOCREATE_SECTIONS = AUTOCREATE_SECTIONS)));
    cbn [m_Flags set_Flags]; rewrite ?H6; exact Hr.
Qed.

End LoadInvariant.

(** ** Files without section headers *)

Lemma getline_spec File room buffer rest bDone :
  getline File room = (buffer, rest, bDone) ->
  (length buffer <= room)%nat
  /\ (forall c, c ∈ buffer -> c ∈ File) /\ (forall c, c ∈ rest -> c ∈ File).
Proof.
  revert room buffer rest bDone.
  induction File as [|a File IH]; intros room buffer rest bDone; simpl.
  - intros [= <- <- <-]. split; [simpl; lia|]. done.
  - destruct (decide (a = LF)).
    + intros [= <- <- <-]. split; [simpl; lia|]. split; [intros c Hc; by apply elem_of_nil in Hc|].
      intros c Hc. by right.
    + destruct room as [|room].
      * intros [= <- <- <-]. split; [simpl; lia|]. split; [intros c Hc; by apply elem_of_nil in Hc|].
        done.
      * destruct (getline File room) as [[b r] dn] eqn:E.
        intros [= <- <- <-]. destruct (IH _ _ _ _ E) as (H1 & H2 & H3).
        split; [simpl; lia|]. split.
        -- intros c Hc. apply elem_of_cons in Hc as [->|Hc]; [by left|]. right. by apply H2.
        -- intros c Hc. right. by apply H3.
Qed.

Lemma c_str_sub s : (length (c_str s) <= length s)%nat /\ (forall c, c ∈ c_str s -> c ∈ s).
Proof.
  induction s as [|a s [IH1 IH2]]; simpl; [done|].
  destruct (decide (a = NUL)).
  - split; [simpl; lia|]. intros c Hc. by apply elem_of_nil in Hc.
  - split; [simpl; lia|]. intros c Hc.
    apply elem_of_cons in Hc as [->|Hc]; [by left|]. right. by apply IH2.
Qed.

Section Safe.
Context {hdr : Header}.

Lemma Trim_sub s :
  size s <= 2 ^ 31 ->
  exists r, Trim s = Returned r /\ (length r <= length s)%nat /\ (forall c, c ∈ r -> c ∈ s).
Proof.
  intros Hs. rewrite Trim_short by done. eexists. split; [reflexivity|].
  destruct (trim_left_split s) as (pre & Hpre & _).
  destruct (trim_right_split (trim_left s)) as (post & Hpost & _).
  split.
  - rewrite Hpre at 2. rewrite Hpost at 2. rewrite !length_app. lia.
  - intros c Hc. rewrite Hpre, Hpost. apply elem_of_app. right. apply elem_of_app. by left.
Qed.

Lemma GetNextWord_returns line :
  size line < 2 ^ 31 -> exists w r, GetNextWord line = Returned (w, r).
Proof.
  intros Hs.
  destruct (first_index (is_one_of EqualIndicators) line) as [i|] eqn:E.
  - apply first_index_Some in E as [Hpre (e & He & Hin)].
    rewrite <- (take_drop_middle line i e He) in Hs |- *.
    rewrite GetNextWord_delimiter; [|done|exact Hpre|done].
    destruct (Trim_sub (take i line)) as (w & -> & _).
    { unfold size in *. rewrite length_app in Hs. lia. }
    by eexists _, _.
  - apply first_index_None in E.
    rewrite GetNextWord_no_delimiter by exact E.
    destruct (Trim_sub line) as (w & -> & _); [lia|]. by eexists _, _.
Qed.

Lemma SetValue_length d k v c s :
  (length (m_Sections d) <= length (m_Sections (snd (SetValue d k v c s))))%nat.
Proof.
  rewrite SetValue_eq.
  destruct (GetSection d s); [destruct (GetKey d k s)|]; repeat destruct (bool_decide _);
    cbn [snd]; unfold alter_key, alter_section;
    cbn [m_Sections set_Sections set_Dirty];
    rewrite ?length_alter, ?length_app; simpl; lia.
Qed.

Lemma Load_line_no_header szLine st :
  size szLine < 2 ^ 31 -> "["%char ∉ szLine -> pointer_valid st ->
  exists st', Load_line szLine st = Returned st' /\ pointer_valid st'.
Proof.
  intros Hs Hb (p & Hp & [Sec HSec]). unfold Load_line.
  destruct (find_first_of szLine CommentIndicators =? 0).
  { eexists. split; [reflexivity|]. by exists p. }
  assert ((find_first_of szLine (str "[") =? 0) = false) as ->.
  { destruct szLine as [|c r]; [done|]. rewrite find_first_of_head.
    apply bool_decide_eq_false_2. intros Hc. apply list_elem_of_singleton in Hc. subst c.
    apply Hb. by left. }
  destruct (0 <? size szLine); [|eexists; split; [reflexivity|by exists p; eauto]].
  destruct (GetNextWord_returns szLine Hs) as (w & r & ->). ret_bind.
  destruct (0 <? size w); [|eexists; split; [reflexivity|by exists p; eauto]].
  rewrite Hp. cbn [mbind option_bind]. rewrite HSec.
  pose proof (SetValue_length (ld_this st) w r (ld_szComment st) (s_szName Sec)) as Hl.
  destruct (SetValue _ w r _ _) as [b d'] eqn:E. cbn [snd] in Hl.
  eexists. split; [reflexivity|]. exists p. split; [done|]. cbn [ld_this].
  apply lookup_lt_is_Some. apply lookup_lt_Some in HSec. lia.
Qed.

Lemma Load_loop_no_header fuel File st :
  Z.of_nat MAX_BUFFER_LEN <= 2 ^ 31 ->
  (length File < fuel)%nat -> "["%char ∉ File -> pointer_valid st ->
  exists r, Load_loop fuel File st = Some (Returned r).
Proof.
  intros Hmax. revert File st.
  induction fuel as [|fuel IH]; intros File st Hf Hb Hv; [lia|].
  cbn [Load_loop].
  destruct (getline File (MAX_BUFFER_LEN - 1)) as [[buffer rest] bDone] eqn:E.
  destruct (getline_spec _ _ _ _ _ E) as (Hlen & Hbuf & Hrest).
  destruct (c_str_sub buffer) as [Hcl Hcs].
  destruct (Trim_sub (c_str buffer)) as (szLine & -> & Hll & Hls).
  { unfold size. lia. }
  cbn [mbind outcome_bind].
  destruct (Load_line_no_header szLine st) as (st' & -> & Hv'); [unfold size; lia| |done|].
  { intros Hin. apply Hb. by apply Hbuf, Hcs, Hls. }
  destruct bDone; [by eexists|].
  apply IH; [|by intros Hin; apply Hb, Hrest|done].
  apply getline_shorter in E. lia.
Qed.

Lemma Load_no_header d fs szFileName File :
  Z.of_nat MAX_BUFFER_LEN <= 2 ^ 31 ->
  HasSection d [] = true ->
  fs_content fs (c_str szFileName) = Some File ->
  "["%char ∉ File ->
  exists d', Load d fs szFileName = Returned (true, d').
Proof.
  intros Hmax Hd Hfs Hb. unfold Load. rewrite Hfs. cbv zeta.
  unfold HasSection in Hd. apply bool_decide_eq_true in Hd.
  destruct (GetSection d []) as [p|] eqn:Ep; [|done].
  destruct (GetSection_Some _ _ _ Ep) as (Sec & HSec & _).
  set (st := mk_load_state _ _ _).
  destruct (Load_loop_no_header (S (length File)) File st Hmax) as [r Hr]; [lia|done| |].
  { exists p. split; [done|]. subst st. cbn [ld_this m_Sections set_Flags]. by rewrite HSec. }
  rewrite Load_stream_fuel in Hr. injection Hr as ->. ret_bind. by eexists.
Qed.

End Safe.

(** ** Long lines and the round trip through a file *)

Lemma getline_eof s room :
  LF ∉ s -> (length s <= room)%nat -> getline s room = (s, [], true).
Proof.
  revert room. induction s as [|c s IH]; intros room Hn Hl; simpl; [done|].
  apply not_elem_of_cons in Hn as [Hc Hn].
  rewrite decide_False by done.
  destruct room as [|room]; [simpl in Hl; lia|].
  rewrite IH; [done|done|simpl in Hl; lia].
Qed.

Lemma getline_long s rest room :
  LF ∉ s -> (room < length s)%nat ->
  getline (s ++ rest) room = (take room s, drop room s ++ rest, true).
Proof.
  revert room. induction s as [|c s IH]; intros room Hn Hl; simpl in *; [lia|].
  apply not_elem_of_cons in Hn as [Hc Hn].
  rewrite decide_False by done.
  destruct room as [|room]; [done|].
  rewrite IH; [done|done|lia].
Qed.

Section LongLine.
Context {hdr : Header}.

Lemma Load_stream_last s st :
  LF ∉ s -> (length s < MAX_BUFFER_LEN)%nat ->
  Load_stream s st = (szLine ← Trim (c_str s); Load_line szLine st).
Proof.
  intros Hn Hl. unfold Load_stream. cbn [Load_loop].
  rewrite getline_eof by (done || lia).
  by destruct (Trim (c_str s) ≫= fun szLine => Load_line szLine st).
Qed.

Lemma Load_stream_long s rest st :
  LF ∉ s -> (MAX_BUFFER_LEN <= length s)%nat -> (0 < MAX_BUFFER_LEN)%nat ->
  Load_stream (s ++ rest) st
  = (szLine ← Trim (c_str (take (MAX_BUFFER_LEN - 1) s)); Load_line szLine st).
Proof.
  intros Hn Hl Hm. unfold Load_stream. cbn [Load_loop].
  rewrite getline_long by (done || lia).
  by destruct (Trim (c_str (take (MAX_BUFFER_LEN - 1) s)) ≫= fun szLine => Load_line szLine st).
Qed.

(** A complete line, with or without NUL. *)
Lemma Load_stream_complete_line line rest st :
  LF ∉ line -> (length line < MAX_BUFFER_LEN)%nat ->
  Load_stream (line ++ LF :: rest) st
  = st' ← (szLine ← Trim (c_str line); Load_line szLine st); Load_stream rest st'.
Proof.
  intros Hlf Hlen. unfold Load_stream at 1. simpl Load_loop.
  rewrite getline_line by (done || lia).
  destruct (Trim (c_str line) ≫= fun szLine => Load_line szLine st) as [st'| |]; [|done|done].
  simpl. unfold Load_stream.
  rewrite (Load_loop_fuel _ (S (length rest))); [done| |lia].
  rewrite length_app. simpl. lia.
Qed.

Lemma Load_stream_same_lines lines R1 R2 :
  Forall (fun line => (LF ∉ line) /\ (length line < MAX_BUFFER_LEN)%nat) lines ->
  (forall st, Load_stream R1 st = Load_stream R2 st) ->
  forall st, Load_stream (lines_text lines ++ R1) st = Load_stream (lines_text lines ++ R2) st.
Proof.
  intros Hl HR. induction Hl as [|line lines [Hlf Hlen] _ IH]; intros st; [apply HR|].
  unfold lines_text. rewrite fmap_cons. cbn [concat].
  rewrite <- !app_assoc. cbn [app].
  rewrite !Load_stream_complete_line by done.
  destruct (Trim (c_str line) ≫= fun szLine => Load_line szLine st) as [st'| |]; [|done|done].
  cbn [mbind outcome_bind]. apply IH.
Qed.

Lemma Load_long_line d fs szFileName fs' szFileName' lines long rest :
  Forall (fun line => (LF ∉ line) /\ (length line < MAX_BUFFER_LEN)%nat) lines ->
  LF ∉ long -> (MAX_BUFFER_LEN <= length long)%nat -> (0 < MAX_BUFFER_LEN)%nat ->
  fs_content fs (c_str szFileName) = Some (lines_text lines ++ long ++ rest) ->
  fs_content fs' (c_str szFileName')
    = Some (lines_text lines ++ take (MAX_BUFFER_LEN - 1) long) ->
  Load d fs szFileName = Load d fs' szFileName'.
Proof.
  intros Hl Hn Hlen Hm Hfs Hfs'. unfold Load. rewrite Hfs, Hfs'. cbv zeta.
  rewrite (Load_stream_same_lines lines (long ++ rest) (take (MAX_BUFFER_LEN - 1) long));
    [done|done|].
  intros st. rewrite Load_stream_long by done.
  rewrite Load_stream_last; [done| |].
  - intros Hin. apply Hn. by apply (subseteq_take (MAX_BUFFER_LEN - 1) long).
  - rewrite length_take. lia.
Qed.

End LongLine.

Section RoundTrip.
Context {hdr : Header}.

Lemma section_of_loaded d d' s :
  m_Sections d' = loaded_section <$> m_Sections d ->
  section_of d' s = loaded_section <$> section_of d s.
Proof.
  intros H. unfold section_of. rewrite H.
  rewrite (list_find_fmap). unfold compose. cbn [loaded_section s_szName].
  destruct (list_find _ (m_Sections d)) as [[i x]|]; done.
Qed.

Lemma value_in_loaded Keys k : value_in (loaded_key <$> Keys) k = value_in Keys k.
Proof.
  unfold value_in. rewrite list_find_fmap. unfold compose. cbn [loaded_key k_szKey].
  destruct (list_find _ Keys) as [[i x]|]; done.
Qed.

Lemma value_of_loaded d d' k s :
  m_Sections d' = loaded_section <$> m_Sections d -> value_of d' k s = value_of d k s.
Proof.
  intros H. unfold value_of. rewrite (section_of_loaded d d' s H).
  destruct (section_of d s) as [x|]; [|done]. simpl. apply value_in_loaded.
Qed.

Lemma Save_open d fs :
  header_ok = true -> plain_document d = true ->
  Z.of_nat (length (m_Sections d)) < 2 ^ 31 ->
  m_szFileName d <> [] -> fs_writable fs (c_str (m_szFileName d)) = true ->
  exists fs' d',
    Save d fs = Returned (true, set_Dirty false d, fs')
    /\ fs_content fs' (c_str (m_szFileName d)) = Some (document_text d)
    /\ CDataFile_open fs' (m_szFileName d) = Returned d'
    /\ m_szFileName d' = m_szFileName d
    /\ m_bDirty d' = false
    /\ m_Sections d' = loaded_section <$> m_Sections d
    /\ forall k s ret, GetValue d' k s ret = GetValue d k s ret.
Proof.
  intros Hh Hp Hlen Hname Hw.
  destruct (header_ok_spec Hh) as (_ & _ & _ & _ & _ & _ & _ & Hak).
  destruct (plain_document_spec d Hp) as [(s0 & ss & Hd & _) _ _].
  set (fs' := fs_write (c_str (m_szFileName d)) (document_text d) fs).
  assert (fs_content fs' (c_str (m_szFileName d)) = Some (document_text d)) as Hfs.
  { subst fs'. unfold fs_write. cbn [fs_content]. by rewrite decide_True. }
  set (flags := Z.lor (Z.lor (Z.lor AUTOCREATE_SECTIONS AUTOCREATE_KEYS) AUTOCREATE_KEYS)
                      AUTOCREATE_SECTIONS).
  destruct (Load_stream_document d (m_szFileName d) false flags Hh Hp) as [b' Hl].
  { assert (Z.land flags AUTOCREATE_KEYS = AUTOCREATE_KEYS) as Hf; [|by rewrite Hf].
    unfold flags. apply Z.bits_inj'. intros n Hn.
    rewrite Z.land_spec, !Z.lor_spec.
    by destruct (Z.testbit AUTOCREATE_SECTIONS n), (Z.testbit AUTOCREATE_KEYS n). }
  assert (exists d', CDataFile_open fs' (m_szFileName d) = Returned d'
                     /\ m_szFileName d' = m_szFileName d /\ m_bDirty d' = false
                     /\ m_Sections d' = loaded_section <$> m_Sections d)
    as (d' & Hopen & Hn' & Hb' & Hs').
  { unfold CDataFile_open. cbv zeta. unfold Load.
    change (m_szFileName (set_Sections _ _)) with (m_szFileName d).
    rewrite Hfs. cbv zeta.
    match goal with
    | |- context [Load_stream _ ?st] =>
        change st with (mk_load_state (mk_CDataFile [new_Section] (m_szFileName d) false flags)
                                      (Some 0%nat) [])
    end.
    rewrite Hl. ret_bind.
    eexists. split; [reflexivity|].
    repeat destruct (negb _); repeat split; reflexivity. }
  exists fs', d'. split.
  - unfold Save.
    assert ((SectionCount d =? 0) = false) as ->.
    { rewrite SectionCount_length by done. rewrite Hd. apply Z.eqb_neq. simpl length. lia. }
    rewrite andb_false_r.
    assert ((size (m_szFileName d) =? 0) = false) as ->.
    { destruct (m_szFileName d); [done|]. apply Z.eqb_neq. unfold size. simpl length. lia. }
    rewrite Hw. cbn [negb]. rewrite Save_text_plain by done. done.
  - repeat split; try done.
    intros k s ret. rewrite !GetValue_value_of. by rewrite (value_of_loaded d d').
Qed.

End RoundTrip.

Section Overflow.
Context {hdr : Header}.

Lemma CommentStr_nil : CommentStr [] = Returned [].
Proof. rewrite CommentStr_short; [done|]. unfold size. simpl. lia. Qed.

Lemma Save_key_overflow File K :
  k_szKey K <> [] -> k_szComment K = [] ->
  (MAX_BUFFER_LEN <= length (c_str (k_szKey K)) + 1 + length (c_str (k_szValue K)))%nat ->
  Save_key File K = Undefined.
Proof.
  intros Hk Hc Hl. unfold Save_key.
  rewrite size_pos_ne by done. rewrite Hc, CommentStr_nil. ret_bind.
  change (0 <? size []) with false. cbv iota. cbn [c_str app].
  unfold WriteLn. rewrite length_app. simpl length.
  destruct (Nat.leb_spec MAX_BUFFER_LEN
              (length (c_str (k_szKey K)) + S (length (c_str (k_szValue K))))); [done|lia].
Qed.

Lemma Save_long_line d fs Keys K Sections :
  m_Sections d = mk_Section [] [] (K :: Keys) :: Sections ->
  m_szFileName d <> [] -> fs_writable fs (c_str (m_szFileName d)) = true ->
  k_szKey K <> [] -> k_szComment K = [] ->
  (MAX_BUFFER_LEN <= length (c_str (k_szKey K)) + 1 + length (c_str (k_szValue K)))%nat ->
  Z.of_nat (length Sections) < 2 ^ 31 - 1 ->
  Save d fs = Undefined.
Proof.
  intros Hd Hn Hw Hk Hc Hl Hlen. unfold Save.
  assert ((SectionCount d =? 0) = false) as ->.
  { unfold SectionCount. rewrite Hd. simpl length. rewrite to_int_small by lia.
    apply Z.eqb_neq. lia. }
  rewrite andb_false_r.
  assert ((size (m_szFileName d) =? 0) = false) as ->.
  { destruct (m_szFileName d); [done|]. apply Z.eqb_neq. unfold size. simpl length. lia. }
  rewrite Hw. cbn [negb]. unfold Save_text. rewrite Hd. cbn [for_each].
  assert (Save_section [] (mk_Section [] [] (K :: Keys)) = Undefined) as ->; [|done].
  unfold Save_section. cbn [s_szComment s_szName s_Keys].
  change (0 <? size []) with false. cbv iota. ret_bind. cbn [for_each].
  by rewrite Save_key_overflow.
Qed.

End Overflow.

(** ** A comment at the end of the file; the destructor *)

Section TrailingComment.
Context {hdr : Header}.

Lemma Load_stream_same_document lines R1 R2 :
  Forall (fun line => (LF ∉ line) /\ (length line < MAX_BUFFER_LEN)%nat) lines ->
  (forall st, ld_this <$> Load_stream R1 st = ld_this <$> Load_stream R2 st) ->
  forall st,
    ld_this <$> Load_stream (lines_text lines ++ R1) st
    = ld_this <$> Load_stream (lines_text lines ++ R2) st.
Proof.
  intros Hl HR. induction Hl as [|line lines [Hlf Hlen] _ IH]; intros st; [apply HR|].
  unfold lines_text. rewrite fmap_cons. cbn [concat].
  rewrite <- !app_assoc. cbn [app].
  rewrite !Load_stream_complete_line by done.
  destruct (Trim (c_str line) ≫= fun szLine => Load_line szLine st) as [st'| |]; [|done|done].
  cbn [mbind outcome_bind]. apply IH.
Qed.

Lemma Load_stream_comment_line c st :
  LF ∉ c -> (length c < MAX_BUFFER_LEN)%nat ->
  (exists szLine, Trim (c_str c) = Returned szLine
                  /\ find_first_of szLine CommentIndicators = 0) ->
  ld_this <$> Load_stream (c ++ [LF]) st = ld_this <$> Load_stream [] st.
Proof.
  intros Hlf Hlen (szLine & HT & Hc).
  rewrite Load_stream_complete_line by done. rewrite HT. ret_bind.
  rewrite Load_line_comment by done. ret_bind. by rewrite !Load_stream_end.
Qed.

Lemma Load_trailing_comment d fs szFileName fs' szFileName' lines c szLine :
  Forall (fun line => (LF ∉ line) /\ (length line < MAX_BUFFER_LEN)%nat) lines ->
  LF ∉ c -> (length c < MAX_BUFFER_LEN)%nat ->
  Trim (c_str c) = Returned szLine -> find_first_of szLine CommentIndicators = 0 ->
  fs_content fs (c_str szFileName) = Some (lines_text (lines ++ [c])) ->
  fs_content fs' (c_str szFileName') = Some (lines_text lines) ->
  Load d fs szFileName = Load d fs' szFileName'.
Proof.
  intros Hl Hlf Hlen HT Hc Hfs Hfs'. unfold Load. rewrite Hfs, Hfs'. cbv zeta.
  set (st := mk_load_state _ _ _).
  pose proof (Load_stream_same_document lines (c ++ [LF]) [] Hl
                (fun st => Load_stream_comment_line c st Hlf Hlen
                             (ex_intro _ szLine (conj HT Hc))) st) as H.
  rewrite app_nil_r in H.
  assert (lines_text (lines ++ [c]) = lines_text lines ++ c ++ [LF]) as ->.
  { unfold lines_text. rewrite fmap_app, concat_app. simpl. by rewrite app_nil_r. }
  destruct (Load_stream (lines_text lines ++ c ++ [LF]) st) as [r1| |],
           (Load_stream (lines_text lines) st) as [r2| |]; simpl in H;
    try discriminate H; try reflexivity.
  - injection H as H. ret_bind. by rewrite H.
  - injection H as H. ret_bind. by rewrite H.
Qed.

Lemma CDataFile_delete_open d fs :
  header_ok = true -> plain_document d = true ->
  Z.of_nat (length (m_Sections d)) < 2 ^ 31 ->
  m_szFileName d <> [] -> fs_writable fs (c_str (m_szFileName d)) = true ->
  m_bDirty d = true ->
  exists fs' d',
    CDataFile_delete d fs = Returned fs'
    /\ CDataFile_open fs' (m_szFileName d) = Returned d'
    /\ m_bDirty d' = false
    /\ forall szKey szSection ret,
         GetValue d' szKey szSection ret = GetValue d szKey szSection ret.
Proof.
  intros Hh Hp Hlen Hn Hw Hd.
  destruct (Save_open d fs Hh Hp Hlen Hn Hw) as (fs' & d' & HS & _ & Ho & _ & Hb & _ & Hv).
  exists fs', d'. split; [|done].
  unfold CDataFile_delete. rewrite Hd, HS. done.
Qed.

End TrailingComment.

(** ** Lemmas on [Report] *)

Lemma printf_no_args_plain s : "%"%char ∉ s -> printf_no_args s = Returned s.
Proof.
  induction s as [|c s IH]; [done|].
  rewrite not_elem_of_cons. intros [Hc Hs]. cbn [printf_no_args].
  rewrite decide_False by done. rewrite IH by done. done.
Qed.

Lemma printf_no_args_lone pre post :
  "%"%char ∉ pre -> hd_error post <> Some "%"%char ->
  printf_no_args (pre ++ "%"%char :: post) = Undefined.
Proof.
  intros Hpre Hpost. induction pre as [|c pre IH].
  - cbn [app printf_no_args]. rewrite decide_True by done.
    destruct post as [|c post]; [done|].
    rewrite decide_False; [done|]. intros ->. by apply Hpost.
  - apply not_elem_of_cons in Hpre as [Hc Hpre].
    cbn [app printf_no_args]. rewrite decide_False by done. by rewrite IH.
Qed.

Lemma c_str_app s1 s2 : NUL ∉ s1 -> c_str (s1 ++ s2) = s1 ++ c_str s2.
Proof.
  induction s1 as [|c s1 IH]; [done|].
  rewrite not_elem_of_cons. intros [Hc Hs]. cbn [app c_str].
  rewrite decide_False by done. by rewrite IH.
Qed.

Lemma level_name_plain level : (NUL ∉ level_name level) /\ ("%"%char ∉ level_name level).
Proof.
  destruct level; split; intros H;
    repeat (apply elem_of_cons in H as [H|H]; [discriminate|]);
    by apply elem_of_nil in H.
Qed.

Lemma hd_error_c_str s : hd_error s <> Some "%"%char -> hd_error (c_str s) <> Some "%"%char.
Proof.
  destruct s as [|c s]; [done|]. simpl. by destruct (decide (c = NUL)).
Qed.

Section ReportFacts.
Context {hdr : Header}.

Lemma Report_plain level msg :
  NUL ∉ msg -> "%"%char ∉ msg -> (length msg + 1 < MAX_BUFFER_LEN)%nat ->
  Report level msg = Returned (level_name level ++ msg ++ [LF]).
Proof.
  intros Hn Hp Hl. unfold Report.
  destruct (Nat.leb_spec MAX_BUFFER_LEN (length msg)); [lia|].
  destruct (Nat.leb_spec MAX_BUFFER_LEN (length msg + 1)); [lia|].
  destruct (level_name_plain level) as [Hln Hlp].
  assert (NUL ∉ msg ++ [LF]) as Hn'.
  { rewrite not_elem_of_app. split; [done|]. by intros ?%list_elem_of_singleton. }
  rewrite (c_str_id (msg ++ [LF])) by done.
  rewrite c_str_id by (by apply not_elem_of_app).
  apply printf_no_args_plain.
  rewrite !not_elem_of_app. split; [done|]. split; [done|].
  by intros ?%list_elem_of_singleton.
Qed.

Lemma Report_lone_percent level pre post :
  NUL ∉ pre -> "%"%char ∉ pre -> hd_error post <> Some "%"%char ->
  Report level (pre ++ "%"%char :: post) = Undefined.
Proof.
  intros Hn Hp Hpost. unfold Report.
  destruct (_ <=? _)%nat; [done|]. destruct (_ <=? _)%nat; [done|].
  destruct (level_name_plain level) as [Hln Hlp].
  rewrite <- app_assoc. cbn [app].
  rewrite (c_str_app pre) by done. cbn [c_str]. rewrite decide_False by done.
  rewrite (c_str_app (level_name level)) by done.
  rewrite (c_str_app pre) by apply c_str_no_NUL || done.
  cbn [c_str]. rewrite decide_False by done.
  rewrite app_assoc. apply printf_no_args_lone.
  - by apply not_elem_of_app.
  - apply hd_error_c_str, hd_error_c_str.
    destruct post as [|c post]; [|done]. simpl. discriminate.
Qed.

Lemma CreateSection_Report_plain d szSection :
  HasSection d szSection = true ->
  "%"%char ∉ c_str szSection ->
  (length (CreateSection_message szSection) + 1 < MAX_BUFFER_LEN)%nat ->
  CreateSection_Report d szSection
  = Some (Returned (str "<info> " ++ CreateSection_message szSection ++ [LF])).
Proof.
  intros Hs Hp Hl. unfold CreateSection_Report.
  unfold HasSection in Hs. apply bool_decide_eq_true in Hs.
  destruct (GetSection d szSection); [|done]. f_equal.
  apply (Report_plain E_INFO); [| |done].
  - unfold CreateSection_message. rewrite !not_elem_of_app.
    split; [|split; [apply c_str_no_NUL|]];
      intros H; repeat (apply elem_of_cons in H as [H|H]; [discriminate|]);
      by apply elem_of_nil in H.
  - unfold CreateSection_message. rewrite !not_elem_of_app.
    split; [|split; [done|]];
      intros H; repeat (apply elem_of_cons in H as [H|H]; [discriminate|]);
      by apply elem_of_nil in H.
Qed.

Lemma CreateSection_Report_percent d szSection a b :
  HasSection d szSection = true ->
  c_str szSection = a ++ "%"%char :: b -> "%"%char ∉ a -> hd_error b <> Some "%"%char ->
  CreateSection_Report d szSection = Some Undefined.
Proof.
  intros Hs Hn Ha Hb. unfold CreateSection_Report.
  unfold HasSection in Hs. apply bool_decide_eq_true in Hs.
  destruct (GetSection d szSection); [|done]. f_equal.
  unfold CreateSection_message. rewrite Hn.
  assert (NUL ∉ a) as Hna.
  { pose proof (c_str_no_NUL szSection) as H. rewrite Hn in H.
    by apply not_elem_of_app in H as [H _]. }
  rewrite <- !app_assoc. cbn [app]. rewrite app_assoc.
  apply Report_lone_percent.
  - rewrite not_elem_of_app. split; [|done].
    intros H; repeat (apply elem_of_cons in H as [H|H]; [discriminate|]);
      by apply elem_of_nil in H.
  - rewrite not_elem_of_app. split; [|done].
    intros H; repeat (apply elem_of_cons in H as [H|H]; [discriminate|]);
      by apply elem_of_nil in H.
  - destruct b as [|c b]; [|done]. simpl. discriminate.
Qed.

(** The call of [CreateSection] returns for a name that is not taken, and
    for one that is taken, has no percent sign and fits the buffer. *)
Lemma CreateSection_call_returns d szSection szComment :
  (HasSection d szSection = true ->
   ("%"%char ∉ c_str szSection)
   /\ (length (CreateSection_message szSection) + 1 < MAX_BUFFER_LEN)%nat) ->
  CreateSection_call d szSection szComment
  = Returned (CreateSection d szSection szComment).
Proof.
  intros Hr.
  destruct (GetSection d szSection) as [p|] eqn:E; [|by apply CreateSection_call_new].
  assert (HasSection d szSection = true) as Hs.
  { unfold HasSection. apply bool_decide_eq_true. by rewrite E. }
  destruct (Hr Hs) as [Hp Hl].
  pose proof (CreateSection_Report_plain d szSection Hs Hp Hl) as HR.
  unfold CreateSection_Report in HR. rewrite E in HR. injection HR as HR.
  unfold CreateSection_call, CreateSection. rewrite E, HR. done.
Qed.

(** It is undefined for a taken name with a lone percent sign. *)
Lemma CreateSection_call_percent d szSection szComment a b :
  HasSection d szSection = true ->
  c_str szSection = a ++ "%"%char :: b -> "%"%char ∉ a -> hd_error b <> Some "%"%char ->
  CreateSection_call d szSection szComment = Undefined.
Proof.
  intros Hs Hn Ha Hb.
  pose proof (CreateSection_Report_percent d szSection a b Hs Hn Ha Hb) as HR.
  unfold CreateSection_Report in HR. unfold CreateSection_call.
  destruct (GetSection d szSection); [|done]. injection HR as HR. by rewrite HR.
Qed.

Lemma SetFileName_Report_percent d szFileName a b :
  m_szFileName d <> [] -> CompareNoCase szFileName (m_szFileName d) <> 0 ->
  "%"%char ∉ c_str (m_szFileName d) ->
  c_str szFileName = a ++ "%"%char :: b -> "%"%char ∉ a -> hd_error b <> Some "%"%char ->
  SetFileName_Report d szFileName = Some Undefined.
Proof.
  intros Hne Hc Hold Hn Ha Hb. unfold SetFileName_Report.
  assert ((size (m_szFileName d) =? 0) = false) as ->.
  { destruct (m_szFileName d); [done|]. apply Z.eqb_neq. unfold size. simpl length. lia. }
  rewrite (proj2 (Z.eqb_neq _ _) Hc). cbn [negb andb]. f_equal.
  unfold SetFileName_message. rewrite Hn.
  assert (NUL ∉ a) as Hna.
  { pose proof (c_str_no_NUL szFileName) as H. rewrite Hn in H.
    by apply not_elem_of_app in H as [H _]. }
  rewrite <- !app_assoc. cbn [app].
  rewrite (app_assoc (c_str (m_szFileName d))), (app_assoc _ a), (app_assoc _ (_ ++ a)).
  apply Report_lone_percent.
  - rewrite !not_elem_of_app. repeat split; try done; try apply c_str_no_NUL.
    all: intros H; repeat (apply elem_of_cons in H as [H|H]; [discriminate|]);
      by apply elem_of_nil in H.
  - rewrite !not_elem_of_app. repeat split; try done.
    all: intros H; repeat (apply elem_of_cons in H as [H|H]; [discriminate|]);
      by apply elem_of_nil in H.
  - destruct b as [|c b]; [|done]. simpl. discriminate.
Qed.

End ReportFacts.

(* ===================================================================== *)
(** * The further properties *)
(* ===================================================================== *)

(** ** Text utilities *)

(** X1 (CompareNoCase): two strings compare equal exactly when their C
    strings are equal once every upper-case letter is lowered; hence the
    comparison is reflexive, symmetric and transitive. *)
Theorem CompareNoCase_is_an_equivalence (a b c : t_Str) :
  (CompareNoCase a b = 0 <-> tolower <$> c_str a = tolower <$> c_str b)
  /\ CompareNoCase a a = 0
  /\ (CompareNoCase a b = 0 -> CompareNoCase b a = 0)
  /\ (CompareNoCase a b = 0 -> CompareNoCase b c = 0 -> CompareNoCase a c = 0).
Proof.
  split; [apply CompareNoCase_0|]. split; [apply CompareNoCase_refl|].
  split; [apply CompareNoCase_sym|apply CompareNoCase_trans].
Qed.

(** X2 (Trim): on a string of at most 2^31 bytes [Trim] returns a
    contiguous part of the string; what it drops in front are trim
    characters (white space and equal indicators), what it drops behind is
    at most one trim character, and if the string has another character
    the result starts with one. *)
Theorem Trim_drops_trim_characters_only (hdr : Header) (s : t_Str) :
  size s <= 2 ^ 31 ->
  exists pre r post,
    Trim s = Returned r
    /\ s = pre ++ r ++ post
    /\ forallb (is_one_of trim_chars) pre = true
    /\ forallb (is_one_of trim_chars) post = true
    /\ (length post <= 1)%nat
    /\ (forallb (is_one_of trim_chars) s = false ->
        exists c r', r = c :: r' /\ is_one_of trim_chars c = false).
Proof.
  intros Hs. rewrite Trim_short by done.
  destruct (trim_left_split s) as (pre & Hpre & Hp).
  destruct (trim_right_split (trim_left s)) as (post & Hpost & Hq & Hl).
  exists pre, (trim_right (trim_left s)), post.
  split; [done|]. split; [by rewrite <- Hpost|]. split; [done|]. split; [done|].
  split; [done|]. intros Hne.
  destruct (trim_left_starts s Hne) as (c & r & -> & Hc).
  destruct (trim_right_keeps_head c r Hc) as [r' ->]. by exists c, r'.
Qed.

Lemma Trim_drops_trim_characters_only_witness :
  exists pre r post,
    Trim (str "  ab= ") = Returned r
    /\ str "  ab= " = pre ++ r ++ post
    /\ forallb (is_one_of trim_chars) pre = true
    /\ forallb (is_one_of trim_chars) post = true
    /\ (length post <= 1)%nat
    /\ (forallb (is_one_of trim_chars) (str "  ab= ") = false ->
        exists c r', r = c :: r' /\ is_one_of trim_chars c = false).
Proof.
  apply (Trim_drops_trim_characters_only spec_header (str "  ab= ")).
  vm_compute. discriminate.
Defined.

(** X3 (GetNextWord): the word is the text before the first equal
    indicator, trimmed by [Trim]; what follows that indicator is left in
    the line untouched, and nothing is left when there is no indicator. *)
Theorem GetNextWord_splits_at_first_equal_indicator (hdr : Header) (k rest : t_Str) :
  size (k ++ rest) < 2 ^ 31 ->
  forallb (not_in EqualIndicators) k = true ->
  match rest with [] => true | e :: _ => is_one_of EqualIndicators e end = true ->
  GetNextWord (k ++ rest) = Returned (trim_right (trim_left k), tail rest).
Proof.
  intros Hs Hk Hr.
  assert (size k <= 2 ^ 31) as Hsk by (unfold size in *; rewrite length_app in Hs; lia).
  destruct rest as [|e v].
  - rewrite app_nil_r. rewrite GetNextWord_no_delimiter by done.
    by rewrite Trim_short.
  - rewrite GetNextWord_delimiter by done. by rewrite Trim_short.
Qed.

Lemma GetNextWord_splits_at_first_equal_indicator_witness :
  GetNextWord (str "Port " ++ str "= 80=x")
  = Returned (trim_right (trim_left (str "Port ")), tail (str "= 80=x")).
Proof.
  apply (GetNextWord_splits_at_first_equal_indicator spec_header (str "Port ") (str "= 80=x"));
    vm_compute; reflexivity.
Defined.



(** ** The accessor API *)

(** X5 (SetValue, GetValue): a value that [SetValue] accepted is the one
    [GetValue] returns, for the key and the section named with any
    letter case. *)
Theorem SetValue_then_GetValue (hdr : Header) d szKey szValue szComment szSection d'
    szKey' szSection' ret :
  SetValue d szKey szValue szComment szSection = (true, d') ->
  CompareNoCase szKey szKey' = 0 -> CompareNoCase szSection szSection' = 0 ->
  GetValue d' szKey' szSection' ret = (true, szValue).
Proof. apply SetValue_GetValue. Qed.

Lemma SetValue_then_GetValue_witness :
  GetValue (snd (SetValue CDataFile_new (str "Port") (str "1200") [] (str "Net")))
           (str "PORT") (str "net") (str "?")
  = (true, str "1200").
Proof.
  apply (SetValue_then_GetValue spec_header CDataFile_new (str "Port") (str "1200") []
           (str "Net") _ (str "PORT") (str "net") (str "?")); reflexivity.
Defined.

(** X6 (SetValue): [SetValue] changes the answer of [GetValue] for the key
    and the section it names, when it returns true, and for no other key:
    every other answer is the one given before, whether or not a section
    or a key was created. *)
Theorem SetValue_changes_one_answer (hdr : Header) d szKey szValue szComment szSection
    szKey' szSection' ret :
  GetValue (snd (SetValue d szKey szValue szComment szSection)) szKey' szSection' ret
  = if fst (SetValue d szKey szValue szComment szSection)
       && bool_decide (CompareNoCase szKey szKey' = 0)
       && bool_decide (CompareNoCase szSection szSection' = 0)
    then (true, szValue)
    else GetValue d szKey' szSection' ret.
Proof.
  rewrite !GetValue_value_of, SetValue_value_of. by destruct (_ && _).
Qed.

(** X7 (SetBool, GetBool): a boolean that [SetBool] stored is the one
    [GetBool] reads back. *)
Theorem SetBool_then_GetBool (hdr : Header) d szKey (bValue : bool) szComment szSection d'
    szKey' szSection' ret :
  SetBool d szKey bValue szComment szSection = (true, d') ->
  CompareNoCase szKey szKey' = 0 -> CompareNoCase szSection szSection' = 0 ->
  GetBool d' szKey' szSection' ret = (true, bValue).
Proof. apply SetBool_GetBool_same. Qed.

Lemma SetBool_then_GetBool_witness :
  GetBool (snd (SetBool CDataFile_new (str "Debug") false [] (str "Net")))
          (str "debug") (str "NET") true
  = (true, false).
Proof.
  apply (SetBool_then_GetBool spec_header CDataFile_new (str "Debug") false []
           (str "Net") _ (str "debug") (str "NET") true); reflexivity.
Defined.

(** X8 (SetInt, GetInt): an [int] that [SetInt] stored is the one [GetInt]
    reads back. *)
Theorem SetInt_then_GetInt (hdr : Header) d szKey nValue szComment szSection d'
    szKey' szSection' ret :
  - 2 ^ 31 <= nValue <= INT_MAX ->
  SetInt d szKey nValue szComment szSection = (true, d') ->
  CompareNoCase szKey szKey' = 0 -> CompareNoCase szSection szSection' = 0 ->
  GetInt d' szKey' szSection' ret = (true, nValue).
Proof. apply SetInt_GetInt_same. Qed.

Lemma SetInt_then_GetInt_witness :
  GetInt (snd (SetInt CDataFile_new (str "Offset") (- 2147483648) [] (str "Net")))
         (str "offset") (str "net") 7
  = (true, - 2147483648).
Proof.
  apply (SetInt_then_GetInt spec_header CDataFile_new (str "Offset") (- 2147483648) []
           (str "Net") _ (str "offset") (str "net") 7).
  - vm_compute. split; discriminate.
  - reflexivity.
  - reflexivity.
  - reflexivity.
Defined.

(** X9 (GetInt): [GetInt] reads the integer at the start of the value: it
    skips white space before the number and stops at the first character
    after the digits, whatever follows. *)
Theorem GetInt_reads_leading_integer (hdr : Header) d szKey szSection ret ws n rest :
  GetValue d szKey szSection [] = (true, ws ++ format_d n ++ rest) ->
  - 2 ^ 31 <= n <= INT_MAX ->
  forallb isspace ws = true ->
  match rest with [] => true | c :: _ => negb (isdigit c) end = true ->
  GetInt d szKey szSection ret = (true, n).
Proof.
  intros H. by apply (GetInt_value d szKey szSection (ws ++ format_d n ++ rest) ret ws n rest).
Qed.

Lemma GetInt_reads_leading_integer_witness :
  GetInt (snd (SetValue CDataFile_new (str "Size") (str "  -12 px") [] [])) (str "Size") [] 0
  = (true, -12).
Proof.
  apply (GetInt_reads_leading_integer spec_header _ (str "Size") [] 0
           (str "  ") (-12) (str " px")).
  - reflexivity.
  - vm_compute. split; discriminate.
  - reflexivity.
  - reflexivity.
Defined.

(** X10 (CreateKey): in an existing section [CreateKey] stores the value
    whether or not keys are created automatically, overwriting a key of
    that name, and leaves [m_Flags] as it found it (when the bits of
    AUTOCREATE_KEYS were all set or all clear). *)
Theorem CreateKey_stores_the_value (hdr : Header) d szKey szValue szComment szSection :
  AUTOCREATE_KEYS <> 0 -> HasSection d szSection = true ->
  exists d',
    CreateKey d szKey szValue szComment szSection = (true, d')
    /\ (forall szKey' szSection' ret,
          CompareNoCase szKey szKey' = 0 -> CompareNoCase szSection szSection' = 0 ->
          GetValue d' szKey' szSection' ret = (true, szValue))
    /\ (Z.land (m_Flags d) AUTOCREATE_KEYS = 0
        \/ Z.land (m_Flags d) AUTOCREATE_KEYS = AUTOCREATE_KEYS ->
        m_Flags d' = m_Flags d).
Proof.
  intros Hak Hs. apply CreateKey_creates; [done|].
  unfold HasSection in Hs. by apply bool_decide_eq_true in Hs.
Qed.

Lemma CreateKey_stores_the_value_witness :
  exists d',
    CreateKey no_auto_keys (str "NewKey") (str "v") [] (str "ExistingSection") = (true, d')
    /\ (forall szKey' szSection' ret,
          CompareNoCase (str "NewKey") szKey' = 0 ->
          CompareNoCase (str "ExistingSection") szSection' = 0 ->
          GetValue d' szKey' szSection' ret = (true, str "v"))
    /\ (Z.land (m_Flags no_auto_keys) AUTOCREATE_KEYS = 0
        \/ Z.land (m_Flags no_auto_keys) AUTOCREATE_KEYS = AUTOCREATE_KEYS ->
        m_Flags d' = m_Flags no_auto_keys).
Proof.
  apply (CreateKey_stores_the_value spec_header no_auto_keys (str "NewKey") (str "v") []
           (str "ExistingSection")).
  - vm_compute. discriminate.
  - reflexivity.
Defined.

(** X11 (CreateSection, HasSection): a call of [CreateSection] with a name
    that no section has, with any letter case, or with a taken name that
    has no percent sign and whose message fits the buffer of [Report],
    returns; it returns true exactly when the name was not taken; afterwards
    the document has a section of that name and the sections it had, and
    every [GetValue] answers as before. When the name was taken the
    document is not changed. *)
Theorem CreateSection_adds_one_name (hdr : Header) d szSection szComment :
  (HasSection d szSection = true ->
   ("%"%char ∉ c_str szSection)
   /\ (length (CreateSection_message szSection) + 1 < MAX_BUFFER_LEN)%nat) ->
  exists d',
    CreateSection_call d szSection szComment = Returned (negb (HasSection d szSection), d')
    /\ (forall szSection',
          HasSection d' szSection'
          = HasSection d szSection' || bool_decide (CompareNoCase szSection szSection' = 0))
    /\ (forall szKey szSection' ret,
          GetValue d' szKey szSection' ret = GetValue d szKey szSection' ret)
    /\ (HasSection d szSection = true -> d' = d).
Proof.
  intros Hr. exists (snd (CreateSection d szSection szComment)).
  split.
  { rewrite CreateSection_call_returns by done.
    rewrite <- (CreateSection_fst d szSection szComment).
    by destruct (CreateSection d szSection szComment). }
  split; [intros; apply CreateSection_HasSection|].
  split.
  - intros k s' ret. by rewrite !GetValue_value_of, CreateSection_value_of.
  - intros H. rewrite CreateSection_existing; [done|].
    unfold HasSection in H. by apply bool_decide_eq_true in H.
Qed.

Lemma CreateSection_adds_one_name_witness :
  exists d',
    CreateSection_call settings (str "usersettings") (str "c")
    = Returned (negb (HasSection settings (str "usersettings")), d')
    /\ (forall szSection',
          HasSection d' szSection'
          = HasSection settings szSection'
            || bool_decide (CompareNoCase (str "usersettings") szSection' = 0))
    /\ (forall szKey szSection' ret,
          GetValue d' szKey szSection' ret = GetValue settings szKey szSection' ret)
    /\ (HasSection settings (str "usersettings") = true -> d' = settings).
Proof.
  apply (CreateSection_adds_one_name spec_header settings (str "usersettings") (str "c")).
  intros _. split; [apply not_in_spec; reflexivity|vm_compute; lia].
Defined.

(** X12 (CreateSection, SetValue, CreateKey, DeleteKey, DeleteSection,
    SetKeyComment, SetSectionComment): in a document where no two sections
    have the same name, and no two keys of a section have, with any letter
    case, each of these operations leaves a document of that kind; for
    [CreateSection], every call that returns does. *)
Theorem names_stay_distinct (hdr : Header) d :
  well_formed d = true ->
  (forall szSection szComment b d',
     CreateSection_call d szSection szComment = Returned (b, d') ->
     well_formed d' = true)
  /\ (forall szKey szValue szComment szSection,
        well_formed (snd (SetValue d szKey szValue szComment szSection)) = true)
  /\ (forall szKey szValue szComment szSection,
        well_formed (snd (CreateKey d szKey szValue szComment szSection)) = true)
  /\ (forall szKey szSection, well_formed (snd (DeleteKey d szKey szSection)) = true)
  /\ (forall szSection, well_formed (snd (DeleteSection d szSection)) = true)
  /\ (forall szKey szComment szSection,
        well_formed (snd (SetKeyComment d szKey szComment szSection)) = true)
  /\ (forall szSection szComment,
        well_formed (snd (SetSectionComment d szSection szComment)) = true).
Proof.
  intros H. repeat split; intros.
  - match goal with E : CreateSection_call _ ?n ?c = Returned (_, ?r) |- _ =>
      apply CreateSection_call_Returned in E;
      replace r with (snd (CreateSection d n c)) by (by rewrite <- E)
    end.
    by apply CreateSection_well_formed.
  - by apply SetValue_well_formed.
  - by apply CreateKey_well_formed.
  - by apply DeleteKey_well_formed.
  - by apply DeleteSection_well_formed.
  - by apply SetKeyComment_well_formed.
  - by apply SetSectionComment_well_formed.
Qed.

Lemma names_stay_distinct_witness :
  (forall szSection szComment b d',
     CreateSection_call settings szSection szComment = Returned (b, d') ->
     well_formed d' = true)
  /\ (forall szKey szValue szComment szSection,
        well_formed (snd (SetValue settings szKey szValue szComment szSection)) = true)
  /\ (forall szKey szValue szComment szSection,
        well_formed (snd (CreateKey settings szKey szValue szComment szSection)) = true)
  /\ (forall szKey szSection, well_formed (snd (DeleteKey settings szKey szSection)) = true)
  /\ (forall szSection, well_formed (snd (DeleteSection settings szSection)) = true)
  /\ (forall szKey szComment szSection,
        well_formed (snd (SetKeyComment settings szKey szComment szSection)) = true)
  /\ (forall szSection szComment,
        well_formed (snd (SetSectionComment settings szSection szComment)) = true).
Proof. apply (names_stay_distinct spec_header settings). vm_compute. reflexivity. Defined.

(** X13 (DeleteSection, HasSection): when section names are distinct,
    [DeleteSection] returns whether the section existed; afterwards no
    section has that name, the other sections are there as before, and
    [GetValue] fails for the keys of the deleted section and answers as
    before for the others. *)
Theorem DeleteSection_removes_the_section (hdr : Header) d szSection :
  well_formed d = true ->
  fst (DeleteSection d szSection) = HasSection d szSection
  /\ (forall szSection',
        HasSection (snd (DeleteSection d szSection)) szSection'
        = negb (bool_decide (CompareNoCase szSection szSection' = 0))
          && HasSection d szSection')
  /\ (forall szKey szSection' ret,
        GetValue (snd (DeleteSection d szSection)) szKey szSection' ret
        = if bool_decide (CompareNoCase szSection szSection' = 0) then (false, ret)
          else GetValue d szKey szSection' ret).
Proof.
  intros Hw. split; [apply DeleteSection_fst|].
  split; [intros; by apply DeleteSection_HasSection|].
  intros k s' ret. rewrite !GetValue_value_of, DeleteSection_value_of by done.
  destruct (decide (CompareNoCase szSection s' = 0)) as [Hs|Hs].
  - by rewrite (bool_decide_eq_true_2 _ Hs).
  - by rewrite (bool_decide_eq_false_2 _ Hs).
Qed.

Lemma DeleteSection_removes_the_section_witness :
  fst (DeleteSection settings (str "usersettings")) = HasSection settings (str "usersettings")
  /\ (forall szSection',
        HasSection (snd (DeleteSection settings (str "usersettings"))) szSection'
        = negb (bool_decide (CompareNoCase (str "usersettings") szSection' = 0))
          && HasSection settings szSection')
  /\ (forall szKey szSection' ret,
        GetValue (snd (DeleteSection settings (str "usersettings"))) szKey szSection' ret
        = if bool_decide (CompareNoCase (str "usersettings") szSection' = 0) then (false, ret)
          else GetValue settings szKey szSection' ret).
Proof.
  apply (DeleteSection_removes_the_section spec_header settings (str "usersettings")).
  vm_compute. reflexivity.
Defined.

(** X14 (DeleteKey): when key names are distinct, [DeleteKey] returns
    whether the key existed; afterwards [GetValue] fails for that key,
    leaving the caller's variable alone, and answers as before for every
    other key. *)
Theorem DeleteKey_removes_the_key (hdr : Header) d szKey szSection :
  well_formed d = true ->
  fst (DeleteKey d szKey szSection) = bool_decide (GetKey d szKey szSection <> None)
  /\ (forall szKey' szSection' ret,
        GetValue (snd (DeleteKey d szKey szSection)) szKey' szSection' ret
        = if bool_decide (CompareNoCase szKey szKey' = 0)
             && bool_decide (CompareNoCase szSection szSection' = 0)
          then (false, ret)
          else GetValue d szKey' szSection' ret).
Proof.
  intros Hw. split; [apply DeleteKey_fst|].
  intros k' s' ret. rewrite !GetValue_value_of, DeleteKey_value_of by done.
  by destruct (_ && _).
Qed.

Lemma DeleteKey_removes_the_key_witness :
  fst (DeleteKey settings (str "PORT") (str "ServerSettings"))
  = bool_decide (GetKey settings (str "PORT") (str "ServerSettings") <> None)
  /\ (forall szKey' szSection' ret,
        GetValue (snd (DeleteKey settings (str "PORT") (str "ServerSettings")))
                 szKey' szSection' ret
        = if bool_decide (CompareNoCase (str "PORT") szKey' = 0)
             && bool_decide (CompareNoCase (str "ServerSettings") szSection' = 0)
          then (false, ret)
          else GetValue settings szKey' szSection' ret).
Proof.
  apply (DeleteKey_removes_the_key spec_header settings (str "PORT") (str "ServerSettings")).
  vm_compute. reflexivity.
Defined.

(** X15 (KeyCount, SectionCount): as long as there are fewer than 2^31 of
    them, [KeyCount] is the number of keys of all the sections and
    [SectionCount] the number of sections. *)
Theorem counts_are_exact (hdr : Header) d :
  Z.of_nat (total_keys d) < 2 ^ 31 -> Z.of_nat (length (m_Sections d)) < 2 ^ 31 ->
  KeyCount d = Z.of_nat (total_keys d)
  /\ SectionCount d = Z.of_nat (length (m_Sections d)).
Proof. intros H1 H2. split; [by apply KeyCount_total|by apply SectionCount_length]. Qed.

Lemma counts_are_exact_witness :
  KeyCount settings = Z.of_nat (total_keys settings)
  /\ SectionCount settings = Z.of_nat (length (m_Sections settings)).
Proof. apply (counts_are_exact spec_header settings); vm_compute; reflexivity. Defined.

(** X16 (SetValue, DeleteKey, KeyCount): [SetValue] adds one to [KeyCount]
    when it returns true for a key that did not exist, and leaves it
    otherwise; [DeleteKey] takes one from it when it returns true. *)
Theorem KeyCount_follows_the_keys (hdr : Header) d szKey szValue szComment szSection :
  Z.of_nat (total_keys d) < 2 ^ 31 - 1 ->
  KeyCount (snd (SetValue d szKey szValue szComment szSection))
  = KeyCount d
    + (if fst (SetValue d szKey szValue szComment szSection)
          && bool_decide (GetKey d szKey szSection = None) then 1 else 0)
  /\ KeyCount (snd (DeleteKey d szKey szSection))
     = KeyCount d - (if fst (DeleteKey d szKey szSection) then 1 else 0).
Proof.
  intros H.
  pose proof (SetValue_total_keys d szKey szValue szComment szSection) as H1.
  pose proof (DeleteKey_total_keys d szKey szSection) as H2.
  assert (Z.of_nat (total_keys (snd (SetValue d szKey szValue szComment szSection))) < 2 ^ 31)
    as H3 by (rewrite H1; destruct (_ && _); lia).
  assert (Z.of_nat (total_keys (snd (DeleteKey d szKey szSection))) < 2 ^ 31)
    as H4 by (destruct (fst (DeleteKey d szKey szSection)); lia).
  rewrite (KeyCount_total _ H3), (KeyCount_total _ H4), (KeyCount_total d) by lia.
  split.
  - rewrite H1. destruct (_ && _); lia.
  - destruct (fst (DeleteKey d szKey szSection)); lia.
Qed.

Lemma KeyCount_follows_the_keys_witness :
  KeyCount (snd (SetValue settings (str "Port") (str "80") [] (str "ServerSettings")))
  = KeyCount settings
    + (if fst (SetValue settings (str "Port") (str "80") [] (str "ServerSettings"))
          && bool_decide (GetKey settings (str "Port") (str "ServerSettings") = None)
       then 1 else 0)
  /\ KeyCount (snd (DeleteKey settings (str "Port") (str "ServerSettings")))
     = KeyCount settings
       - (if fst (DeleteKey settings (str "Port") (str "ServerSettings")) then 1 else 0).
Proof.
  apply (KeyCount_follows_the_keys spec_header settings (str "Port") (str "80") []
           (str "ServerSettings")).
  vm_compute. reflexivity.
Defined.

(** X17 (SetKeyComment, SetSectionComment): setting the comment of a key or
    of a section changes no answer of [GetValue] and no answer of
    [HasSection]. *)
Theorem comments_change_no_value (hdr : Header) d szKey szSection szComment
    szKey' szSection' ret :
  GetValue (snd (SetKeyComment d szKey szComment szSection)) szKey' szSection' ret
  = GetValue d szKey' szSection' ret
  /\ GetValue (snd (SetSectionComment d szSection szComment)) szKey' szSection' ret
     = GetValue d szKey' szSection' ret
  /\ HasSection (snd (SetKeyComment d szKey szComment szSection)) szSection'
     = HasSection d szSection'
  /\ HasSection (snd (SetSectionComment d szSection szComment)) szSection'
     = HasSection d szSection'.
Proof.
  rewrite !GetValue_value_of, SetKeyComment_value_of, SetSectionComment_value_of.
  split; [done|]. split; [done|]. split.
  - unfold SetKeyComment. destruct (GetKey d szKey szSection) as [pKey|]; [|done].
    unfold HasSection, alter_key. cbn [snd].
    by rewrite GetSection_set_Dirty, GetSection_alter.
  - unfold SetSectionComment. destruct (list_find _ _) as [[p Sec]|]; [|done].
    unfold HasSection. cbn [snd]. by rewrite GetSection_set_Dirty, GetSection_alter.
Qed.

(** ** Reading and writing *)

(** X18 (Load): [Load] adds to the document and removes nothing: when it
    returns, every section and every key the document had is still there,
    and if names were distinct before they are distinct afterwards. *)
Theorem Load_merges_into_the_document (hdr : Header) d fs szFileName b d' :
  Load d fs szFileName = Returned (b, d') ->
  (forall szSection, HasSection d szSection = true -> HasSection d' szSection = true)
  /\ (forall szKey szSection,
        fst (GetValue d szKey szSection []) = true ->
        fst (GetValue d' szKey szSection []) = true)
  /\ (well_formed d = true -> well_formed d' = true).
Proof.
  intros H. destruct (Load_keeps _ _ _ _ _ H) as (_ & Hw & _ & Hs & Hv & _).
  split; [done|]. split; [|done].
  intros k s. rewrite !GetValue_value_of. specialize (Hv k s).
  destruct (value_of d k s); [|done]. intros _.
  destruct (value_of d' k s); [done|]. by exfalso; apply Hv.
Qed.

Lemma Load_merges_into_the_document_witness :
  exists d',
    Load settings (one_file (str "f") (str "[Extra]" ++ [LF] ++ str "a=b" ++ [LF])) (str "f")
    = Returned (true, d')
    /\ (forall szSection,
          HasSection settings szSection = true -> HasSection d' szSection = true)
    /\ (forall szKey szSection,
          fst (GetValue settings szKey szSection []) = true ->
          fst (GetValue d' szKey szSection []) = true)
    /\ (well_formed settings = true -> well_formed d' = true).
Proof.
  eexists. split; [vm_compute; reflexivity|].
  apply (Load_merges_into_the_document spec_header settings
           (one_file (str "f") (str "[Extra]" ++ [LF] ++ str "a=b" ++ [LF])) (str "f") true).
  vm_compute. reflexivity.
Defined.

(** X19 (Load): when [Load] returns it has left the file name alone, has
    not cleared the dirty flag, and has put [m_Flags] back (when the bits
    of each of the two flags were all set or all clear, and the two flags
    share no bit). *)
Theorem Load_restores_the_flags (hdr : Header) d fs szFileName b d' :
  Load d fs szFileName = Returned (b, d') ->
  m_szFileName d' = m_szFileName d
  /\ (m_bDirty d = true -> m_bDirty d' = true)
  /\ ((Z.land (m_Flags d) AUTOCREATE_KEYS = 0
       \/ Z.land (m_Flags d) AUTOCREATE_KEYS = AUTOCREATE_KEYS) ->
      (Z.land (m_Flags d) AUTOCREATE_SECTIONS = 0
       \/ Z.land (m_Flags d) AUTOCREATE_SECTIONS = AUTOCREATE_SECTIONS) ->
      Z.land AUTOCREATE_KEYS AUTOCREATE_SECTIONS = 0 ->
      m_Flags d' = m_Flags d).
Proof.
  intros H. destruct (Load_keeps _ _ _ _ _ H) as (Hn & _ & Hd & _ & _ & Hf). done.
Qed.

Lemma Load_restores_the_flags_witness :
  exists d',
    Load no_auto_keys (one_file (str "f") (str "a=b" ++ [LF])) (str "f") = Returned (true, d')
    /\ m_szFileName d' = m_szFileName no_auto_keys
    /\ (m_bDirty no_auto_keys = true -> m_bDirty d' = true)
    /\ ((Z.land (m_Flags no_auto_keys) AUTOCREATE_KEYS = 0
         \/ Z.land (m_Flags no_auto_keys) AUTOCREATE_KEYS = AUTOCREATE_KEYS) ->
        (Z.land (m_Flags no_auto_keys) AUTOCREATE_SECTIONS = 0
         \/ Z.land (m_Flags no_auto_keys) AUTOCREATE_SECTIONS = AUTOCREATE_SECTIONS) ->
        Z.land AUTOCREATE_KEYS AUTOCREATE_SECTIONS = 0 ->
        m_Flags d' = m_Flags no_auto_keys).
Proof.
  eexists. split; [vm_compute; reflexivity|].
  apply (Load_restores_the_flags spec_header no_auto_keys
           (one_file (str "f") (str "a=b" ++ [LF])) (str "f") true).
  vm_compute. reflexivity.
Defined.

(** X20 (Load): a file without an opening bracket, whatever else it holds
    (lines of any length, NUL bytes, no final line feed), is loaded
    without an exception and without undefined behaviour, and [Load]
    returns true, provided the document has its default section and the
    line buffer has at most 2^31 bytes. *)
Theorem Load_without_headers_returns (hdr : Header) d fs szFileName File :
  Z.of_nat MAX_BUFFER_LEN <= 2 ^ 31 ->
  HasSection d [] = true ->
  fs_content fs (c_str szFileName) = Some File ->
  "["%char ∉ File ->
  exists d', Load d fs szFileName = Returned (true, d').
Proof. apply Load_no_header. Qed.

Lemma Load_without_headers_returns_witness :
  exists d',
    Load CDataFile_new (one_file (str "f") (str "; c" ++ [LF] ++ str "a = b" ++ [LF; NUL]))
         (str "f")
    = Returned (true, d').
Proof.
  apply (Load_without_headers_returns spec_header CDataFile_new
           (one_file (str "f") (str "; c" ++ [LF] ++ str "a = b" ++ [LF; NUL])) (str "f")
           (str "; c" ++ [LF] ++ str "a = b" ++ [LF; NUL])).
  - vm_compute. discriminate.
  - reflexivity.
  - reflexivity.
  - apply not_in_spec. reflexivity.
Defined.

(** X21 (Load): a line of MAX_BUFFER_LEN characters or more ends the
    loading: its first MAX_BUFFER_LEN - 1 characters are read as the last
    line and whatever follows in the file is ignored, [Load] behaving as
    on the file cut there. *)
Theorem Load_stops_at_a_long_line (hdr : Header) d fs szFileName fs' szFileName'
    lines long rest :
  Forall (fun line => (LF ∉ line) /\ (length line < MAX_BUFFER_LEN)%nat) lines ->
  LF ∉ long -> (MAX_BUFFER_LEN <= length long)%nat -> (0 < MAX_BUFFER_LEN)%nat ->
  fs_content fs (c_str szFileName) = Some (lines_text lines ++ long ++ rest) ->
  fs_content fs' (c_str szFileName')
    = Some (lines_text lines ++ take (MAX_BUFFER_LEN - 1) long) ->
  Load d fs szFileName = Load d fs' szFileName'.
Proof. apply Load_long_line. Qed.

Lemma Load_stops_at_a_long_line_witness :
  Load CDataFile_new
       (one_file (str "f")
          (lines_text [str "a=b"] ++ (str "k=" ++ replicate 600 "v"%char)
           ++ (LF :: str "lost=1" ++ [LF])))
       (str "f")
  = Load CDataFile_new
         (one_file (str "g")
            (lines_text [str "a=b"]
             ++ take (MAX_BUFFER_LEN - 1) (str "k=" ++ replicate 600 "v"%char)))
         (str "g").
Proof.
  apply (Load_stops_at_a_long_line spec_header CDataFile_new _ (str "f") _ (str "g")
           [str "a=b"] (str "k=" ++ replicate 600 "v"%char) (LF :: str "lost=1" ++ [LF])).
  - apply Forall_singleton. split; [apply not_in_spec; reflexivity|vm_compute; lia].
  - apply not_in_spec. vm_compute. reflexivity.
  - vm_compute. lia.
  - vm_compute. lia.
  - reflexivity.
  - reflexivity.
Defined.

(** X22 (Save, CDataFile(szFileName), GetValue): a plain document with a
    file name that can be written is saved, [Save] returning true, and the
    document the constructor then builds from that file has the file name,
    is not dirty, holds the sections, keys and values of the saved one and
    answers every [GetValue] as the saved one does. *)
Theorem Save_then_open (hdr : Header) d fs :
  header_ok = true -> plain_document d = true ->
  Z.of_nat (length (m_Sections d)) < 2 ^ 31 ->
  m_szFileName d <> [] -> fs_writable fs (c_str (m_szFileName d)) = true ->
  exists fs' d',
    Save d fs = Returned (true, set_Dirty false d, fs')
    /\ fs_content fs' (c_str (m_szFileName d)) = Some (document_text d)
    /\ CDataFile_open fs' (m_szFileName d) = Returned d'
    /\ m_szFileName d' = m_szFileName d
    /\ m_bDirty d' = false
    /\ m_Sections d' = loaded_section <$> m_Sections d
    /\ forall szKey szSection ret,
         GetValue d' szKey szSection ret = GetValue d szKey szSection ret.
Proof. apply Save_open. Qed.

Lemma Save_then_open_witness :
  exists fs' d',
    Save dirty_doc (one_file (str "f") []) = Returned (true, set_Dirty false dirty_doc, fs')
    /\ fs_content fs' (c_str (m_szFileName dirty_doc)) = Some (document_text dirty_doc)
    /\ CDataFile_open fs' (m_szFileName dirty_doc) = Returned d'
    /\ m_szFileName d' = m_szFileName dirty_doc
    /\ m_bDirty d' = false
    /\ m_Sections d' = loaded_section <$> m_Sections dirty_doc
    /\ forall szKey szSection ret,
         GetValue d' szKey szSection ret = GetValue dirty_doc szKey szSection ret.
Proof.
  apply (Save_then_open spec_header dirty_doc (one_file (str "f") [])).
  - vm_compute. reflexivity.
  - vm_compute. reflexivity.
  - vm_compute. reflexivity.
  - vm_compute. discriminate.
  - vm_compute. reflexivity.
Defined.

(** X23 (Save, WriteLn): [SetValue] takes a value of any length, but [Save]
    writes each key through a buffer of MAX_BUFFER_LEN bytes: when the
    first key of the default section, without a comment, makes a line of
    MAX_BUFFER_LEN characters or more, [Save] reads outside the buffer of
    [WriteLn] (undefined behaviour). *)
Theorem Save_overflows_on_a_long_line (hdr : Header) d fs Keys Key Sections :
  m_Sections d = mk_Section [] [] (Key :: Keys) :: Sections ->
  m_szFileName d <> [] -> fs_writable fs (c_str (m_szFileName d)) = true ->
  k_szKey Key <> [] -> k_szComment Key = [] ->
  (MAX_BUFFER_LEN <= length (c_str (k_szKey Key)) + 1 + length (c_str (k_szValue Key)))%nat ->
  Z.of_nat (length Sections) < 2 ^ 31 - 1 ->
  Save d fs = Undefined.
Proof. apply Save_long_line. Qed.

Lemma Save_overflows_on_a_long_line_witness :
  Save (SetFileName (snd (SetValue CDataFile_new (str "k") (replicate 600 "v"%char) [] []))
                    (str "f"))
       (one_file (str "f") [])
  = Undefined.
Proof.
  apply (Save_overflows_on_a_long_line spec_header _ _ []
           (mk_Key (str "k") (replicate 600 "v"%char) []) []).
  - reflexivity.
  - vm_compute. discriminate.
  - reflexivity.
  - vm_compute. discriminate.
  - reflexivity.
  - vm_compute. lia.
  - vm_compute. reflexivity.
Defined.

(** ** Diagnostics *)

(** X24 (Report): a message without NUL and without a percent sign, short
    enough for the buffer with its line feed, is printed after the name of
    its level and followed by a line feed. *)
Theorem Report_prints_the_message (hdr : Header) level msg :
  NUL ∉ msg -> "%"%char ∉ msg -> (length msg + 1 < MAX_BUFFER_LEN)%nat ->
  Report level msg = Returned (level_name level ++ msg ++ [LF]).
Proof. apply Report_plain. Qed.

Lemma Report_prints_the_message_witness :
  Report E_ERROR (str "[CDataFile::Save] Unable to save file.")
  = Returned (level_name E_ERROR ++ str "[CDataFile::Save] Unable to save file." ++ [LF]).
Proof.
  apply (Report_prints_the_message spec_header E_ERROR
           (str "[CDataFile::Save] Unable to save file.")).
  - apply not_in_spec. reflexivity.
  - apply not_in_spec. reflexivity.
  - vm_compute. lia.
Defined.

(** X25 (Report): the formatted message is handed to [printf] as its
    format: a percent sign in it that is not followed by a second one
    makes [printf] read an argument that was not passed (undefined
    behaviour), whatever the length of the message. *)
Theorem Report_takes_the_message_as_a_format (hdr : Header) level pre post :
  NUL ∉ pre -> "%"%char ∉ pre -> hd_error post <> Some "%"%char ->
  Report level (pre ++ "%"%char :: post) = Undefined.
Proof. apply Report_lone_percent. Qed.

Lemma Report_takes_the_message_as_a_format_witness :
  Report E_INFO (str "Section <50" ++ "%"%char :: str "s> done") = Undefined.
Proof.
  apply (Report_takes_the_message_as_a_format spec_header E_INFO
           (str "Section <50") (str "s> done")).
  - apply not_in_spec. reflexivity.
  - apply not_in_spec. reflexivity.
  - vm_compute. discriminate.
Defined.

(** X26 (CreateSection, Report): for a name that is taken [CreateSection]
    prints that the section exists, after the level <info>, when the name
    has no percent sign and the message fits the buffer; a name with a
    single percent sign makes that call undefined. *)
Theorem CreateSection_reports_a_taken_name (hdr : Header) d szSection :
  HasSection d szSection = true ->
  ("%"%char ∉ c_str szSection ->
   (length (CreateSection_message szSection) + 1 < MAX_BUFFER_LEN)%nat ->
   CreateSection_Report d szSection
   = Some (Returned (str "<info> " ++ CreateSection_message szSection ++ [LF])))
  /\ (forall a b,
        c_str szSection = a ++ "%"%char :: b -> "%"%char ∉ a ->
        hd_error b <> Some "%"%char ->
        CreateSection_Report d szSection = Some Undefined).
Proof.
  intros H. split.
  - by apply CreateSection_Report_plain.
  - intros a b. by apply CreateSection_Report_percent.
Qed.

Lemma CreateSection_reports_a_taken_name_witness :
  ("%"%char ∉ c_str (str "usersettings") ->
   (length (CreateSection_message (str "usersettings")) + 1 < MAX_BUFFER_LEN)%nat ->
   CreateSection_Report settings (str "usersettings")
   = Some (Returned (str "<info> " ++ CreateSection_message (str "usersettings") ++ [LF])))
  /\ (forall a b,
        c_str (str "usersettings") = a ++ "%"%char :: b -> "%"%char ∉ a ->
        hd_error b <> Some "%"%char ->
        CreateSection_Report settings (str "usersettings") = Some Undefined).
Proof.
  apply (CreateSection_reports_a_taken_name spec_header settings (str "usersettings")).
  reflexivity.
Defined.

(** X27 (SetFileName, Report): when [SetFileName] replaces a file name by
    one that differs from it, the diagnostic it prints is undefined if the
    new name holds a single percent sign. *)
Theorem SetFileName_reports_through_a_format (hdr : Header) d szFileName a b :
  m_szFileName d <> [] -> CompareNoCase szFileName (m_szFileName d) <> 0 ->
  "%"%char ∉ c_str (m_szFileName d) ->
  c_str szFileName = a ++ "%"%char :: b -> "%"%char ∉ a -> hd_error b <> Some "%"%char ->
  SetFileName_Report d szFileName = Some Undefined.
Proof. apply SetFileName_Report_percent. Qed.

Lemma SetFileName_reports_through_a_format_witness :
  SetFileName_Report dirty_doc (str "100" ++ "%"%char :: str ".ini") = Some Undefined.
Proof.
  apply (SetFileName_reports_through_a_format spec_header dirty_doc
           (str "100" ++ "%"%char :: str ".ini") (str "100") (str ".ini")).
  - vm_compute. discriminate.
  - vm_compute. discriminate.
  - apply not_in_spec. reflexivity.
  - reflexivity.
  - apply not_in_spec. reflexivity.
  - vm_compute. discriminate.
Defined.

(** ** Reading and writing, continued *)

(** X28 (Load): a comment line at the end of the file is dropped: [Load]
    collects it as the comment of the next section or key, there is none,
    and the result is the one for the file without that line. *)
Theorem Load_drops_a_trailing_comment (hdr : Header) d fs szFileName fs' szFileName'
    lines c szLine :
  Forall (fun line => (LF ∉ line) /\ (length line < MAX_BUFFER_LEN)%nat) lines ->
  LF ∉ c -> (length c < MAX_BUFFER_LEN)%nat ->
  Trim (c_str c) = Returned szLine -> find_first_of szLine CommentIndicators = 0 ->
  fs_content fs (c_str szFileName) = Some (lines_text (lines ++ [c])) ->
  fs_content fs' (c_str szFileName') = Some (lines_text lines) ->
  Load d fs szFileName = Load d fs' szFileName'.
Proof. apply Load_trailing_comment. Qed.

Lemma Load_drops_a_trailing_comment_witness :
  Load CDataFile_new (one_file (str "f") (lines_text ([str "a=b"] ++ [str "; the end"])))
       (str "f")
  = Load CDataFile_new (one_file (str "g") (lines_text [str "a=b"])) (str "g").
Proof.
  apply (Load_drops_a_trailing_comment spec_header CDataFile_new _ (str "f") _ (str "g")
           [str "a=b"] (str "; the end") (str "; the end")).
  - apply Forall_singleton. split; [apply not_in_spec; reflexivity|vm_compute; lia].
  - apply not_in_spec. reflexivity.
  - vm_compute. lia.
  - vm_compute. reflexivity.
  - reflexivity.
  - reflexivity.
  - reflexivity.
Defined.

(** X29 (~CDataFile, CDataFile(szFileName)): a dirty plain document with a
    file name that can be written is saved by the destructor, and the
    document the constructor then builds from that file is not dirty and
    answers every [GetValue] as the destroyed one did. *)
Theorem destructor_then_constructor (hdr : Header) d fs :
  header_ok = true -> plain_document d = true ->
  Z.of_nat (length (m_Sections d)) < 2 ^ 31 ->
  m_szFileName d <> [] -> fs_writable fs (c_str (m_szFileName d)) = true ->
  m_bDirty d = true ->
  exists fs' d',
    CDataFile_delete d fs = Returned fs'
    /\ CDataFile_open fs' (m_szFileName d) = Returned d'
    /\ m_bDirty d' = false
    /\ forall szKey szSection ret,
         GetValue d' szKey szSection ret = GetValue d szKey szSection ret.
Proof. apply CDataFile_delete_open. Qed.

Lemma destructor_then_constructor_witness :
  exists fs' d',
    CDataFile_delete dirty_doc (one_file (str "f") []) = Returned fs'
    /\ CDataFile_open fs' (m_szFileName dirty_doc) = Returned d'
    /\ m_bDirty d' = false
    /\ forall szKey szSection ret,
         GetValue d' szKey szSection ret = GetValue dirty_doc szKey szSection ret.
Proof.
  apply (destructor_then_constructor spec_header dirty_doc (one_file (str "f") [])).
  - vm_compute. reflexivity.
  - vm_compute. reflexivity.
  - vm_compute. reflexivity.
  - vm_compute. discriminate.
  - vm_compute. reflexivity.
  - reflexivity.
Defined.

(** X30 (Load, CreateSection, Report): [Load] reports a header that comes
    twice through [CreateSection]. With the header a twice it returns true
    and the document has one section a; with the header 50% twice the
    report hands a lone percent sign to [printf], and the call is
    undefined. *)
Theorem Load_reports_a_repeated_header :
  Load CDataFile_new (one_file (str "f") (str "[a]" ++ [LF] ++ str "[a]" ++ [LF])) (str "f")
  = Returned (true, snd (CreateSection CDataFile_new (str "a") []))
  /\ Load CDataFile_new
          (one_file (str "f") (str "[50%]" ++ [LF] ++ str "[50%]" ++ [LF])) (str "f")
     = Undefined.
Proof. split; vm_compute; reflexivity. Qed.
